(** * GitHub Security Auditor: the retrieval engine of [backend/main.py]

    A shallow embedding of the rate-limit-aware retrieval engine
    (request executor, paginated collector, per-repository units and the
    server-sent-event generators) and the properties of its specification. *)

From Stdlib Require Import ZArith Ascii String Bool Arith Lia List Permutation.
Import ListNotations.

Set Warnings "-register-all".

Local Open Scope string_scope.
Local Open Scope list_scope.

(** ** Python values

    The values that travel through the engine are decoded JSON documents:
    [None], booleans, integers, strings, lists and dictionaries.  A
    dictionary keeps its items in insertion order, as Python's [dict]. *)

Inductive value : Type :=
| VNone
| VBool (b : bool)
| VInt (z : Z)
| VStr (s : string)
| VList (l : list value)
| VDict (d : list (string * value)).

(** The exceptions of the program.  [HTTPException] is FastAPI's typed
    failure; [ClientError] stands for aiohttp's transport failures, which
    [session.get] raises; the others are Python's dynamic errors. *)
Inductive exn : Type :=
| HTTPException (status_code : Z) (detail : value)
| KeyError (key : string)
| IndexError
| TypeError
| AttributeError
| ValueError
| ClientError.

(** What running a piece of code delivers: a value, an exception, or no
    result at all ([Stuck]: a loop that has used up its iteration bound, or
    a coroutine that waits for a semaphore permit that never comes). *)
Inductive outcome (A : Type) : Type :=
| Ret (a : A)
| Raise (e : exn)
| Stuck.

Arguments Ret {A} a.
Arguments Raise {A} e.
Arguments Stuck {A}.

(** [bool(v)]: Python's truth value. *)
Definition truthy (v : value) : bool :=
  match v with
  | VNone => false
  | VBool b => b
  | VInt z => negb (z =? 0)%Z
  | VStr s => negb (String.length s =? 0)%nat
  | VList l => negb (length l =? 0)%nat
  | VDict d => negb (length d =? 0)%nat
  end.

Fixpoint lookup (key : string) (d : list (string * value)) : option value :=
  match d with
  | [] => None
  | (k, v) :: rest => if String.eqb k key then Some v else lookup key rest
  end.

(** [d.get(key, default)]; only dictionaries have the method. *)
Definition py_get (d : value) (key : string) (default : value) : outcome value :=
  match d with
  | VDict items =>
      Ret (match lookup key items with Some v => v | None => default end)
  | _ => Raise AttributeError
  end.

(** [d[key]] with a string key. *)
Definition py_getitem (d : value) (key : string) : outcome value :=
  match d with
  | VDict items =>
      match lookup key items with
      | Some v => Ret v
      | None => Raise (KeyError key)
      end
  | _ => Raise TypeError
  end.

Fixpoint chars (s : string) : list value :=
  match s with
  | EmptyString => []
  | String c rest => VStr (String c EmptyString) :: chars rest
  end.

(** Iteration ([for x in v], [list.extend(v)]): a list gives its elements,
    a string its characters, a dictionary its keys. *)
Definition py_iter (v : value) : outcome (list value) :=
  match v with
  | VList l => Ret l
  | VStr s => Ret (chars s)
  | VDict d => Ret (map (fun kv => VStr (fst kv)) d)
  | _ => Raise TypeError
  end.

(** [len(v)]. *)
Definition py_len (v : value) : outcome nat :=
  match py_iter v with
  | Ret l => Ret (length l)
  | Raise e => Raise e
  | Stuck => Stuck
  end.

(** [v == s] for a string literal [s]. *)
Definition py_eq_str (v : value) (s : string) : bool :=
  match v with
  | VStr t => String.eqb t s
  | _ => false
  end.

(** [v > 0]: integers and booleans compare with an integer, the other
    values raise. *)
Definition py_gt_zero (v : value) : outcome bool :=
  match v with
  | VInt z => Ret (0 <? z)%Z
  | VBool b => Ret b
  | _ => Raise TypeError
  end.

(** [sep.join(l)]: every element has to be a string. *)
Fixpoint py_join (sep : string) (l : list value) : outcome string :=
  match l with
  | [] => Ret EmptyString
  | VStr s :: rest =>
      match rest with
      | [] => Ret s
      | _ :: _ =>
          match py_join sep rest with
          | Ret t => Ret (s ++ sep ++ t)%string
          | Raise e => Raise e
          | Stuck => Stuck
          end
      end
  | _ :: _ => Raise TypeError
  end.

(** ** The state-and-exception monad

    [M S A] is a computation over a state [S] that ends in an [outcome A].
    The state survives an exception: what was requested, slept or emitted
    before a failure has happened. *)

Definition M (S A : Type) : Type := S -> outcome A * S.

Definition ret {S A : Type} (a : A) : M S A := fun s => (Ret a, s).

Definition raise {S A : Type} (e : exn) : M S A := fun s => (Raise e, s).

Definition stuck {S A : Type} : M S A := fun s => (Stuck, s).

Definition bind {S A B : Type} (m : M S A) (k : A -> M S B) : M S B :=
  fun s =>
    match m s with
    | (Ret a, s') => k a s'
    | (Raise e, s') => (Raise e, s')
    | (Stuck, s') => (Stuck, s')
    end.

Definition of_outcome {S A : Type} (o : outcome A) : M S A := fun s => (o, s).

Declare Scope monad_scope.
Delimit Scope monad_scope with monad.
Notation "x <- m ;; k" := (bind m (fun x => k))
  (at level 61, m at next level, right associativity) : monad_scope.
Notation "' pat <- m ;; k" := (bind m (fun x => match x with pat => k end))
  (at level 61, pat pattern, m at next level, right associativity) : monad_scope.
Notation "m ;; k" := (bind m (fun _ => k))
  (at level 61, right associativity) : monad_scope.
Local Open Scope monad_scope.

(** A Python [for] loop whose body updates one local variable. *)
Fixpoint for_each {S A L : Type} (xs : list A) (body : A -> L -> M S L) (acc : L)
  : M S L :=
  match xs with
  | [] => ret acc
  | x :: rest => acc' <- body x acc ;; for_each rest body acc'
  end.

(** ** The remote service and the network state *)

(** A URL is kept as the parts of its f-string. *)
Inductive part : Type :=
| Lit (s : string)
| Interp (v : value).

Record request : Type := {
  url : list part;
  headers : list (string * string);
  params : option (list (string * value))
}.

(** A response: its status, the [X-RateLimit-Reset] header (epoch seconds,
    [None] when the header is absent or empty), the decoded JSON body, the
    body as text and the reason phrase. *)
Record response : Type := {
  status : Z;
  reset : option Z;
  json : value;
  text : string;
  reason : string
}.

Inductive exchange : Type :=
| Responds (r : response)
| Fails.

(** The five module-level semaphores. *)
Inductive semaphore : Type :=
| _AUDIT_SEM | _BRANCH_SEM | _ACCESS_SEM | _MEMBER_SEM | _TEAM_SEM.

Definition semaphore_eqb (a b : semaphore) : bool :=
  match a, b with
  | _AUDIT_SEM, _AUDIT_SEM | _BRANCH_SEM, _BRANCH_SEM
  | _ACCESS_SEM, _ACCESS_SEM | _MEMBER_SEM, _MEMBER_SEM
  | _TEAM_SEM, _TEAM_SEM => true
  | _, _ => false
  end.

(** The session stands for the remote service: [answer n q] is what the
    request [q] gets when [n] requests were issued before it, and [clock n]
    is the reading of [int(time.time())] once [n] requests were issued. *)
Record ClientSession : Type := {
  answer : nat -> request -> exchange;
  clock : nat -> Z
}.

(** The network state: the requests issued so far, the arguments of the
    [asyncio.sleep] calls so far (both oldest first) and the free permits of
    each semaphore. *)
Record net : Type := {
  issued : list request;
  slept : list Z;
  permits : semaphore -> nat
}.

Definition initial_net : net :=
  {| issued := []; slept := []; permits := fun _ => 5 |}.

(** [await session.get(url, headers=headers, params=params)] *)
Definition session_get (session : ClientSession) (url : list part)
    (headers : list (string * string)) (params : option (list (string * value)))
  : M net response :=
  fun s =>
    let q := {| url := url; headers := headers; params := params |} in
    let s' := {| issued := issued s ++ [q]; slept := slept s;
                 permits := permits s |} in
    match answer session (length (issued s)) q with
    | Responds r => (Ret r, s')
    | Fails => (Raise ClientError, s')
    end.

(** [int(time.time())] *)
Definition time_time (session : ClientSession) : M net Z :=
  fun s => (Ret (clock session (length (issued s))), s).

(** [await asyncio.sleep(wait)] *)
Definition asyncio_sleep (wait : Z) : M net unit :=
  fun s => (Ret tt, {| issued := issued s; slept := slept s ++ [wait];
                       permits := permits s |}).

(** ** Shared helpers *)

Definition GH_API : string := "https://api.github.com".

Definition _gh_headers (token : string) : list (string * string) :=
  [ ("Authorization", ("Bearer " ++ token)%string);
    ("Accept", "application/vnd.github+json");
    ("X-GitHub-Api-Version", "2022-11-28") ].

(** The wait before the next attempt, lines 59-64 of [_fetch_with_retry]:
    [attempt] is the loop variable, counted from 0. *)
Definition retry_wait (session : ClientSession) (resp : response) (attempt : nat)
  : M net Z :=
  match reset resp with
  | Some reset_ts =>
      now <- time_time session ;;
      let wait := Z.max (reset_ts - now) 1 in
      ret (Z.min wait 120)
  | None => ret (30 * (Z.of_nat attempt + 1))%Z
  end.

(** The [for attempt in range(max_retries)] loop with what follows it;
    [remaining] counts the iterations left. *)
Fixpoint retry_loop (session : ClientSession) (url : list part)
    (headers : list (string * string)) (params : option (list (string * value)))
    (attempt remaining : nat) : M net response :=
  match remaining with
  | O => session_get session url headers params
  | S remaining' =>
      resp <- session_get session url headers params ;;
      if (status resp =? 403)%Z then
        wait <- retry_wait session resp attempt ;;
        asyncio_sleep wait ;;
        retry_loop session url headers params (S attempt) remaining'
      else ret resp
  end.

Definition _fetch_with_retry (session : ClientSession) (url : list part)
    (headers : list (string * string)) (params : option (list (string * value)))
    (max_retries : nat) : M net response :=
  retry_loop session url headers params 0 max_retries.

(** Every call in the program leaves [max_retries] at its default. *)
Definition max_retries_default : nat := 3.

Definition org_repos_url (org : string) : list part :=
  [Lit GH_API; Lit "/orgs/"; Interp (VStr org); Lit "/repos"].

Definition page_params (page : Z) : option (list (string * value)) :=
  Some [("per_page", VInt 100); ("page", VInt page)].

(** The [while True] loop of [_fetch_all_repos]; [fuel] bounds the number
    of iterations. *)
Fixpoint fetch_all_repos_loop (session : ClientSession) (org : string)
    (headers : list (string * string)) (fuel : nat)
    (all_repos : list value) (page : Z) : M net (list value) :=
  match fuel with
  | O => stuck
  | S fuel' =>
      resp <- _fetch_with_retry session (org_repos_url org) headers
                (page_params page) max_retries_default ;;
      if (status resp =? 401)%Z then
        raise (HTTPException 401 (VStr "Invalid GitHub token."))
      else if (status resp =? 404)%Z then
        raise (HTTPException 404
                 (VStr ("Organization '" ++ org ++ "' not found.")%string))
      else if negb (status resp =? 200)%Z then
        raise (HTTPException (status resp)
                 (VStr ("GitHub API error: " ++ text resp)%string))
      else
        let repos := json resp in
        if negb (truthy repos) then ret all_repos
        else
          items <- of_outcome (py_iter repos) ;;
          fetch_all_repos_loop session org headers fuel'
            (all_repos ++ items) (page + 1)%Z
  end.

Definition _fetch_all_repos (session : ClientSession) (org : string)
    (headers : list (string * string)) (fuel : nat) : M net (list value) :=
  fetch_all_repos_loop session org headers fuel [] 1%Z.

(** ** The semaphore *)

(** [await sem.acquire()]: with no free permit the coroutine waits. *)
Definition acquire (sem : semaphore) : M net unit :=
  fun s =>
    if (permits s sem =? 0)%nat then (Stuck, s)
    else (Ret tt,
          {| issued := issued s; slept := slept s;
             permits := fun x => if semaphore_eqb x sem then permits s x - 1
                                 else permits s x |}).

(** [sem.release()] *)
Definition release (sem : semaphore) (s : net) : net :=
  {| issued := issued s; slept := slept s;
     permits := fun x => if semaphore_eqb x sem then permits s x + 1
                         else permits s x |}.

(** [async with sem: body]: the permit is taken on entry and given back
    when the body is left, by [return] or by an exception. *)
Definition async_with (sem : semaphore) {A : Type} (body : M net A) : M net A :=
  acquire sem ;;
  fun s =>
    match body s with
    | (Ret a, s') => (Ret a, release sem s')
    | (Raise e, s') => (Raise e, release sem s')
    | (Stuck, s') => (Stuck, s')
    end.

(** [await asyncio.gather(...)].  The awaitables of one unit run
    concurrently in the program; here they run one after the other, in
    argument order, and the first exception met is the one raised. *)
Fixpoint gather {S A : Type} (aws : list (M S A)) : M S (list A) :=
  match aws with
  | [] => ret []
  | a :: rest => x <- a ;; xs <- gather rest ;; ret (x :: xs)
  end.

(** ** The repository audit unit *)

Definition _check_codeowners (session : ClientSession) (org : string)
    (repo : value) (headers : list (string * string)) : M net bool :=
  let paths := ["CODEOWNERS"; "docs/CODEOWNERS"; ".github/CODEOWNERS"] in
  let _check_path (path : string) : M net bool :=
    resp <- _fetch_with_retry session
              [Lit GH_API; Lit "/repos/"; Interp (VStr org); Lit "/";
               Interp repo; Lit "/contents/"; Interp (VStr path)]
              headers None max_retries_default ;;
    let status := status resp in
    ret (status =? 200)%Z in
  results <- gather (map _check_path paths) ;;
  ret (existsb (fun b => b) results).

(** The body of [for rule in rules] in [_check_branch_rules]; the loop state
    is [(allows_direct_push, has_required_reviewers)]. *)
Definition branch_rule_step (rule : value) (acc : bool * bool)
  : M net (bool * bool) :=
  let '(allows_direct_push, has_required_reviewers) := acc in
  rule_type <- of_outcome (py_get rule "type" VNone) ;;
  if py_eq_str rule_type "pull_request" then
    let allows_direct_push := false in
    params <- of_outcome (py_get rule "parameters" (VDict [])) ;;
    count <- of_outcome (py_get params "required_approving_review_count" (VInt 0)) ;;
    positive <- of_outcome (py_gt_zero count) ;;
    if positive then ret (allows_direct_push, true)
    else ret (allows_direct_push, has_required_reviewers)
  else ret (allows_direct_push, has_required_reviewers).

Definition _check_branch_rules (session : ClientSession) (org : string)
    (repo branch : value) (headers : list (string * string))
  : M net (bool * bool) :=
  let allows_direct_push := true in
  let has_required_reviewers := false in
  resp <- _fetch_with_retry session
            [Lit GH_API; Lit "/repos/"; Interp (VStr org); Lit "/"; Interp repo;
             Lit "/rules/branches/"; Interp branch]
            headers None max_retries_default ;;
  if (status resp =? 200)%Z then
    let rules := json resp in
    rules <- of_outcome (py_iter rules) ;;
    for_each rules branch_rule_step (allows_direct_push, has_required_reviewers)
  else ret (allows_direct_push, has_required_reviewers).

(** [u.get("login", "") for u in users] *)
Fixpoint logins (users : list value) : outcome (list value) :=
  match users with
  | [] => Ret []
  | u :: rest =>
      match py_get u "login" (VStr EmptyString) with
      | Ret login =>
          match logins rest with
          | Ret more => Ret (login :: more)
          | Raise e => Raise e
          | Stuck => Stuck
          end
      | Raise e => Raise e
      | Stuck => Stuck
      end
  end.

(** The [while True] loop of [_get_admins]. *)
Fixpoint get_admins_loop (session : ClientSession) (org : string) (repo : value)
    (headers : list (string * string)) (fuel : nat)
    (admins : list value) (page : Z) : M net (nat * string) :=
  match fuel with
  | O => stuck
  | S fuel' =>
      resp <- _fetch_with_retry session
                [Lit GH_API; Lit "/repos/"; Interp (VStr org); Lit "/";
                 Interp repo; Lit "/collaborators"]
                headers
                (Some [("permission", VStr "admin"); ("per_page", VInt 100);
                       ("page", VInt page)])
                max_retries_default ;;
      if negb (status resp =? 200)%Z then ret (0, EmptyString)
      else
        let users := json resp in
        if negb (truthy users) then
          names <- of_outcome (py_join ", " admins) ;;
          ret (length admins, names)
        else
          users <- of_outcome (py_iter users) ;;
          more <- of_outcome (logins users) ;;
          get_admins_loop session org repo headers fuel' (admins ++ more)
            (page + 1)%Z
  end.

Definition _get_admins (session : ClientSession) (org : string) (repo : value)
    (headers : list (string * string)) (fuel : nat) : M net (nat * string) :=
  get_admins_loop session org repo headers fuel [] 1%Z.

(** The [while True] loop of [_get_branch_count]. *)
Fixpoint get_branch_count_loop (session : ClientSession) (org : string)
    (repo : value) (headers : list (string * string)) (fuel : nat)
    (count : nat) (page : Z) : M net nat :=
  match fuel with
  | O => stuck
  | S fuel' =>
      resp <- _fetch_with_retry session
                [Lit GH_API; Lit "/repos/"; Interp (VStr org); Lit "/";
                 Interp repo; Lit "/branches"]
                headers (page_params page) max_retries_default ;;
      if negb (status resp =? 200)%Z then ret count
      else
        let branches := json resp in
        if negb (truthy branches) then ret count
        else
          n <- of_outcome (py_len branches) ;;
          get_branch_count_loop session org repo headers fuel' (count + n)
            (page + 1)%Z
  end.

Definition _get_branch_count (session : ClientSession) (org : string)
    (repo : value) (headers : list (string * string)) (fuel : nat) : M net nat :=
  get_branch_count_loop session org repo headers fuel 0 1%Z.

Definition _audit_single_repo (sem : semaphore) (session : ClientSession)
    (org : string) (repo : value) (headers : list (string * string))
    (fuel : nat) : M net value :=
  async_with sem (
    name <- of_outcome (py_getitem repo "name") ;;
    branch <- of_outcome (py_get repo "default_branch" (VStr "main")) ;;
    has_codeowners <- _check_codeowners session org name headers ;;
    '(allows_direct_push, has_required_reviewers) <-
       _check_branch_rules session org name branch headers ;;
    '(admin_count, admin_names) <- _get_admins session org name headers fuel ;;
    branch_count <- _get_branch_count session org name headers fuel ;;
    description <- of_outcome (py_get repo "description" VNone) ;;
    topics <- of_outcome (py_get repo "topics" (VList [])) ;;
    topics <- of_outcome (py_iter topics) ;;
    topics <- of_outcome (py_join ", " topics) ;;
    private <- of_outcome (py_get repo "private" (VBool false)) ;;
    archived <- of_outcome (py_get repo "archived" (VBool false)) ;;
    language <- of_outcome (py_get repo "language" VNone) ;;
    stars <- of_outcome (py_get repo "stargazers_count" (VInt 0)) ;;
    forks <- of_outcome (py_get repo "forks_count" (VInt 0)) ;;
    html_url <- of_outcome (py_get repo "html_url" (VStr EmptyString)) ;;
    ret (VDict [
      ("repository", name);
      ("owner", VStr org);
      ("description", description);
      ("topics", VStr topics);
      ("private", private);
      ("archived", archived);
      ("default_branch", branch);
      ("language", language);
      ("stars", stars);
      ("forks", forks);
      ("admin_count", VInt (Z.of_nat admin_count));
      ("admin_names", VStr admin_names);
      ("has_codeowners", VBool has_codeowners);
      ("has_required_reviewers", VBool has_required_reviewers);
      ("allows_direct_push", VBool allows_direct_push);
      ("url", html_url);
      ("branch_count", VInt (Z.of_nat branch_count))
    ])).

(** [v == 0]; [False == 0] holds in Python. *)
Definition py_eq_zero (v : value) : bool :=
  match v with
  | VInt z => (z =? 0)%Z
  | VBool b => negb b
  | _ => false
  end.

(** [a or b] *)
Definition py_or (a b : value) : value := if truthy a then a else b.

(** [v[0]] *)
Definition py_first (v : value) : outcome value :=
  match v with
  | VList (x :: _) => Ret x
  | VStr (String c _) => Ret (VStr (String c EmptyString))
  | VList [] | VStr EmptyString => Raise IndexError
  | VDict _ => Raise (KeyError "0")
  | _ => Raise TypeError
  end.

(** [s.replace("Z", "+00:00")] *)
Fixpoint replace_Z (s : string) : string :=
  match s with
  | EmptyString => EmptyString
  | String c rest =>
      if Ascii.eqb c "Z"%char then ("+00:00" ++ replace_Z rest)%string
      else String c (replace_Z rest)
  end.

Section Engine.

(** The [datetime] library is taken as given: [datetime_now n] is
    [datetime.now(timezone.utc)] once [n] requests were issued,
    [fromisoformat] raises [ValueError] on a malformed date, [strftime] is
    [strftime("%Y-%m-%d")] and [days_between a b] is [(a - b).days]. *)
Variable datetime : Type.
Variable datetime_now : nat -> datetime.
Variable fromisoformat : string -> outcome datetime.
Variable strftime : datetime -> string.
Variable days_between : datetime -> datetime -> Z.

Definition now_utc : M net datetime :=
  fun s => (Ret (datetime_now (length (issued s))), s).

(** [datetime.fromisoformat(v.replace("Z", "+00:00"))] *)
Definition parse_date (v : value) : outcome datetime :=
  match v with
  | VStr s => fromisoformat (replace_Z s)
  | _ => Raise AttributeError
  end.

(** ** The branch audit unit *)

(** The body of [for b in branches] in [_get_branch_details]. *)
Definition branch_details_step (session : ClientSession) (org : string)
    (repo_name : value) (headers : list (string * string)) (now : datetime)
    (b : value) (branches_out : list value) : M net (list value) :=
  branch_name <- of_outcome (py_get b "name" (VStr EmptyString)) ;;
  protected <- of_outcome (py_get b "protected" (VBool false)) ;;
  commit_data <- of_outcome (py_get b "commit" (VDict [])) ;;
  sha <- of_outcome (py_get commit_data "sha" (VStr EmptyString)) ;;
  let last_commit_date := VNone in
  let age_days := VNone in
  '(last_commit_date, age_days) <-
    (if truthy sha then
       c_resp <- _fetch_with_retry session
                   [Lit GH_API; Lit "/repos/"; Interp (VStr org); Lit "/";
                    Interp repo_name; Lit "/commits/"; Interp sha]
                   headers None max_retries_default ;;
       if (status c_resp =? 200)%Z then
         let commit_detail := json c_resp in
         commit <- of_outcome (py_get commit_detail "commit" (VDict [])) ;;
         committer <- of_outcome (py_get commit "committer" (VDict [])) ;;
         date_str <- of_outcome (py_get committer "date" VNone) ;;
         if truthy date_str then
           commit_dt <- of_outcome (parse_date date_str) ;;
           ret (VStr (strftime commit_dt), VInt (days_between now commit_dt))
         else ret (last_commit_date, age_days)
       else ret (last_commit_date, age_days)
     else ret (last_commit_date, age_days)) ;;
  ret (branches_out ++ [VDict [
    ("repository", repo_name);
    ("branch_name", branch_name);
    ("last_commit_date", last_commit_date);
    ("age_days", age_days);
    ("protected", protected)
  ]]).

(** The [while True] loop of [_get_branch_details]. *)
Fixpoint get_branch_details_loop (session : ClientSession) (org : string)
    (repo_name : value) (headers : list (string * string)) (now : datetime)
    (fuel : nat) (branches_out : list value) (page : Z) : M net (list value) :=
  match fuel with
  | O => stuck
  | S fuel' =>
      resp <- _fetch_with_retry session
                [Lit GH_API; Lit "/repos/"; Interp (VStr org); Lit "/";
                 Interp repo_name; Lit "/branches"]
                headers (page_params page) max_retries_default ;;
      if negb (status resp =? 200)%Z then ret branches_out
      else
        let branches := json resp in
        if negb (truthy branches) then ret branches_out
        else
          branches <- of_outcome (py_iter branches) ;;
          branches_out <-
            for_each branches
              (branch_details_step session org repo_name headers now)
              branches_out ;;
          get_branch_details_loop session org repo_name headers now fuel'
            branches_out (page + 1)%Z
  end.

Definition _get_branch_details (session : ClientSession) (org : string)
    (repo_name : value) (headers : list (string * string)) (fuel : nat)
  : M net (list value) :=
  now <- now_utc ;;
  get_branch_details_loop session org repo_name headers now fuel [] 1%Z.

Definition _scan_repo_branches (sem : semaphore) (session : ClientSession)
    (org : string) (repo_name : value) (headers : list (string * string))
    (fuel : nat) : M net (list value) :=
  async_with sem (_get_branch_details session org repo_name headers fuel).

(** ** The access audit unit *)

(** The body of [for c in collabs] in [_get_repo_access]. *)
Definition repo_access_step (repo_name : value) (c : value)
    (records : list value) : M net (list value) :=
  perms <- of_outcome (py_get c "permissions" (VDict [])) ;;
  admin <- of_outcome (py_get perms "admin" VNone) ;;
  level <-
    (if truthy admin then ret "admin"
     else
       maintain <- of_outcome (py_get perms "maintain" VNone) ;;
       if truthy maintain then ret "maintain"
       else
         push <- of_outcome (py_get perms "push" VNone) ;;
         if truthy push then ret "write" else ret "read") ;;
  username <- of_outcome (py_get c "login" (VStr EmptyString)) ;;
  ret (records ++ [VDict [
    ("repository", repo_name);
    ("username", username);
    ("permission", VStr level)
  ]]).

(** The [while True] loop of [_get_repo_access]. *)
Fixpoint get_repo_access_loop (session : ClientSession) (org : string)
    (repo_name : value) (headers : list (string * string)) (fuel : nat)
    (records : list value) (page : Z) : M net (list value) :=
  match fuel with
  | O => stuck
  | S fuel' =>
      resp <- _fetch_with_retry session
                [Lit GH_API; Lit "/repos/"; Interp (VStr org); Lit "/";
                 Interp repo_name; Lit "/collaborators"]
                headers (page_params page) max_retries_default ;;
      if negb (status resp =? 200)%Z then ret records
      else
        let collabs := json resp in
        if negb (truthy collabs) then ret records
        else
          collabs <- of_outcome (py_iter collabs) ;;
          records <- for_each collabs (repo_access_step repo_name) records ;;
          get_repo_access_loop session org repo_name headers fuel' records
            (page + 1)%Z
  end.

Definition _get_repo_access (session : ClientSession) (org : string)
    (repo_name : value) (headers : list (string * string)) (fuel : nat)
  : M net (list value) :=
  get_repo_access_loop session org repo_name headers fuel [] 1%Z.

Definition _scan_repo_access (sem : semaphore) (session : ClientSession)
    (org : string) (repo_name : value) (headers : list (string * string))
    (fuel : nat) : M net (value * list value) :=
  async_with sem (
    records <- _get_repo_access session org repo_name headers fuel ;;
    ret (repo_name, records)).

(** ** The member audit: entity list and unit *)

(** The [while True] loop of [_fetch_all_members]. *)
Fixpoint fetch_all_members_loop (session : ClientSession) (org : string)
    (headers : list (string * string)) (fuel : nat)
    (members : list value) (page : Z) : M net (list value) :=
  match fuel with
  | O => stuck
  | S fuel' =>
      resp <- _fetch_with_retry session
                [Lit GH_API; Lit "/orgs/"; Interp (VStr org); Lit "/members"]
                headers (page_params page) max_retries_default ;;
      if negb (status resp =? 200)%Z then
        detail <- of_outcome (py_get (json resp) "message" (VStr (reason resp))) ;;
        raise (HTTPException (status resp) detail)
      else
        let batch := json resp in
        if negb (truthy batch) then ret members
        else
          batch <- of_outcome (py_iter batch) ;;
          fetch_all_members_loop session org headers fuel' (members ++ batch)
            (page + 1)%Z
  end.

Definition _fetch_all_members (session : ClientSession) (org : string)
    (headers : list (string * string)) (fuel : nat) : M net (list value) :=
  fetch_all_members_loop session org headers fuel [] 1%Z.

Definition _get_member_details (sem : semaphore) (session : ClientSession)
    (org : string) (username : value) (headers : list (string * string))
  : M net value :=
  async_with sem (
    let role_coro :=
      _fetch_with_retry session
        [Lit GH_API; Lit "/orgs/"; Interp (VStr org); Lit "/memberships/";
         Interp username]
        headers None max_retries_default in
    let profile_coro :=
      _fetch_with_retry session
        [Lit GH_API; Lit "/users/"; Interp username]
        headers None max_retries_default in
    let events_coro :=
      _fetch_with_retry session
        [Lit GH_API; Lit "/users/"; Interp username; Lit "/events"]
        headers (Some [("per_page", VInt 1)]) max_retries_default in
    role_resp <- role_coro ;;
    profile_resp <- profile_coro ;;
    events_resp <- events_coro ;;
    (* role *)
    role <-
      (if (status role_resp =? 200)%Z then
         of_outcome (py_get (json role_resp) "role" (VStr "member"))
       else ret (VStr "member")) ;;
    (* email *)
    email <-
      (if (status profile_resp =? 200)%Z then
         email <- of_outcome (py_get (json profile_resp) "email" VNone) ;;
         ret (py_or email (VStr "N/A"))
       else ret (VStr "N/A")) ;;
    (* last activity *)
    let days_inactive := VInt 91 in
    let last_activity := VStr "No recent activity" in
    '(days_inactive, last_activity) <-
      (if (status events_resp =? 200)%Z then
         let events := json events_resp in
         if truthy events then
           first <- of_outcome (py_first events) ;;
           created <- of_outcome (py_get first "created_at" (VStr EmptyString)) ;;
           if truthy created then
             evt_dt <- of_outcome (parse_date created) ;;
             now <- now_utc ;;
             ret (VInt (days_between now evt_dt), VStr (strftime evt_dt))
           else ret (days_inactive, last_activity)
         else ret (days_inactive, last_activity)
       else ret (days_inactive, last_activity)) ;;
    ret (VDict [
      ("username", username);
      ("role", role);
      ("email", email);
      ("last_activity", last_activity);
      ("days_inactive", days_inactive)
    ])).

(** ** The team audit: entity list and unit *)

(** The [while True] loop of [_fetch_all_teams]. *)
Fixpoint fetch_all_teams_loop (session : ClientSession) (org : string)
    (headers : list (string * string)) (fuel : nat)
    (teams : list value) (page : Z) : M net (list value) :=
  match fuel with
  | O => stuck
  | S fuel' =>
      resp <- _fetch_with_retry session
                [Lit GH_API; Lit "/orgs/"; Interp (VStr org); Lit "/teams"]
                headers (page_params page) max_retries_default ;;
      if negb (status resp =? 200)%Z then
        detail <- of_outcome (py_get (json resp) "message" (VStr (reason resp))) ;;
        raise (HTTPException (status resp) detail)
      else
        let batch := json resp in
        if negb (truthy batch) then ret teams
        else
          batch <- of_outcome (py_iter batch) ;;
          fetch_all_teams_loop session org headers fuel' (teams ++ batch)
            (page + 1)%Z
  end.

Definition _fetch_all_teams (session : ClientSession) (org : string)
    (headers : list (string * string)) (fuel : nat) : M net (list value) :=
  fetch_all_teams_loop session org headers fuel [] 1%Z.

Definition _get_team_details (sem : semaphore) (session : ClientSession)
    (org : string) (team : value) (headers : list (string * string))
  : M net value :=
  async_with sem (
    slug <- of_outcome (py_get team "slug" (VStr EmptyString)) ;;
    members_count <- of_outcome (py_get team "members_count" (VInt 0)) ;;
    repos_count <- of_outcome (py_get team "repos_count" (VInt 0)) ;;
    '(members_count, repos_count) <-
      (if py_eq_zero members_count && py_eq_zero repos_count then
         detail_resp <- _fetch_with_retry session
                          [Lit GH_API; Lit "/orgs/"; Interp (VStr org);
                           Lit "/teams/"; Interp slug]
                          headers None max_retries_default ;;
         if (status detail_resp =? 200)%Z then
           let detail := json detail_resp in
           members_count <- of_outcome (py_get detail "members_count" (VInt 0)) ;;
           repos_count <- of_outcome (py_get detail "repos_count" (VInt 0)) ;;
           ret (members_count, repos_count)
         else ret (members_count, repos_count)
       else ret (members_count, repos_count)) ;;
    name <- of_outcome (py_get team "name" (VStr EmptyString)) ;;
    description <- of_outcome (py_get team "description" VNone) ;;
    privacy <- of_outcome (py_get team "privacy" (VStr "closed")) ;;
    ret (VDict [
      ("name", name);
      ("description", py_or description (VStr "No description"));
      ("privacy", privacy);
      ("members_count", members_count);
      ("repos_count", repos_count)
    ])).

(** ** The event generators *)

(** The dictionary handed to [_sse_event], by its ["type"]: [error] with
    its detail, [start] with the total, [progress] with the entity name and
    the processed count, [data] with its payload, and [done]. *)
Inductive event : Type :=
| EvError (detail : value)
| EvStart (total : nat)
| EvProgress (name : value) (processed : nat)
| EvData (payload : value)
| EvDone.

(** The state of a generator: the network state, the events yielded so far
    and, as a ghost record for the statements below, the result of each unit
    awaited so far (both oldest first). *)
Record gen : Type := {
  network : net;
  emitted : list event;
  delivered : list value
}.

Definition initial_gen : gen :=
  {| network := initial_net; emitted := []; delivered := [] |}.

(** [await coro] for a coroutine that only uses the network.  The tasks of
    a generator are awaited in the order of their completion (see
    [as_completed]); a task runs, from its start to its end, when the
    generator awaits it, so that the requests of two units are not
    interleaved in [issued].  What a unit is answered is still arbitrary,
    since the session answers by request number. *)
Definition await {A : Type} (coro : M net A) : M gen A :=
  fun g =>
    let (o, s') := coro (network g) in
    (o, {| network := s'; emitted := emitted g; delivered := delivered g |}).

(** [yield _sse_event(e)] *)
Definition yield (e : event) : M gen unit :=
  fun g => (Ret tt, {| network := network g; emitted := emitted g ++ [e];
                       delivered := delivered g |}).

(** Ghost: records the result of the unit that was just awaited. *)
Definition note (result : value) : M gen unit :=
  fun g => (Ret tt, {| network := network g; emitted := emitted g;
                       delivered := delivered g ++ [result] |}).

(** [try: x = body / except HTTPException as exc: handler(exc.detail)],
    followed by [rest x] when the body raised nothing; every other
    exception goes through. *)
Definition try_except_HTTPException {S A B : Type} (body : M S A)
    (handler : value -> M S B) (rest : A -> M S B) : M S B :=
  fun s =>
    match body s with
    | (Ret a, s') => rest a s'
    | (Raise (HTTPException _ detail), s') => handler detail s'
    | (Raise e, s') => (Raise e, s')
    | (Stuck, s') => (Stuck, s')
    end.

(** [asyncio.as_completed(tasks)] delivers the tasks in the order in which
    they finish.  That order is an input: for each delivery, [sched] names
    which of the still pending tasks finishes next (taken modulo their
    number, first pending task when [sched] is exhausted). *)
Fixpoint completion_order {T : Type} (n : nat) (pending : list T)
    (sched : list nat) : list T :=
  match n, pending with
  | S n', t0 :: _ =>
      let i := hd 0 sched mod length pending in
      nth i pending t0
        :: completion_order n' (firstn i pending ++ skipn (S i) pending)
             (tl sched)
  | _, _ => []
  end.

Definition as_completed {T : Type} (tasks : list T) (sched : list nat) : list T :=
  completion_order (length tasks) tasks sched.

Definition stream_audit_repos (session : ClientSession)
    (gh_token gh_org : string) (fuel : nat) (sched : list nat) : M gen unit :=
  let headers := _gh_headers gh_token in
  try_except_HTTPException
    (await (_fetch_all_repos session gh_org headers fuel))
    (fun detail => yield (EvError detail))
    (fun all_repos =>
      let total := length all_repos in
      yield (EvStart total) ;;
      let processed := 0 in
      let _process_one (repo : value) :=
        _audit_single_repo _AUDIT_SEM session gh_org repo headers fuel in
      tasks <- for_each all_repos (fun repo tasks =>
                 let task := _process_one repo in
                 name <- of_outcome (py_getitem repo "name") ;;
                 ret (tasks ++ [(task, name)])) [] ;;
      for_each (as_completed (map fst tasks) sched) (fun coro processed =>
        repo_data <- await coro ;;
        note repo_data ;;
        let processed := processed + 1 in
        repo <- of_outcome (py_getitem repo_data "repository") ;;
        yield (EvProgress repo processed) ;;
        yield (EvData repo_data) ;;
        ret processed) processed ;;
      yield EvDone).

(** [[r["name"] for r in all_repos if not r.get("archived")]] *)
Definition active_repo_names {S : Type} (all_repos : list value)
  : M S (list value) :=
  for_each all_repos (fun r names =>
    archived <- of_outcome (py_get r "archived" VNone) ;;
    if negb (truthy archived) then
      name <- of_outcome (py_getitem r "name") ;;
      ret (names ++ [name])
    else ret names) [].

Definition stream_branches (session : ClientSession)
    (gh_token gh_org : string) (fuel : nat) (sched : list nat) : M gen unit :=
  let headers := _gh_headers gh_token in
  try_except_HTTPException
    (await (_fetch_all_repos session gh_org headers fuel))
    (fun detail => yield (EvError detail))
    (fun all_repos =>
      repo_names <- active_repo_names all_repos ;;
      let total := length repo_names in
      yield (EvStart total) ;;
      let processed := 0 in
      let _process_one (name : value) : M net (value * list value) :=
        branches <- _scan_repo_branches _BRANCH_SEM session gh_org name
                      headers fuel ;;
        ret (name, branches) in
      let tasks := map (fun name => (_process_one name, name)) repo_names in
      for_each (as_completed (map fst tasks) sched) (fun coro processed =>
        '(repo_name, branches) <- await coro ;;
        note (VList branches) ;;
        let processed := processed + 1 in
        yield (EvProgress repo_name processed) ;;
        (if truthy (VList branches) then yield (EvData (VList branches))
         else ret tt) ;;
        ret processed) processed ;;
      yield EvDone).

Definition stream_access (session : ClientSession)
    (gh_token gh_org : string) (fuel : nat) (sched : list nat) : M gen unit :=
  let headers := _gh_headers gh_token in
  try_except_HTTPException
    (await (_fetch_all_repos session gh_org headers fuel))
    (fun detail => yield (EvError detail))
    (fun all_repos =>
      repo_names <- active_repo_names all_repos ;;
      let total := length repo_names in
      yield (EvStart total) ;;
      let processed := 0 in
      let tasks :=
        map (fun name =>
               (_scan_repo_access _ACCESS_SEM session gh_org name headers fuel,
                name)) repo_names in
      for_each (as_completed (map fst tasks) sched) (fun coro processed =>
        '(repo_name, access_data) <- await coro ;;
        note (VList access_data) ;;
        let processed := processed + 1 in
        yield (EvProgress repo_name processed) ;;
        (if truthy (VList access_data) then yield (EvData (VList access_data))
         else ret tt) ;;
        ret processed) processed ;;
      yield EvDone).

Definition stream_members (session : ClientSession)
    (gh_token gh_org : string) (fuel : nat) (sched : list nat) : M gen unit :=
  let headers := _gh_headers gh_token in
  try_except_HTTPException
    (await (_fetch_all_members session gh_org headers fuel))
    (fun detail => yield (EvError detail))
    (fun all_members =>
      usernames <- for_each all_members (fun m usernames =>
                     login <- of_outcome (py_getitem m "login") ;;
                     ret (usernames ++ [login])) [] ;;
      let total := length usernames in
      yield (EvStart total) ;;
      let processed := 0 in
      let tasks :=
        map (fun uname =>
               (_get_member_details _MEMBER_SEM session gh_org uname headers,
                uname)) usernames in
      for_each (as_completed (map fst tasks) sched) (fun coro processed =>
        member_data <- await coro ;;
        note member_data ;;
        let processed := processed + 1 in
        member <- of_outcome (py_getitem member_data "username") ;;
        yield (EvProgress member processed) ;;
        yield (EvData member_data) ;;
        ret processed) processed ;;
      yield EvDone).

Definition stream_teams (session : ClientSession)
    (gh_token gh_org : string) (fuel : nat) (sched : list nat) : M gen unit :=
  let headers := _gh_headers gh_token in
  try_except_HTTPException
    (await (_fetch_all_teams session gh_org headers fuel))
    (fun detail => yield (EvError detail))
    (fun all_teams =>
      let total := length all_teams in
      yield (EvStart total) ;;
      let processed := 0 in
      tasks <- for_each all_teams (fun t tasks =>
                 let task := _get_team_details _TEAM_SEM session gh_org t headers in
                 name <- of_outcome (py_get t "name" (VStr EmptyString)) ;;
                 ret (tasks ++ [(task, name)])) [] ;;
      for_each (as_completed (map fst tasks) sched) (fun coro processed =>
        team_data <- await coro ;;
        note team_data ;;
        let processed := processed + 1 in
        team <- of_outcome (py_getitem team_data "name") ;;
        yield (EvProgress team processed) ;;
        yield (EvData team_data) ;;
        ret processed) processed ;;
      yield EvDone).

(** The five audit streams. *)
Inductive stream : Type :=
| Repos | Branches | Access | Members | Teams.

Definition run_stream (k : stream) (session : ClientSession)
    (gh_token gh_org : string) (fuel : nat) (sched : list nat) : M gen unit :=
  match k with
  | Repos => stream_audit_repos session gh_token gh_org fuel sched
  | Branches => stream_branches session gh_token gh_org fuel sched
  | Access => stream_access session gh_token gh_org fuel sched
  | Members => stream_members session gh_token gh_org fuel sched
  | Teams => stream_teams session gh_token gh_org fuel sched
  end.

(** The entity-list retrieval of each stream. *)
Definition entity_list (k : stream) (session : ClientSession) (org : string)
    (headers : list (string * string)) (fuel : nat) : M net (list value) :=
  match k with
  | Repos | Branches | Access => _fetch_all_repos session org headers fuel
  | Members => _fetch_all_members session org headers fuel
  | Teams => _fetch_all_teams session org headers fuel
  end.

(** ** The units of one semaphore as a transition system

    Between its creation by [ensure_future] and its end a unit of work goes
    through three phases: [Queued] until [async with sem] has taken a permit,
    [Running] inside the block, where it issues its sub-requests, and
    [Finished] once the block is left, by [return] or by an exception.  The
    event loop interleaves the units in any order; an [Acquire] with no free
    permit does not happen (the unit keeps waiting), and an action that a
    unit cannot do in its phase leaves the pool as it is. *)

Inductive phase : Type :=
| Queued | Running | Finished.

Record unit_state : Type := {
  phase_of : phase;
  requests : nat
}.

Record pool : Type := {
  free : nat;
  units : list unit_state
}.

Inductive action : Type :=
| Acquire (i : nat)
| Request (i : nat)
| Leave (i : nat).

Fixpoint update {A : Type} (i : nat) (x : A) (l : list A) : list A :=
  match l, i with
  | [], _ => []
  | _ :: rest, O => x :: rest
  | h :: rest, S j => h :: update j x rest
  end.

Definition perform (p : pool) (a : action) : pool :=
  match a with
  | Acquire i =>
      match nth_error (units p) i with
      | Some {| phase_of := Queued; requests := n |} =>
          if (free p =? 0)%nat then p
          else {| free := free p - 1;
                  units := update i {| phase_of := Running; requests := n |}
                             (units p) |}
      | _ => p
      end
  | Request i =>
      match nth_error (units p) i with
      | Some {| phase_of := Running; requests := n |} =>
          {| free := free p;
             units := update i {| phase_of := Running; requests := S n |}
                        (units p) |}
      | _ => p
      end
  | Leave i =>
      match nth_error (units p) i with
      | Some {| phase_of := Running; requests := n |} =>
          {| free := free p + 1;
             units := update i {| phase_of := Finished; requests := n |}
                        (units p) |}
      | _ => p
      end
  end.

(** [n] units created on a semaphore in its initial state. *)
Definition start (sem : semaphore) (n : nat) : pool :=
  {| free := permits initial_net sem;
     units := repeat {| phase_of := Queued; requests := 0 |} n |}.

Definition run_actions (acts : list action) (p : pool) : pool :=
  fold_left perform acts p.

Definition is_running (u : unit_state) : bool :=
  match phase_of u with
  | Running => true
  | _ => false
  end.

(** The number of permits held, that is of units inside their block. *)
Definition running (p : pool) : nat := length (filter is_running (units p)).

(** ** Vocabulary of the statements *)

Definition progress_counts (events : list event) : list nat :=
  flat_map (fun e => match e with EvProgress _ k => [k] | _ => [] end) events.

Definition progress_names (events : list event) : list value :=
  flat_map (fun e => match e with EvProgress n _ => [n] | _ => [] end) events.

Definition is_data (e : event) : bool :=
  match e with
  | EvData _ => true
  | _ => false
  end.

(** The events of one delivered unit, given its name, its result and the
    processed count: progress, then data when the result is not empty. *)
Definition unit_events (k : nat) (name result : value) : list event :=
  EvProgress name k :: (if truthy result then [EvData result] else []).

(** The events of the units delivered after the first [k]. *)
Fixpoint render (k : nat) (reports : list (value * value)) : list event :=
  match reports with
  | [] => []
  | (name, result) :: rest => unit_events (S k) name result ++ render (S k) rest
  end.

(** [repo["name"]] and [bool(repo.get("archived"))] for an entity that has
    them. *)
Definition name_of_repo (repo : value) : value :=
  match py_getitem repo "name" with
  | Ret name => name
  | _ => VNone
  end.

Definition is_archived (repo : value) : bool :=
  match py_get repo "archived" VNone with
  | Ret archived => truthy archived
  | _ => false
  end.

(** [coro] can return [r]. *)
Definition returned_by {R : Type} (coro : M net R) (r : R) : Prop :=
  exists s s', coro s = (Ret r, s').

(** The events of the unit results [rs] delivered after the first [k], for
    a loop body that names a result with [name_of] and emits [data_of] after
    its progress event. *)
Fixpoint delivery_events {R : Type} (name_of : R -> outcome value)
    (data_of : R -> list event) (k : nat) (rs : list R) : list event :=
  match rs with
  | [] => []
  | r :: rest =>
      match name_of r with
      | Ret name => EvProgress name (S k) :: data_of r
      | _ => []
      end ++ delivery_events name_of data_of (S k) rest
  end.

(** The unit names of a stream, from its entity list: every repository for
    the repository audit, the repositories that are not archived for the
    branch and access audits, the member logins, the team names. *)
Definition unit_names (k : stream) (entities : list value) : list value :=
  match k with
  | Repos => map name_of_repo entities
  | Branches | Access =>
      map name_of_repo (filter (fun r => negb (is_archived r)) entities)
  | Members =>
      map (fun m => match py_getitem m "login" with
                    | Ret login => login
                    | _ => VNone
                    end) entities
  | Teams =>
      map (fun t => match py_get t "name" (VStr EmptyString) with
                    | Ret name => name
                    | _ => VNone
                    end) entities
  end.

(** The shape of a run of stream [k] whose entity list [entities] was
    fetched, from the generator state [g] to the outcome [o] in state [g'].
    A run that returns has emitted [start], the events of every unit in the
    order of delivery, and [done]; a run that does not return has emitted
    nothing, or [start] and the events of fewer units than there are, and no
    [done]. *)
Definition stream_anatomy (k : stream) (entities : list value)
    (g : gen) (o : outcome unit) (g' : gen) : Prop :=
  match o with
  | Ret _ =>
      exists reports,
        emitted g' =
          emitted g ++ EvStart (length reports) :: render 0 reports ++ [EvDone]
        /\ delivered g' = delivered g ++ map snd reports
        /\ Permutation (map fst reports) (unit_names k entities)
  | _ =>
      exists events,
        emitted g' = emitted g ++ events
        /\ ~ In EvDone events
        /\ (events = [] \/
            exists body,
              events = EvStart (length (unit_names k entities)) :: body
              /\ length (progress_counts body) < length (unit_names k entities))
  end.


(** A computation that leaves the permits of every semaphore as they
    are. *)
Definition keeps_permits {A : Type} (m : M net A) : Prop :=
  forall s o s', m s = (o, s') -> permits s' = permits s.


(** The remote answers every request, and never with a 200. *)
Definition never_ok (session : ClientSession) : Prop :=
  forall n q, exists r, answer session n q = Responds r /\ status r <> 200%Z.

(** A computation that returns in every state, with a value that
    satisfies [P]. *)
Definition always_returns {A : Type} (m : M net A) (P : A -> Prop) : Prop :=
  forall s, exists a s', m s = (Ret a, s') /\ P a.

(** The wait of the specification: [max(reset_timestamp - now, 1)] clamped
    to 120 with a reset timestamp, [30 * attempt_number] without. *)
Definition specified_wait (reset_timestamp : option Z) (now attempt_number : Z) : Z :=
  match reset_timestamp with
  | Some ts => Z.min (Z.max (ts - now) 1) 120
  | None => 30 * attempt_number
  end.

(** The waits after the rate-limited responses [limited], the first of
    which answers request number [n] at attempt number [attempt + 1]. *)
Fixpoint specified_waits (session : ClientSession) (n attempt : nat)
    (limited : list response) : list Z :=
  match limited with
  | [] => []
  | resp :: rest =>
      specified_wait (reset resp) (clock session (S n)) (Z.of_nat attempt + 1)
        :: specified_waits session (S n) (S attempt) rest
  end.

Definition page_request (org : string) (headers : list (string * string))
    (page : Z) : request :=
  {| url := org_repos_url org; headers := headers; params := page_params page |}.

(** ** The basic statistics endpoint *)

(** [sum(1 for r in all_repos if r.get(key))] *)
Definition count_flag (key : string) (all_repos : list value) : M net nat :=
  for_each all_repos (fun r count =>
    flag <- of_outcome (py_get r key VNone) ;;
    if truthy flag then ret (count + 1) else ret count) 0.

Definition get_basic_stats (session : ClientSession) (gh_token gh_org : string)
    (fuel : nat) : M net value :=
  all_repos <- _fetch_all_repos session gh_org (_gh_headers gh_token) fuel ;;
  archived <- count_flag "archived" all_repos ;;
  private <- count_flag "private" all_repos ;;
  let total := length all_repos in
  ret (VDict [
    ("total_repositories", VInt (Z.of_nat total));
    ("active_repositories", VInt (Z.of_nat total - Z.of_nat archived));
    ("archived_repositories", VInt (Z.of_nat archived));
    ("private_repositories", VInt (Z.of_nat private));
    ("public_repositories", VInt (Z.of_nat total - Z.of_nat private))
  ]).

(** ** Vocabulary of the further properties *)

(** [bool(entity.get(key))] for an entity that has the method. *)
Definition has_flag (key : string) (entity : value) : bool :=
  match py_get entity key VNone with
  | Ret flag => truthy flag
  | _ => false
  end.

(** A Python dictionary. *)
Definition is_dict (v : value) : Prop := exists items, v = VDict items.

(** [u.get("login", "")] for a dictionary. *)
Definition login_of (user : value) : value :=
  match py_get user "login" (VStr EmptyString) with
  | Ret login => login
  | _ => VNone
  end.

(** The request of [_fetch_with_retry] for a URL, headers and parameters. *)
Definition request_of (url : list part) (headers : list (string * string))
    (params : option (list (string * value))) : request :=
  {| url := url; headers := headers; params := params |}.

(** The permission levels that [_get_repo_access] assigns. *)
Definition is_permission_level (v : value) : Prop :=
  v = VStr "admin" \/ v = VStr "maintain" \/ v = VStr "write" \/ v = VStr "read".

(** [rule.get("type") == "pull_request"] for a rule that has the method. *)
Definition is_pull_request_rule (rule : value) : bool :=
  match py_get rule "type" VNone with
  | Ret rule_type => py_eq_str rule_type "pull_request"
  | _ => false
  end.

(** The request of [_check_codeowners] for one path. *)
Definition codeowners_request (org : string) (repo : value)
    (headers : list (string * string)) (path : string) : request :=
  request_of
    [Lit GH_API; Lit "/repos/"; Interp (VStr org); Lit "/"; Interp repo;
     Lit "/contents/"; Interp (VStr path)]
    headers None.

(** The requests of [_get_admins] and of [_get_branch_count] for a page. *)
Definition admins_request (org : string) (repo : value)
    (headers : list (string * string)) (page : Z) : request :=
  request_of
    [Lit GH_API; Lit "/repos/"; Interp (VStr org); Lit "/"; Interp repo;
     Lit "/collaborators"]
    headers
    (Some [("permission", VStr "admin"); ("per_page", VInt 100);
           ("page", VInt page)]).

Definition branches_request (org : string) (repo : value)
    (headers : list (string * string)) (page : Z) : request :=
  request_of
    [Lit GH_API; Lit "/repos/"; Interp (VStr org); Lit "/"; Interp repo;
     Lit "/branches"]
    headers (page_params page).

(** A Python string. *)
Definition is_str (v : value) : Prop := exists s, v = VStr s.

(** The seventeen columns of the repository audit. *)
Definition audit_columns : list string :=
  [ "repository"; "owner"; "description"; "topics"; "private"; "archived";
    "default_branch"; "language"; "stars"; "forks"; "admin_count";
    "admin_names"; "has_codeowners"; "has_required_reviewers";
    "allows_direct_push"; "url"; "branch_count" ].

(** [d.get(key, default)] on the items of a dictionary. *)
Definition item_or (items : list (string * value)) (key : string)
    (default : value) : value :=
  match lookup key items with
  | Some v => v
  | None => default
  end.

(** An access record of [_get_repo_access] for a repository. *)
Definition is_access_record (repo_name : value) (record : value) : Prop :=
  exists username level,
    record = VDict [("repository", repo_name); ("username", username);
                    ("permission", level)]
    /\ is_permission_level level.

(** A branch record of [_get_branch_details] for a repository: the date of
    the last commit and its age are both unknown or both known. *)
Definition is_branch_record (repo_name : value) (record : value) : Prop :=
  exists branch_name last_commit_date age_days protected,
    record = VDict [("repository", repo_name); ("branch_name", branch_name);
                    ("last_commit_date", last_commit_date);
                    ("age_days", age_days); ("protected", protected)]
    /\ ((last_commit_date = VNone /\ age_days = VNone)
        \/ (exists date days,
              last_commit_date = VStr date /\ age_days = VInt days)).

(** The request of a stream for a page of its entity list. *)
Definition entity_request (k : stream) (org : string)
    (headers : list (string * string)) (page : Z) : request :=
  request_of
    (match k with
     | Repos | Branches | Access => org_repos_url org
     | Members =>
         [Lit GH_API; Lit "/orgs/"; Interp (VStr org); Lit "/members"]
     | Teams =>
         [Lit GH_API; Lit "/orgs/"; Interp (VStr org); Lit "/teams"]
     end)
    headers (page_params page).



(** The key under which the repository, branch, access and member streams
    read the name of an entity with [entity[key]]. *)
Definition name_key (k : stream) : string :=
  match k with
  | Members => "login"
  | _ => "name"
  end.

(** A member record of [_get_member_details]: the e-mail address is never
    empty, and the last activity and the days of inactivity are the
    defaults or come from the date of one event. *)
Definition is_member_record (username record : value) : Prop :=
  exists role email last_activity days_inactive,
    record = VDict [("username", username); ("role", role); ("email", email);
                    ("last_activity", last_activity);
                    ("days_inactive", days_inactive)]
    /\ truthy email = true
    /\ ((last_activity = VStr "No recent activity"
         /\ days_inactive = VInt 91)
        \/ (exists evt_dt now,
              last_activity = VStr (strftime evt_dt)
              /\ days_inactive = VInt (days_between now evt_dt))).


(** ** Sample sessions *)

Definition ok_response (items : list value) : response :=
  {| status := 200; reset := None; json := VList items;
     text := EmptyString; reason := "OK" |}.

Definition error_response (code : Z) (message : string) : response :=
  {| status := code; reset := None; json := VDict [("message", VStr message)];
     text := message; reason := message |}.

Definition rate_limited (reset_ts : option Z) : response :=
  {| status := 403; reset := reset_ts; json := VDict [];
     text := "rate limit exceeded"; reason := "Forbidden" |}.

(** The [page] parameter of a request (1 without one). *)
Definition page_of (q : request) : Z :=
  match params q with
  | Some ps =>
      match lookup "page" ps with
      | Some (VInt p) => p
      | _ => 1%Z
      end
  | None => 1%Z
  end.

(** A session that serves the given pages, and an empty page after them. *)
Definition paged_session (pages : list (list value)) : ClientSession :=
  {| answer := fun _ q =>
       Responds (ok_response (nth (Z.to_nat (page_of q) - 1) pages []));
     clock := fun _ => 0%Z |}.

(** A session that plays a script of exchanges, request after request, and
    fails when the script is over. *)
Definition scripted_session (script : list exchange) (now : Z) : ClientSession :=
  {| answer := fun n _ => nth n script Fails;
     clock := fun _ => now |}.

Definition sample_repo (name : string) (archived : bool) : value :=
  VDict [("name", VStr name); ("archived", VBool archived)].

Definition three_pages : list (list value) :=
  [ repeat (sample_repo "api" false) 100;
    repeat (sample_repo "web" false) 100;
    repeat (sample_repo "old" true) 37 ].

Definition url_ends_with (suffix : string) (q : request) : bool :=
  match rev (url q) with
  | Lit s :: _ => String.eqb s suffix
  | _ => false
  end.

(** An organization of three repositories, one of them archived; each has
    one branch, and every other resource is unknown (404). *)
Definition sample_org : ClientSession :=
  {| answer := fun _ q =>
       if url_ends_with "/repos" q then
         Responds (ok_response
           (if (page_of q =? 1)%Z then
              [sample_repo "api" false; sample_repo "old" true;
               sample_repo "web" false]
            else []))
       else if url_ends_with "/branches" q then
         Responds (ok_response
           (if (page_of q =? 1)%Z then [VDict [("name", VStr "main")]] else []))
       else Responds (error_response 404 "Not Found");
     clock := fun _ => 0%Z |}.


(** A remote that refuses the credential. *)
Definition unauthorized_org : ClientSession :=
  {| answer := fun _ _ => Responds (error_response 401 "Bad credentials");
     clock := fun _ => 0%Z |}.

(** A remote that is down. *)
Definition unavailable_org : ClientSession :=
  {| answer := fun _ _ => Responds (error_response 503 "Service Unavailable");
     clock := fun _ => 0%Z |}.

(** A remote that is rate limited for good: no reset header, then a reset
    ten seconds ahead, then one far ahead, as the clock reads 1000. *)
Definition rate_limited_forever : ClientSession :=
  scripted_session
    [ Responds (rate_limited None);
      Responds (rate_limited (Some 1010%Z));
      Responds (rate_limited (Some 5000%Z));
      Responds (rate_limited None) ]
    1000%Z.

(** A stand-in for the [datetime] library, for runs that parse no date. *)
Definition sample_now (n : nat) : unit := tt.
Definition sample_fromisoformat (s : string) : outcome unit := Ret tt.
Definition sample_strftime (d : unit) : string := "1970-01-01".
Definition sample_days_between (a b : unit) : Z := 0%Z.

(** A remote whose transport breaks after one rate-limited answer, as the
    clock reads 1000. *)
Definition flaky_org : ClientSession :=
  scripted_session [Responds (rate_limited None)] 1000%Z.

(** A remote that cannot be reached. *)
Definition offline_org : ClientSession := scripted_session [] 0%Z.

Definition sample_user (login : string) : value :=
  VDict [("login", VStr login)].

(** A listing served on two pages and closed by an empty page, and the same
    listing cut short after its first page by a 502. *)
Definition complete_listing : ClientSession :=
  scripted_session
    [ Responds (ok_response [sample_user "ann"; sample_user "bob"]);
      Responds (ok_response [sample_user "cy"]);
      Responds (ok_response []) ]
    0%Z.

Definition interrupted_listing : ClientSession :=
  scripted_session
    [ Responds (ok_response [sample_user "ann"; sample_user "bob"]);
      Responds (error_response 502 "Bad Gateway") ]
    0%Z.

(** A branch under a pull-request rule that requires two approvals. *)
Definition guarded_branch : ClientSession :=
  scripted_session
    [ Responds (ok_response
        [ VDict [("type", VStr "deletion")];
          VDict [("type", VStr "pull_request");
                 ("parameters",
                  VDict [("required_approving_review_count", VInt 2)])] ]) ]
    0%Z.

(** A repository whose code-owners file is under [.github]. *)
Definition owned_repo : ClientSession :=
  scripted_session
    [ Responds (error_response 404 "Not Found");
      Responds (error_response 404 "Not Found");
      Responds (ok_response []) ]
    0%Z.

(** A repository with two collaborators, one of them with push access. *)
Definition sample_collaborators : ClientSession :=
  scripted_session
    [ Responds (ok_response
        [ VDict [("login", VStr "ann");
                 ("permissions",
                  VDict [("admin", VBool false); ("push", VBool true)])];
          sample_user "bob" ]);
      Responds (ok_response []) ]
    0%Z.

(** A repository with two branches; the first names a commit, whose
    details carry a date. *)
Definition sample_branches : ClientSession :=
  scripted_session
    [ Responds (ok_response
        [ VDict [("name", VStr "main"); ("protected", VBool true);
                 ("commit", VDict [("sha", VStr "abc")])];
          VDict [("name", VStr "wip")] ]);
      Responds {| status := 200; reset := None;
                  json := VDict [("commit",
                            VDict [("committer",
                              VDict [("date", VStr "2024-01-01T00:00:00Z")])])];
                  text := EmptyString; reason := "OK" |};
      Responds (ok_response []) ]
    0%Z.

(** An organization of two teams; the list gives the member count of the
    first only, and the details of a team are unknown (404). *)
Definition sample_teams : list value :=
  [ VDict [("name", VStr "core"); ("slug", VStr "core");
           ("members_count", VInt 4)];
    VDict [("name", VStr "ops"); ("slug", VStr "ops")] ].

Definition sample_teams_org : ClientSession :=
  {| answer := fun _ q =>
       if url_ends_with "/teams" q then
         Responds (ok_response
           (if (page_of q =? 1)%Z then sample_teams else []))
       else Responds (error_response 404 "Not Found");
     clock := fun _ => 0%Z |}.

Definition ok_json (body : value) : response :=
  {| status := 200; reset := None; json := body;
     text := EmptyString; reason := "OK" |}.

(** An organization whose only repository is archived. *)
Definition archived_org : ClientSession :=
  paged_session [[sample_repo "old" true]].

(** A member list whose second entry has no login. *)
Definition nameless_member_org : ClientSession :=
  paged_session [[sample_user "ann"; VDict [("id", VInt 7)]]].

(** A member who is an administrator, hides the e-mail address and has one
    event. *)
Definition sample_member : ClientSession :=
  scripted_session
    [ Responds (ok_json (VDict [("role", VStr "admin")]));
      Responds (ok_json (VDict [("login", VStr "ann"); ("email", VNone)]));
      Responds (ok_response
        [VDict [("created_at", VStr "2024-01-01T00:00:00Z")]]) ]
    0%Z.


(** ** Properties *)

(** *** The monad *)

Lemma bind_ret_inv {S A B : Type} (m : M S A) (k : A -> M S B) s b s' :
  bind m k s = (Ret b, s') ->
  exists a s1, m s = (Ret a, s1) /\ k a s1 = (Ret b, s').
Proof.
  unfold bind. destruct (m s) as [[a | e |] s1]; try discriminate.
  intros H. exists a, s1. split; [reflexivity | exact H].
Qed.

Lemma bind_run {S A B : Type} (m : M S A) (k : A -> M S B) s a s1 :
  m s = (Ret a, s1) -> bind m k s = k a s1.
Proof. unfold bind. intros ->. reflexivity. Qed.

(** *** The request executor *)

Lemma session_get_responds session url headers params s r :
  answer session (length (issued s))
    {| url := url; headers := headers; params := params |} = Responds r ->
  session_get session url headers params s =
    (Ret r, {| issued := issued s
                 ++ [{| url := url; headers := headers; params := params |}];
               slept := slept s; permits := permits s |}).
Proof. unfold session_get. intros ->. reflexivity. Qed.

(** The run of the retry loop on a script: the responses [limited], all
    403, are each followed by a wait; the response [r] after them is
    returned, be it because it is not a 403 or because the iterations are
    used up. *)
Lemma retry_loop_run session url headers params :
  forall limited remaining attempt s r,
    length limited <= remaining ->
    Forall (fun x => status x = 403%Z) limited ->
    length limited = remaining \/ status r <> 403%Z ->
    (forall k x, nth_error (limited ++ [r]) k = Some x ->
       answer session (length (issued s) + k)
         {| url := url; headers := headers; params := params |} = Responds x) ->
    retry_loop session url headers params attempt remaining s =
      (Ret r,
       {| issued := issued s
            ++ repeat {| url := url; headers := headers; params := params |}
                 (S (length limited));
          slept := slept s
            ++ specified_waits session (length (issued s)) attempt limited;
          permits := permits s |}).
Proof.
  induction limited as [| x limited IH]; intros remaining attempt s r Hlen H403 Hend Hans.
  - assert (Hr : answer session (length (issued s))
               {| url := url; headers := headers; params := params |} = Responds r).
    { rewrite <- (Nat.add_0_r (length (issued s))). apply Hans. reflexivity. }
    simpl. rewrite app_nil_r.
    destruct remaining as [| remaining]; simpl.
    + apply session_get_responds, Hr.
    + rewrite (bind_run _ _ _ _ _ (session_get_responds _ _ _ _ _ _ Hr)).
      destruct Hend as [Hend | Hend]; [discriminate |].
      apply Z.eqb_neq in Hend. rewrite Hend. reflexivity.
  - destruct remaining as [| remaining]; [simpl in Hlen; lia |].
    assert (Hx : answer session (length (issued s))
               {| url := url; headers := headers; params := params |} = Responds x).
    { rewrite <- (Nat.add_0_r (length (issued s))). apply Hans. reflexivity. }
    inversion H403 as [| ? ? Hsx H403']; subst.
    cbn [retry_loop].
    rewrite (bind_run _ _ _ _ _ (session_get_responds _ _ _ _ _ _ Hx)).
    apply Z.eqb_eq in Hsx. rewrite Hsx.
    set (s1 := {| issued := issued s
                    ++ [{| url := url; headers := headers; params := params |}];
                  slept := slept s; permits := permits s |}).
    assert (Hwait : retry_wait session x attempt s1 =
              (Ret (specified_wait (reset x) (clock session (S (length (issued s))))
                      (Z.of_nat attempt + 1)), s1)).
    { unfold retry_wait, specified_wait.
      destruct (reset x) as [ts |]; [| reflexivity].
      unfold bind, time_time, ret. subst s1. cbn [issued].
      rewrite length_app. cbn [length]. rewrite Nat.add_1_r. reflexivity. }
    rewrite (bind_run _ _ _ _ _ Hwait).
    unfold asyncio_sleep at 1. unfold bind at 1.
    rewrite (IH remaining (S attempt) _ r).
    + subst s1. cbn [issued slept permits length specified_waits repeat].
      rewrite length_app, Nat.add_1_r. cbn [length].
      rewrite <- !app_assoc. reflexivity.
    + simpl in Hlen. lia.
    + exact H403'.
    + destruct Hend as [Hend | Hend]; [left; simpl in Hend; lia | right; exact Hend].
    + intros k y Hk. subst s1. cbn [issued].
      rewrite length_app. cbn [length].
      replace (length (issued s) + 1 + k) with (length (issued s) + S k) by lia.
      apply Hans. exact Hk.
Qed.

Lemma specified_waits_length session n attempt limited :
  length (specified_waits session n attempt limited) = length limited.
Proof.
  revert n attempt. induction limited as [| x l IH]; intros n attempt; simpl.
  - reflexivity.
  - now rewrite IH.
Qed.

Lemma specified_waits_no_header session limited :
  forall n attempt,
    Forall (fun x => reset x = None) limited ->
    specified_waits session n attempt limited =
      map (fun i => (30 * (Z.of_nat i + 1))%Z) (seq attempt (length limited)).
Proof.
  induction limited as [| x l IH]; intros n attempt Hnone; simpl.
  - reflexivity.
  - inversion Hnone as [| ? ? Hx Hl]; subst.
    rewrite Hx, (IH (S n) (S attempt) Hl). reflexivity.
Qed.

(** C2. The request executor returns the first response that is not a 403
    at once, without a retry after it; when the three attempts of its loop
    are all answered 403 it has used up its retries and returns the response
    to the request that follows them, whatever its status, and raises
    nothing.  [limited] are the 403 responses met before the response [r]. *)
Theorem fetch_with_retry_budget session url headers params s limited r :
  length limited <= max_retries_default ->
  Forall (fun x => status x = 403%Z) limited ->
  length limited = max_retries_default \/ status r <> 403%Z ->
  (forall k x, nth_error (limited ++ [r]) k = Some x ->
     answer session (length (issued s) + k)
       {| url := url; headers := headers; params := params |} = Responds x) ->
  exists s',
    _fetch_with_retry session url headers params max_retries_default s
      = (Ret r, s')
    /\ length (issued s') = length (issued s) + length limited + 1
    /\ length (slept s') = length (slept s) + length limited
    /\ permits s' = permits s.
Proof.
  intros Hlen H403 Hend Hans.
  unfold _fetch_with_retry.
  rewrite (retry_loop_run session url headers params limited _ 0 s r Hlen H403 Hend Hans).
  eexists. split; [reflexivity |].
  cbn [issued slept permits].
  rewrite !length_app, repeat_length, specified_waits_length.
  repeat split; lia.
Qed.

(** C3. After a 403 response the executor waits
    [max(reset_timestamp - now, 1)], at most 120 seconds, when the response
    carries a reset timestamp, and [30 * attempt_number] seconds when it does
    not: 30, 60 and 90 seconds on the successive attempts. *)
Theorem rate_limit_waits session url headers params s limited r :
  length limited <= max_retries_default ->
  Forall (fun x => status x = 403%Z) limited ->
  length limited = max_retries_default \/ status r <> 403%Z ->
  (forall k x, nth_error (limited ++ [r]) k = Some x ->
     answer session (length (issued s) + k)
       {| url := url; headers := headers; params := params |} = Responds x) ->
  let s' := snd (_fetch_with_retry session url headers params
                   max_retries_default s) in
  slept s' = slept s ++ specified_waits session (length (issued s)) 0 limited
  /\ (Forall (fun x => reset x = None) limited ->
      slept s' = slept s ++ firstn (length limited) [30; 60; 90]%Z)
  /\ (Forall (fun x => reset x <> None) limited ->
      Forall (fun w => (1 <= w <= 120)%Z)
        (specified_waits session (length (issued s)) 0 limited)).
Proof.
  intros Hlen H403 Hend Hans.
  unfold _fetch_with_retry.
  rewrite (retry_loop_run session url headers params limited _ 0 s r Hlen H403 Hend Hans).
  cbn [snd slept]. split; [reflexivity | split].
  - intros Hnone. f_equal.
    rewrite (specified_waits_no_header session limited _ 0 Hnone).
    unfold max_retries_default in Hlen.
    destruct limited as [| a [| b [| c [| d l]]]]; simpl in Hlen |- *;
      try reflexivity; lia.
  - intros Hsome. clear Hlen H403 Hend Hans.
    generalize (length (issued s)) 0.
    induction limited as [| x l IH]; intros n attempt; simpl.
    + constructor.
    + inversion Hsome as [| ? ? Hx Hl]; subst. constructor.
      * unfold specified_wait. destruct (reset x) as [ts |]; [lia | congruence].
      * apply IH, Hl.
Qed.

(** *** The paginated collector *)

Lemma fetch_with_retry_first session url headers params s r :
  answer session (length (issued s))
    {| url := url; headers := headers; params := params |} = Responds r ->
  status r <> 403%Z ->
  _fetch_with_retry session url headers params max_retries_default s =
    (Ret r, {| issued := issued s
                 ++ [{| url := url; headers := headers; params := params |}];
               slept := slept s; permits := permits s |}).
Proof.
  intros Hans Hst. unfold _fetch_with_retry.
  rewrite (retry_loop_run session url headers params [] _ 0 s r).
  - simpl. rewrite app_nil_r. reflexivity.
  - simpl. lia.
  - constructor.
  - right. exact Hst.
  - intros [| k] x Hk; simpl in Hk.
    + injection Hk as <-. rewrite Nat.add_0_r. exact Hans.
    + destruct k; discriminate.
Qed.

Lemma fetch_all_repos_loop_pages session org headers :
  forall pages fuel all_repos page s,
    Forall (fun items => items <> []) pages ->
    length pages < fuel ->
    (forall k, k <= length pages ->
       exists resp,
         answer session (length (issued s) + k)
           (page_request org headers (page + Z.of_nat k)) = Responds resp
         /\ status resp = 200%Z
         /\ json resp = VList (nth k pages [])) ->
    fetch_all_repos_loop session org headers fuel all_repos page s =
      (Ret (all_repos ++ concat pages),
       {| issued := issued s
            ++ map (fun k => page_request org headers (page + Z.of_nat k))
                 (seq 0 (S (length pages)));
          slept := slept s; permits := permits s |}).
Proof.
  induction pages as [| items pages IH]; intros fuel all_repos page s Hne Hfuel Hans;
    (destruct fuel as [| fuel]; [simpl in Hfuel; lia |]);
    destruct (Hans 0 ltac:(lia)) as (resp & Hresp & Hst & Hjson);
    rewrite Nat.add_0_r, Z.add_0_r in Hresp;
    cbn [fetch_all_repos_loop];
    (rewrite (bind_run _ _ _ _ _
       (fetch_with_retry_first session _ headers _ s resp Hresp ltac:(lia))));
    rewrite Hst; cbn [Z.eqb Pos.eqb negb]; rewrite Hjson.
  - simpl. rewrite app_nil_r, Z.add_0_r. reflexivity.
  - inversion Hne as [| ? ? Hitems Hrest]; subst.
    cbn [nth truthy]. destruct items as [| it items]; [congruence |].
    cbn [length Nat.eqb negb py_iter of_outcome].
    unfold bind at 1. cbn [of_outcome].
    rewrite (IH fuel _ (page + 1)%Z).
    + cbn [issued slept permits length concat].
      rewrite <- !app_assoc.
      assert (Hreqs :
        [{| url := org_repos_url org; headers := headers;
            params := page_params page |}]
          ++ map (fun k => page_request org headers (page + 1 + Z.of_nat k))
               (seq 0 (S (length pages)))
        = map (fun k => page_request org headers (page + Z.of_nat k))
            (seq 0 (S (S (length pages))))).
      { change (seq 0 (S (S (length pages))))
          with (0 :: seq 1 (S (length pages))).
        cbn [map app]. unfold page_request at 3. rewrite Z.add_0_r. f_equal.
        rewrite <- seq_shift, map_map.
        apply map_ext. intros k.
        replace (page + Z.of_nat (S k))%Z with (page + 1 + Z.of_nat k)%Z by lia.
        reflexivity. }
      rewrite Hreqs. reflexivity.
    + exact Hrest.
    + simpl in Hfuel. lia.
    + intros k Hk. cbn [issued]. rewrite length_app. cbn [length].
      destruct (Hans (S k) ltac:(simpl; lia)) as (resp' & Hresp' & Hst' & Hjson').
      exists resp'. repeat split; [| exact Hst' | exact Hjson'].
      replace (length (issued s) + 1 + k) with (length (issued s) + S k) by lia.
      replace (page + 1 + Z.of_nat k)%Z with (page + Z.of_nat (S k))%Z by lia.
      exact Hresp'.
Qed.

(** C4. When the remote serves the non-empty pages [pages] and then an
    empty page, the collector returns the concatenation of the pages and has
    issued one request per page and one for the empty page, in page order
    from page 1, each with [per_page = 100], and none after the empty page. *)
Theorem fetch_all_repos_collects session org headers pages fuel s :
  Forall (fun items => items <> []) pages ->
  length pages < fuel ->
  (forall k, k <= length pages ->
     exists resp,
       answer session (length (issued s) + k)
         (page_request org headers (1 + Z.of_nat k)) = Responds resp
       /\ status resp = 200%Z
       /\ json resp = VList (nth k pages [])) ->
  _fetch_all_repos session org headers fuel s =
    (Ret (concat pages),
     {| issued := issued s
          ++ map (fun k =>
                    {| url := org_repos_url org; headers := headers;
                       params := Some [("per_page", VInt 100);
                                       ("page", VInt (1 + Z.of_nat k))] |})
               (seq 0 (S (length pages)));
        slept := slept s; permits := permits s |}).
Proof.
  intros Hne Hfuel Hans. unfold _fetch_all_repos.
  rewrite (fetch_all_repos_loop_pages session org headers pages fuel [] 1%Z s
             Hne Hfuel Hans).
  reflexivity.
Qed.

(** C7. When the response that the executor hands back for a list page is
    not a 200, the collection ends there with a typed failure, whatever was
    collected before: 401 is the invalid-credential failure, 404 the
    unknown-organization failure, and every other status the upstream
    failure carrying that status and the body. *)
Theorem fetch_all_repos_aborts session org headers fuel all_repos page s resp s' :
  _fetch_with_retry session (org_repos_url org) headers (page_params page)
    max_retries_default s = (Ret resp, s') ->
  status resp <> 200%Z ->
  fetch_all_repos_loop session org headers (S fuel) all_repos page s =
    (Raise
       (if (status resp =? 401)%Z then
          HTTPException 401 (VStr "Invalid GitHub token.")
        else if (status resp =? 404)%Z then
          HTTPException 404
            (VStr ("Organization '" ++ org ++ "' not found.")%string)
        else
          HTTPException (status resp)
            (VStr ("GitHub API error: " ++ text resp)%string)),
     s').
Proof.
  intros Hfetch Hst. cbn [fetch_all_repos_loop].
  rewrite (bind_run _ _ _ _ _ Hfetch).
  destruct (status resp =? 401)%Z; [reflexivity |].
  destruct (status resp =? 404)%Z; [reflexivity |].
  apply Z.eqb_neq in Hst. rewrite Hst. reflexivity.
Qed.

(** *** Completion order *)

Lemma completion_order_map {T U : Type} (f : T -> U) :
  forall n pending sched,
    completion_order n (map f pending) sched =
    map f (completion_order n pending sched).
Proof.
  induction n as [| n IH]; intros pending sched.
  - destruct pending; reflexivity.
  - destruct pending as [| t0 pending]; [reflexivity |].
    cbn [completion_order map]. rewrite <- (map_cons f t0 pending).
    rewrite length_map, map_nth, firstn_map, skipn_map, <- map_app, IH.
    reflexivity.
Qed.

Lemma as_completed_map {T U : Type} (f : T -> U) tasks sched :
  as_completed (map f tasks) sched = map f (as_completed tasks sched).
Proof. unfold as_completed. rewrite length_map. apply completion_order_map. Qed.

Lemma pick_permutation {T : Type} (d : T) :
  forall l i, i < length l ->
    Permutation (nth i l d :: firstn i l ++ skipn (S i) l) l.
Proof.
  induction l as [| x l IH]; intros i Hi; [simpl in Hi; lia |].
  destruct i as [| i]; [reflexivity |].
  cbn [nth firstn skipn app].
  etransitivity; [apply perm_swap |].
  apply perm_skip. apply IH. simpl in Hi. lia.
Qed.

Lemma completion_order_permutation {T : Type} :
  forall n (pending : list T) sched,
    length pending = n ->
    Permutation (completion_order n pending sched) pending.
Proof.
  induction n as [| n IH]; intros pending sched Hlen.
  - destruct pending; [constructor | discriminate].
  - destruct pending as [| t0 pending]; [discriminate |].
    cbn [completion_order].
    set (i := hd 0 sched mod length (t0 :: pending)).
    assert (Hi : i < length (t0 :: pending)).
    { apply Nat.mod_upper_bound. discriminate. }
    etransitivity; [| apply (pick_permutation t0 _ i Hi)].
    apply perm_skip. apply IH.
    rewrite length_app, length_firstn, length_skipn. lia.
Qed.

(** Every task is delivered exactly once. *)
Lemma as_completed_permutation {T : Type} (tasks : list T) sched :
  Permutation (as_completed tasks sched) tasks.
Proof. apply completion_order_permutation. reflexivity. Qed.

(** *** Comprehensions *)

(** A loop that appends to its accumulator what a function without effects
    gives for each element. *)
Lemma for_each_collect {S A B : Type} (f : A -> outcome (list B))
    (body : A -> list B -> M S (list B)) :
  (forall x acc s,
     body x acc s =
       (match f x with
        | Ret bs => Ret (acc ++ bs)
        | Raise e => Raise e
        | Stuck => Stuck
        end, s)) ->
  forall xs acc s o s',
    for_each xs body acc s = (o, s') ->
    s' = s /\
    forall l, o = Ret l ->
      exists bss, Forall2 (fun x bs => f x = Ret bs) xs bss /\ l = acc ++ concat bss.
Proof.
  intros Hbody. induction xs as [| x xs IH]; intros acc s o s' Hrun.
  - inversion Hrun; subst. split; [reflexivity |].
    intros l [= <-]. exists []. split; [constructor | now rewrite app_nil_r].
  - cbn [for_each] in Hrun. unfold bind in Hrun. rewrite Hbody in Hrun.
    destruct (f x) as [bs | e |] eqn:Hf.
    + destruct (IH _ _ _ _ Hrun) as [-> Hl]. split; [reflexivity |].
      intros l Ho. destruct (Hl l Ho) as (bss & Hall & ->).
      exists (bs :: bss). split; [constructor; assumption |].
      simpl. now rewrite app_assoc.
    + inversion Hrun; subst. split; [reflexivity | discriminate].
    + inversion Hrun; subst. split; [reflexivity | discriminate].
Qed.

(** *** From the loop to the rendered events *)

Lemma delivery_events_render {R : Type} (name_of : R -> outcome value)
    (result_of : R -> value) (data_of : R -> list event) :
  forall rs k,
    Forall (fun r => exists name, name_of r = Ret name) rs ->
    Forall (fun r => data_of r =
              if truthy (result_of r) then [EvData (result_of r)] else []) rs ->
    exists reports,
      delivery_events name_of data_of k rs = render k reports
      /\ map snd reports = map result_of rs
      /\ Forall2 (fun r name => name_of r = Ret name) rs (map fst reports).
Proof.
  induction rs as [| r rs IH]; intros k Hnames Hdata.
  - exists []. repeat split; constructor.
  - inversion Hnames as [| ? ? [name Hname] Hnames']; subst.
    inversion Hdata as [| ? ? Hr Hdata']; subst.
    destruct (IH (S k) Hnames' Hdata') as (reports & Hev & Hres & Hfst).
    exists ((name, result_of r) :: reports).
    cbn [delivery_events render map fst snd]. rewrite Hname, Hr, Hev, Hres.
    repeat split. constructor; assumption.
Qed.

Lemma delivery_events_progress {R : Type} (name_of : R -> outcome value)
    (data_of : R -> list event) :
  (forall r, Forall (fun e => is_data e = true) (data_of r)) ->
  forall rs k,
    Forall (fun r => exists name, name_of r = Ret name) rs ->
    progress_counts (delivery_events name_of data_of k rs) = seq (S k) (length rs)
    /\ ~ In EvDone (delivery_events name_of data_of k rs).
Proof.
  intros Hdata.
  assert (Hd : forall r, progress_counts (data_of r) = [] /\ ~ In EvDone (data_of r)).
  { intros r. specialize (Hdata r).
    induction Hdata as [| e l He _ [IH1 IH2]]; [split; [reflexivity | intros []] |].
    destruct e; try discriminate. split; [exact IH1 |].
    intros [Hin | Hin]; [discriminate | auto]. }
  induction rs as [| r rs IH]; intros k Hnames.
  - split; [reflexivity | intros []].
  - inversion Hnames as [| ? ? [name Hname] Hnames']; subst.
    destruct (IH (S k) Hnames') as [IH1 IH2]. destruct (Hd r) as [Hd1 Hd2].
    cbn [delivery_events length seq]. rewrite Hname.
    unfold progress_counts in *. rewrite flat_map_app. cbn [flat_map app].
    rewrite Hd1, IH1. split; [reflexivity |].
    intros [Hin | Hin]; [discriminate |].
    apply in_app_or in Hin. destruct Hin as [Hin | Hin]; auto.
Qed.

(** *** The delivery loop of a generator *)

Section Deliveries.

Variable R : Type.
Variable name_of : R -> outcome value.
Variable result_of : R -> value.
Variable data_of : R -> list event.
Variable body : M net R -> nat -> M gen nat.

(** What one turn of the loop does: awaits the unit, records its result,
    counts it, and emits its progress event and its data. *)
Hypothesis body_turn : forall coro k g,
  body coro k g =
    match coro (network g) with
    | (Ret r, s') =>
        match name_of r with
        | Ret name =>
            (Ret (k + 1),
             {| network := s';
                emitted := emitted g ++ EvProgress name (k + 1) :: data_of r;
                delivered := delivered g ++ [result_of r] |})
        | Raise e =>
            (Raise e, {| network := s'; emitted := emitted g;
                         delivered := delivered g ++ [result_of r] |})
        | Stuck =>
            (Stuck, {| network := s'; emitted := emitted g;
                       delivered := delivered g ++ [result_of r] |})
        end
    | (Raise e, s') =>
        (Raise e, {| network := s'; emitted := emitted g;
                     delivered := delivered g |})
    | (Stuck, s') =>
        (Stuck, {| network := s'; emitted := emitted g;
                   delivered := delivered g |})
    end.

(** A loop that ends has reported every unit, in order. *)
Lemma deliveries_complete :
  forall coros k g k' g',
    for_each coros body k g = (Ret k', g') ->
    exists rs,
      Forall2 (@returned_by R) coros rs
      /\ Forall (fun r => exists name, name_of r = Ret name) rs
      /\ k' = k + length coros
      /\ emitted g' = emitted g ++ delivery_events name_of data_of k rs
      /\ delivered g' = delivered g ++ map result_of rs.
Proof.
  induction coros as [| coro coros IH]; intros k g k' g' Hrun.
  - inversion Hrun; subst. exists []. simpl.
    rewrite !app_nil_r, Nat.add_0_r. repeat split; constructor.
  - cbn [for_each] in Hrun. unfold bind in Hrun. rewrite body_turn in Hrun.
    destruct (coro (network g)) as [[r | e |] s1] eqn:Hcoro; try discriminate.
    destruct (name_of r) as [name | e |] eqn:Hname; try discriminate.
    destruct (IH _ _ _ _ Hrun) as (rs & Hret & Hnames & -> & Hem & Hdel).
    exists (r :: rs). cbn [emitted delivered] in Hem, Hdel.
    repeat split.
    + constructor; [exists (network g), s1; exact Hcoro | exact Hret].
    + constructor; [exists name; exact Hname | exact Hnames].
    + simpl. lia.
    + rewrite Hem. cbn [delivery_events]. rewrite Hname, Nat.add_1_r.
      rewrite <- !app_assoc. reflexivity.
    + rewrite Hdel. cbn [map]. rewrite <- app_assoc. reflexivity.
Qed.

(** A loop that does not end has reported fewer units than there are, and
    nothing for the others. *)
Lemma deliveries_cut_short :
  forall coros k g o g',
    for_each coros body k g = (o, g') ->
    (forall k', o <> Ret k') ->
    exists rs,
      length rs < length coros
      /\ emitted g' = emitted g ++ delivery_events name_of data_of k rs
      /\ Forall (fun r => exists name, name_of r = Ret name) rs.
Proof.
  induction coros as [| coro coros IH]; intros k g o g' Hrun Ho.
  - inversion Hrun; subst. exfalso. apply (Ho k). reflexivity.
  - cbn [for_each] in Hrun. unfold bind in Hrun. rewrite body_turn in Hrun.
    destruct (coro (network g)) as [[r | e |] s1] eqn:Hcoro.
    + destruct (name_of r) as [name | e |] eqn:Hname.
      * destruct (IH _ _ _ _ Hrun Ho) as (rs & Hlen & Hem & Hnames).
        exists (r :: rs). cbn [emitted] in Hem. repeat split.
        -- simpl. lia.
        -- rewrite Hem. cbn [delivery_events]. rewrite Hname, Nat.add_1_r.
           rewrite <- !app_assoc. reflexivity.
        -- constructor; [exists name; exact Hname | exact Hnames].
      * inversion Hrun; subst. exists []. simpl. rewrite app_nil_r.
        repeat split; [lia | constructor].
      * inversion Hrun; subst. exists []. simpl. rewrite app_nil_r.
        repeat split; [lia | constructor].
    + inversion Hrun; subst. exists []. simpl. rewrite app_nil_r.
      repeat split; [lia | constructor].
    + inversion Hrun; subst. exists []. simpl. rewrite app_nil_r.
      repeat split; [lia | constructor].
Qed.

Hypothesis data_only : forall r, Forall (fun e => is_data e = true) (data_of r).

(** The loop followed by [done]. *)
Lemma loop_and_done coros g o g' :
  (for_each coros body 0 ;; yield EvDone) g = (o, g') ->
  match o with
  | Ret _ =>
      exists rs,
        Forall (fun r => exists name, name_of r = Ret name) rs
        /\ Forall2 (@returned_by R) coros rs
        /\ emitted g' =
             emitted g ++ delivery_events name_of data_of 0 rs ++ [EvDone]
        /\ delivered g' = delivered g ++ map result_of rs
  | _ =>
      exists body,
        emitted g' = emitted g ++ body
        /\ ~ In EvDone body
        /\ length (progress_counts body) < length coros
  end.
Proof.
  unfold bind. intros Hrun.
  destruct (for_each coros body 0 g) as [[k' | e |] g1] eqn:Hloop.
  - destruct (deliveries_complete _ _ _ _ _ Hloop) as (rs & Hret & Hnames & _ & Hem & Hdel).
    unfold yield in Hrun. inversion Hrun; subst. exists rs.
    cbn [emitted delivered]. rewrite Hem, <- app_assoc. auto.
  - destruct (deliveries_cut_short _ _ _ _ _ Hloop ltac:(discriminate)) as (rs & Hlen & Hem & Hnames).
    destruct (delivery_events_progress name_of data_of data_only rs 0 Hnames)
      as [Hcounts Hdone].
    inversion Hrun; subst. eexists. split; [exact Hem |]. split; [exact Hdone |].
    rewrite Hcounts, length_seq. exact Hlen.
  - destruct (deliveries_cut_short _ _ _ _ _ Hloop ltac:(discriminate)) as (rs & Hlen & Hem & Hnames).
    destruct (delivery_events_progress name_of data_of data_only rs 0 Hnames)
      as [Hcounts Hdone].
    inversion Hrun; subst. eexists. split; [exact Hem |]. split; [exact Hdone |].
    rewrite Hcounts, length_seq. exact Hlen.
Qed.

End Deliveries.

(** *** What the units return *)

Lemma of_outcome_ret_inv {S A : Type} (o : outcome A) (s s' : S) a :
  of_outcome o s = (Ret a, s') -> o = Ret a /\ s' = s.
Proof. unfold of_outcome. intros [= -> ->]. split; reflexivity. Qed.

Lemma async_with_ret_inv sem {A : Type} (body : M net A) s a s' :
  async_with sem body s = (Ret a, s') ->
  exists s0 s1,
    acquire sem s = (Ret tt, s0) /\ body s0 = (Ret a, s1) /\ s' = release sem s1.
Proof.
  unfold async_with. intros H.
  apply bind_ret_inv in H. destruct H as ([] & s0 & Hacq & H).
  destruct (body s0) as [[b | e |] s1] eqn:Hbody; try discriminate.
  inversion H; subst. exists s0, s1. auto.
Qed.

Ltac bind_inv H :=
  repeat match type of H with
    | bind _ _ _ = (Ret _, _) =>
        let a := fresh "a" in
        let s := fresh "s" in
        let Hm := fresh "Hm" in
        apply bind_ret_inv in H; destruct H as (a & s & Hm & H);
        try (destruct a as [? ?]); cbv beta iota in H
    end.

Lemma audit_single_repo_returns sem session org repo headers fuel s r s' :
  _audit_single_repo sem session org repo headers fuel s = (Ret r, s') ->
  exists name rest,
    py_getitem repo "name" = Ret name
    /\ r = VDict (("repository", name) :: rest).
Proof.
  unfold _audit_single_repo. intros H.
  apply async_with_ret_inv in H. destruct H as (s0 & s1 & _ & H & _).
  bind_inv H.
  apply of_outcome_ret_inv in Hm. destruct Hm as [Hname _].
  unfold ret in H. injection H as <- _.
  eexists _, _. split; [exact Hname | reflexivity].
Qed.

Lemma member_details_returns sem session org username headers s r s' :
  _get_member_details sem session org username headers s = (Ret r, s') ->
  exists rest, r = VDict (("username", username) :: rest).
Proof.
  unfold _get_member_details. intros H.
  apply async_with_ret_inv in H. destruct H as (s0 & s1 & _ & H & _).
  bind_inv H.
  unfold ret in H. injection H as <- _.
  eexists. reflexivity.
Qed.

Lemma team_details_returns sem session org team headers s r s' :
  _get_team_details sem session org team headers s = (Ret r, s') ->
  exists name rest,
    py_get team "name" (VStr EmptyString) = Ret name
    /\ r = VDict (("name", name) :: rest).
Proof.
  unfold _get_team_details. intros H.
  apply async_with_ret_inv in H. destruct H as (s0 & s1 & _ & H & _).
  bind_inv H.
  match goal with
  | Hn : of_outcome (py_get team "name" _) _ = _ |- _ =>
      apply of_outcome_ret_inv in Hn; destruct Hn as [Hname _]
  end.
  unfold ret in H. injection H as <- _.
  eexists _, _. split; [exact Hname | reflexivity].
Qed.

Lemma scan_repo_access_returns sem session org repo_name headers fuel s r s' :
  _scan_repo_access sem session org repo_name headers fuel s = (Ret r, s') ->
  fst r = repo_name.
Proof.
  unfold _scan_repo_access. intros H.
  apply async_with_ret_inv in H. destruct H as (s0 & s1 & _ & H & _).
  bind_inv H. unfold ret in H. injection H as <- _. reflexivity.
Qed.

(** *** The comprehensions of the generators *)

Lemma active_repo_names_run {S : Type} all_repos (s : S) o s' :
  active_repo_names all_repos s = (o, s') ->
  s' = s /\
  forall names, o = Ret names ->
    names = map name_of_repo (filter (fun r => negb (is_archived r)) all_repos).
Proof.
  unfold active_repo_names. intros H.
  apply (for_each_collect
           (fun r =>
              match py_get r "archived" VNone with
              | Ret archived =>
                  if negb (truthy archived) then
                    match py_getitem r "name" with
                    | Ret name => Ret [name]
                    | Raise e => Raise e
                    | Stuck => Stuck
                    end
                  else Ret []
              | Raise e => Raise e
              | Stuck => Stuck
              end)) in H.
  - destruct H as [-> Hl]. split; [reflexivity |].
    intros names Ho. destruct (Hl names Ho) as (bss & Hall & ->).
    simpl. clear Hl Ho. induction Hall as [| r bs rs bss Hr _ IH]; [reflexivity |].
    cbn [concat filter]. unfold is_archived at 1.
    destruct (py_get r "archived" VNone) as [archived | |]; try discriminate.
    destruct (negb (truthy archived)).
    + unfold name_of_repo at 1. cbn [map].
      destruct (py_getitem r "name") as [name | |]; try discriminate.
      injection Hr as <-. simpl. now rewrite IH.
    + injection Hr as <-. simpl. exact IH.
  - intros r acc s0. unfold bind, of_outcome, ret.
    destruct (py_get r "archived" VNone) as [archived | |]; try reflexivity.
    destruct (negb (truthy archived)); [| now rewrite app_nil_r].
    destruct (py_getitem r "name"); reflexivity.
Qed.

(** A dictionary comprehension that pairs a task with a key for every
    entity. *)
Lemma task_table_run {S T : Type} (task : value -> T) (key : value -> outcome value)
    entities (s : S) o s' :
  for_each entities
    (fun x tasks => name <- of_outcome (key x) ;; ret (tasks ++ [(task x, name)]))
    [] s = (o, s') ->
  s' = s /\
  forall tasks, o = Ret tasks ->
    map fst tasks = map task entities
    /\ Forall2 (fun x name => key x = Ret name) entities (map snd tasks).
Proof.
  intros H.
  apply (for_each_collect
           (fun x =>
              match key x with
              | Ret name => Ret [(task x, name)]
              | Raise e => Raise e
              | Stuck => Stuck
              end)) in H.
  - destruct H as [-> Hl]. split; [reflexivity |].
    intros tasks Ho. destruct (Hl tasks Ho) as (bss & Hall & ->).
    simpl. clear Hl Ho.
    induction Hall as [| x bs xs bss Hx _ [IH1 IH2]]; [split; constructor |].
    destruct (key x) as [name | |] eqn:Hkey; try discriminate.
    injection Hx as <-. cbn [concat map app fst snd].
    split; [now rewrite IH1 | constructor; assumption].
  - intros x acc s0. unfold bind, of_outcome, ret.
    destruct (key x); reflexivity.
Qed.

Lemma usernames_run {S : Type} all_members (s : S) o s' :
  for_each all_members
    (fun m usernames =>
       login <- of_outcome (py_getitem m "login") ;; ret (usernames ++ [login]))
    [] s = (o, s') ->
  s' = s /\
  forall usernames, o = Ret usernames -> usernames = unit_names Members all_members.
Proof.
  intros H.
  apply (for_each_collect
           (fun m =>
              match py_getitem m "login" with
              | Ret login => Ret [login]
              | Raise e => Raise e
              | Stuck => Stuck
              end)) in H.
  - destruct H as [-> Hl]. split; [reflexivity |].
    intros usernames Ho. destruct (Hl usernames Ho) as (bss & Hall & ->).
    simpl. clear Hl Ho.
    induction Hall as [| m bs ms bss Hm _ IH]; [reflexivity |].
    cbn [concat map]. destruct (py_getitem m "login") as [login | |]; try discriminate.
    injection Hm as <-. simpl. now rewrite IH.
  - intros m acc s0. unfold bind, of_outcome, ret.
    destruct (py_getitem m "login"); reflexivity.
Qed.

Ltac body_turn_tac :=
  intros turn_coro turn_k turn_g;
  unfold bind, await, note, yield, of_outcome, ret;
  destruct (turn_coro (network turn_g)) as [[turn_r | turn_e |] turn_s];
  cbn [network emitted delivered fst snd];
  try reflexivity.

(** *** The run of a stream once its entity list is fetched *)

Lemma await_run {A : Type} (coro : M net A) g o s1 :
  coro (network g) = (o, s1) ->
  await coro g = (o, {| network := s1; emitted := emitted g;
                        delivered := delivered g |}).
Proof. unfold await. intros ->. reflexivity. Qed.


Lemma as_completed_length {T : Type} (tasks : list T) sched :
  length (as_completed tasks sched) = length tasks.
Proof. apply Permutation_length, as_completed_permutation. Qed.

(** The reports of a completed loop over the tasks of [units]. *)
Lemma reports_of_deliveries {R : Type} (task : value -> M net R)
    (name_of : R -> outcome value) (result_of : R -> value)
    (data_of : R -> list event) (unit_name : value -> value) units sched rs :
  (forall u r, returned_by (task u) r ->
     name_of r = Ret (unit_name u)
     /\ data_of r = if truthy (result_of r) then [EvData (result_of r)] else []) ->
  Forall2 returned_by (map task (as_completed units sched)) rs ->
  exists reports,
    delivery_events name_of data_of 0 rs = render 0 reports
    /\ map snd reports = map result_of rs
    /\ length reports = length units
    /\ Permutation (map fst reports) (map unit_name units).
Proof.
  intros Htask Hret.
  assert (Hall : Forall2 (fun u r =>
                   name_of r = Ret (unit_name u)
                   /\ data_of r =
                        if truthy (result_of r) then [EvData (result_of r)] else [])
                   (as_completed units sched) rs).
  { revert Hret. generalize (as_completed units sched). intros ordered.
    revert rs. induction ordered as [| u ordered IH]; intros rs Hret;
      inversion Hret; subst; constructor; auto. }
  destruct (delivery_events_render name_of result_of data_of rs 0)
    as (reports & Hev & Hres & Hfst).
  { clear - Hall. induction Hall as [| u r us rs [Hn _] _ IH]; constructor; eauto. }
  { clear - Hall. induction Hall as [| u r us rs [_ Hd] _ IH]; constructor; auto. }
  assert (Hnames : map fst reports = map unit_name (as_completed units sched)).
  { clear - Hall Hfst. revert Hfst. generalize (map fst reports). intros firsts.
    revert firsts. induction Hall as [| u r us rs [Hn _] _ IH]; intros firsts Hfst;
      inversion Hfst as [| ? n ? ns Hr Hrest]; subst; [reflexivity |].
    rewrite Hn in Hr. injection Hr as <-. cbn [map]. f_equal. apply IH, Hrest. }
  exists reports. repeat split; [exact Hev | exact Hres | |].
  - rewrite <- (length_map fst), Hnames, length_map. apply as_completed_length.
  - rewrite Hnames. apply Permutation_map, as_completed_permutation.
Qed.

Lemma for_each_fails_nonempty {S A L : Type} (xs : list A)
    (body : A -> L -> M S L) acc s o s' :
  for_each xs body acc s = (o, s') ->
  (forall l, o <> Ret l) ->
  0 < length xs.
Proof.
  destruct xs; intros Hrun Ho; [| simpl; lia].
  inversion Hrun; subst. exfalso. apply (Ho acc). reflexivity.
Qed.

Lemma stream_branches_anatomy session gh_token gh_org fuel sched g o g' entities s1 :
  _fetch_all_repos session gh_org (_gh_headers gh_token) fuel (network g)
    = (Ret entities, s1) ->
  stream_branches session gh_token gh_org fuel sched g = (o, g') ->
  stream_anatomy Branches entities g o g'.
Proof.
  intros Hfetch Hrun. unfold stream_branches, try_except_HTTPException in Hrun.
  rewrite (await_run _ _ _ _ Hfetch) in Hrun.
  unfold bind at 1 in Hrun.
  destruct (active_repo_names entities _) as [[names | e |] g1] eqn:Hnames;
    apply active_repo_names_run in Hnames; destruct Hnames as [-> Hnames].
  2,3: inversion Hrun; subst; exists []; cbn [emitted]; rewrite app_nil_r;
       repeat split; [intros [] | left; reflexivity].
  specialize (Hnames names eq_refl).
  unfold bind at 1, yield at 1 in Hrun. cbv beta iota in Hrun.
  cbn [network emitted delivered] in Hrun.
  rewrite map_map in Hrun. cbn [fst] in Hrun. rewrite as_completed_map in Hrun.
  pose (name_of := fun r : value * list value => Ret (fst r)).
  pose (result_of := fun r : value * list value => VList (snd r)).
  pose (data_of := fun r : value * list value =>
                     if truthy (VList (snd r)) then [EvData (VList (snd r))]
                     else []).
  eapply (loop_and_done _ name_of result_of data_of) in Hrun.
  2:{ body_turn_tac. destruct turn_r as [n b]. cbn [fst snd].
      subst data_of. cbn [snd].
      destruct (truthy (VList b)); cbn; rewrite <- ?app_assoc; reflexivity. }
  2:{ intros [n b]. subst data_of. cbn [snd].
      destruct (truthy (VList b)); repeat constructor. }
  cbn [emitted delivered] in Hrun. unfold stream_anatomy, unit_names.
  rewrite <- Hnames.
  destruct o as [[] | e |].
  - destruct Hrun as (rs & _ & Hret & Hem & Hdel).
    eapply (reports_of_deliveries _ name_of result_of data_of (fun n => n))
      in Hret.
    2:{ intros u r (s & s' & Hu). bind_inv Hu.
        unfold ret in Hu. injection Hu as <- _. split; reflexivity. }
    destruct Hret as (reports & Hev & Hres & Hlen & Hperm).
    exists reports. rewrite map_id in Hperm. repeat split.
    + rewrite Hem, Hev, Hlen, <- app_assoc. reflexivity.
    + rewrite Hdel, Hres. reflexivity.
    + exact Hperm.
  - destruct Hrun as (body & Hem & Hdone & Hlen).
    rewrite length_map, as_completed_length in Hlen.
    exists (EvStart (length names) :: body). repeat split.
    + rewrite Hem, <- app_assoc. reflexivity.
    + intros [Hin | Hin]; [discriminate | auto].
    + right. exists body. auto.
  - destruct Hrun as (body & Hem & Hdone & Hlen).
    rewrite length_map, as_completed_length in Hlen.
    exists (EvStart (length names) :: body). repeat split.
    + rewrite Hem, <- app_assoc. reflexivity.
    + intros [Hin | Hin]; [discriminate | auto].
    + right. exists body. auto.
Qed.

Lemma stream_access_anatomy session gh_token gh_org fuel sched g o g' entities s1 :
  _fetch_all_repos session gh_org (_gh_headers gh_token) fuel (network g)
    = (Ret entities, s1) ->
  stream_access session gh_token gh_org fuel sched g = (o, g') ->
  stream_anatomy Access entities g o g'.
Proof.
  intros Hfetch Hrun. unfold stream_access, try_except_HTTPException in Hrun.
  rewrite (await_run _ _ _ _ Hfetch) in Hrun.
  unfold bind at 1 in Hrun.
  destruct (active_repo_names entities _) as [[names | e |] g1] eqn:Hnames;
    apply active_repo_names_run in Hnames; destruct Hnames as [-> Hnames].
  2,3: inversion Hrun; subst; exists []; cbn [emitted]; rewrite app_nil_r;
       repeat split; [intros [] | left; reflexivity].
  specialize (Hnames names eq_refl).
  unfold bind at 1, yield at 1 in Hrun. cbv beta iota in Hrun.
  cbn [network emitted delivered] in Hrun.
  rewrite map_map in Hrun. cbn [fst] in Hrun. rewrite as_completed_map in Hrun.
  pose (name_of := fun r : value * list value => Ret (fst r)).
  pose (result_of := fun r : value * list value => VList (snd r)).
  pose (data_of := fun r : value * list value =>
                     if truthy (VList (snd r)) then [EvData (VList (snd r))]
                     else []).
  eapply (loop_and_done _ name_of result_of data_of) in Hrun.
  2:{ body_turn_tac. destruct turn_r as [n b]. cbn [fst snd].
      subst data_of. cbn [snd].
      destruct (truthy (VList b)); cbn; rewrite <- ?app_assoc; reflexivity. }
  2:{ intros [n b]. subst data_of. cbn [snd].
      destruct (truthy (VList b)); repeat constructor. }
  cbn [emitted delivered] in Hrun. unfold stream_anatomy, unit_names.
  rewrite <- Hnames.
  destruct o as [[] | e |].
  - destruct Hrun as (rs & _ & Hret & Hem & Hdel).
    eapply (reports_of_deliveries _ name_of result_of data_of (fun n => n))
      in Hret.
    2:{ intros u r (s & s' & Hu). apply scan_repo_access_returns in Hu.
        subst name_of. cbn beta. rewrite Hu. split; reflexivity. }
    destruct Hret as (reports & Hev & Hres & Hlen & Hperm).
    exists reports. rewrite map_id in Hperm. repeat split.
    + rewrite Hem, Hev, Hlen, <- app_assoc. reflexivity.
    + rewrite Hdel, Hres. reflexivity.
    + exact Hperm.
  - destruct Hrun as (body & Hem & Hdone & Hlen).
    rewrite length_map, as_completed_length in Hlen.
    exists (EvStart (length names) :: body). repeat split.
    + rewrite Hem, <- app_assoc. reflexivity.
    + intros [Hin | Hin]; [discriminate | auto].
    + right. exists body. auto.
  - destruct Hrun as (body & Hem & Hdone & Hlen).
    rewrite length_map, as_completed_length in Hlen.
    exists (EvStart (length names) :: body). repeat split.
    + rewrite Hem, <- app_assoc. reflexivity.
    + intros [Hin | Hin]; [discriminate | auto].
    + right. exists body. auto.
Qed.

Lemma stream_members_anatomy session gh_token gh_org fuel sched g o g' entities s1 :
  _fetch_all_members session gh_org (_gh_headers gh_token) fuel (network g)
    = (Ret entities, s1) ->
  stream_members session gh_token gh_org fuel sched g = (o, g') ->
  stream_anatomy Members entities g o g'.
Proof.
  intros Hfetch Hrun. unfold stream_members, try_except_HTTPException in Hrun.
  rewrite (await_run _ _ _ _ Hfetch) in Hrun.
  unfold bind at 1 in Hrun.
  match type of Hrun with
  | context [for_each entities ?b [] ?g0] =>
      destruct (for_each entities b [] g0) as [[names | e |] g1] eqn:Hnames
  end;
    apply usernames_run in Hnames; destruct Hnames as [-> Hnames].
  2,3: inversion Hrun; subst; exists []; cbn [emitted]; rewrite app_nil_r;
       repeat split; [intros [] | left; reflexivity].
  specialize (Hnames names eq_refl).
  unfold bind at 1, yield at 1 in Hrun. cbv beta iota in Hrun.
  cbn [network emitted delivered] in Hrun.
  rewrite map_map in Hrun. cbn [fst] in Hrun. rewrite as_completed_map in Hrun.
  pose (name_of := fun r : value => py_getitem r "username").
  pose (result_of := fun r : value => r).
  pose (data_of := fun r : value => [EvData r]).
  eapply (loop_and_done _ name_of result_of data_of) in Hrun.
  2:{ body_turn_tac. subst name_of. cbn beta.
      destruct (py_getitem turn_r "username"); cbn; rewrite <- ?app_assoc;
        reflexivity. }
  2:{ intros r. repeat constructor. }
  cbn [emitted delivered] in Hrun. unfold stream_anatomy.
  rewrite <- Hnames.
  destruct o as [[] | e |].
  - destruct Hrun as (rs & _ & Hret & Hem & Hdel).
    eapply (reports_of_deliveries _ name_of result_of data_of (fun n => n))
      in Hret.
    2:{ intros u r (s & s' & Hu). apply member_details_returns in Hu.
        destruct Hu as (rest & ->). split; reflexivity. }
    destruct Hret as (reports & Hev & Hres & Hlen & Hperm).
    exists reports. rewrite map_id in Hperm. repeat split.
    + rewrite Hem, Hev, Hlen, <- app_assoc. reflexivity.
    + rewrite Hdel, Hres. subst result_of. now rewrite map_id.
    + exact Hperm.
  - destruct Hrun as (body & Hem & Hdone & Hlen).
    rewrite length_map, as_completed_length in Hlen.
    exists (EvStart (length names) :: body). repeat split.
    + rewrite Hem, <- app_assoc. reflexivity.
    + intros [Hin | Hin]; [discriminate | auto].
    + right. exists body. auto.
  - destruct Hrun as (body & Hem & Hdone & Hlen).
    rewrite length_map, as_completed_length in Hlen.
    exists (EvStart (length names) :: body). repeat split.
    + rewrite Hem, <- app_assoc. reflexivity.
    + intros [Hin | Hin]; [discriminate | auto].
    + right. exists body. auto.
Qed.

Lemma stream_audit_repos_anatomy session gh_token gh_org fuel sched g o g'
    entities s1 :
  _fetch_all_repos session gh_org (_gh_headers gh_token) fuel (network g)
    = (Ret entities, s1) ->
  stream_audit_repos session gh_token gh_org fuel sched g = (o, g') ->
  stream_anatomy Repos entities g o g'.
Proof.
  intros Hfetch Hrun. unfold stream_audit_repos, try_except_HTTPException in Hrun.
  rewrite (await_run _ _ _ _ Hfetch) in Hrun.
  unfold bind at 1, yield at 1 in Hrun. cbv beta iota in Hrun.
  cbn [network emitted delivered] in Hrun.
  unfold stream_anatomy, unit_names. rewrite length_map.
  unfold bind at 1 in Hrun.
  match type of Hrun with
  | context [for_each entities ?b [] ?g0] =>
      destruct (for_each entities b [] g0) as [[tasks | e |] g1] eqn:Htasks
  end.
  2,3: pose proof (for_each_fails_nonempty _ _ _ _ _ _ Htasks
                     ltac:(discriminate)) as Hpos;
       apply (task_table_run
                (fun repo => _audit_single_repo _AUDIT_SEM session gh_org repo
                               (_gh_headers gh_token) fuel)
                (fun repo => py_getitem repo "name")) in Htasks;
       destruct Htasks as [-> _]; inversion Hrun; subst;
       exists [EvStart (length entities)]; cbn [emitted]; repeat split;
       [intros [Hin | []]; discriminate | right; exists []; auto].
  apply (task_table_run
           (fun repo => _audit_single_repo _AUDIT_SEM session gh_org repo
                          (_gh_headers gh_token) fuel)
           (fun repo => py_getitem repo "name")) in Htasks.
  destruct Htasks as [-> Htasks].
  destruct (Htasks tasks eq_refl) as [Hfst _]. rewrite Hfst in Hrun.
  rewrite as_completed_map in Hrun.
  pose (name_of := fun r : value => py_getitem r "repository").
  pose (result_of := fun r : value => r).
  pose (data_of := fun r : value => [EvData r]).
  eapply (loop_and_done _ name_of result_of data_of) in Hrun.
  2:{ body_turn_tac. subst name_of. cbn beta.
      destruct (py_getitem turn_r "repository"); cbn; rewrite <- ?app_assoc;
        reflexivity. }
  2:{ intros r. repeat constructor. }
  cbn [emitted delivered] in Hrun.
  destruct o as [[] | e |].
  - destruct Hrun as (rs & _ & Hret & Hem & Hdel).
    eapply (reports_of_deliveries _ name_of result_of data_of name_of_repo)
      in Hret.
    2:{ intros u r (s & s' & Hu). apply audit_single_repo_returns in Hu.
        destruct Hu as (name & rest & Hname & ->).
        unfold name_of_repo. rewrite Hname. split; reflexivity. }
    destruct Hret as (reports & Hev & Hres & Hlen & Hperm).
    exists reports. repeat split.
    + rewrite Hem, Hev, Hlen, <- app_assoc. reflexivity.
    + rewrite Hdel, Hres. subst result_of. now rewrite map_id.
    + exact Hperm.
  - destruct Hrun as (body & Hem & Hdone & Hlen).
    rewrite length_map, as_completed_length in Hlen.
    exists (EvStart (length entities) :: body). repeat split.
    + rewrite Hem, <- app_assoc. reflexivity.
    + intros [Hin | Hin]; [discriminate | auto].
    + right. exists body. auto.
  - destruct Hrun as (body & Hem & Hdone & Hlen).
    rewrite length_map, as_completed_length in Hlen.
    exists (EvStart (length entities) :: body). repeat split.
    + rewrite Hem, <- app_assoc. reflexivity.
    + intros [Hin | Hin]; [discriminate | auto].
    + right. exists body. auto.
Qed.

Lemma stream_teams_anatomy session gh_token gh_org fuel sched g o g' entities s1 :
  _fetch_all_teams session gh_org (_gh_headers gh_token) fuel (network g)
    = (Ret entities, s1) ->
  stream_teams session gh_token gh_org fuel sched g = (o, g') ->
  stream_anatomy Teams entities g o g'.
Proof.
  intros Hfetch Hrun. unfold stream_teams, try_except_HTTPException in Hrun.
  rewrite (await_run _ _ _ _ Hfetch) in Hrun.
  unfold bind at 1, yield at 1 in Hrun. cbv beta iota in Hrun.
  cbn [network emitted delivered] in Hrun.
  unfold stream_anatomy, unit_names. rewrite length_map.
  unfold bind at 1 in Hrun.
  match type of Hrun with
  | context [for_each entities ?b [] ?g0] =>
      destruct (for_each entities b [] g0) as [[tasks | e |] g1] eqn:Htasks
  end.
  2,3: pose proof (for_each_fails_nonempty _ _ _ _ _ _ Htasks
                     ltac:(discriminate)) as Hpos;
       apply (task_table_run
                (fun t => _get_team_details _TEAM_SEM session gh_org t
                            (_gh_headers gh_token))
                (fun t => py_get t "name" (VStr EmptyString))) in Htasks;
       destruct Htasks as [-> _]; inversion Hrun; subst;
       exists [EvStart (length entities)]; cbn [emitted]; repeat split;
       [intros [Hin | []]; discriminate | right; exists []; auto].
  apply (task_table_run
           (fun t => _get_team_details _TEAM_SEM session gh_org t
                       (_gh_headers gh_token))
           (fun t => py_get t "name" (VStr EmptyString))) in Htasks.
  destruct Htasks as [-> Htasks].
  destruct (Htasks tasks eq_refl) as [Hfst _]. rewrite Hfst in Hrun.
  rewrite as_completed_map in Hrun.
  pose (name_of := fun r : value => py_getitem r "name").
  pose (result_of := fun r : value => r).
  pose (data_of := fun r : value => [EvData r]).
  eapply (loop_and_done _ name_of result_of data_of) in Hrun.
  2:{ body_turn_tac. subst name_of. cbn beta.
      destruct (py_getitem turn_r "name"); cbn; rewrite <- ?app_assoc;
        reflexivity. }
  2:{ intros r. repeat constructor. }
  cbn [emitted delivered] in Hrun.
  destruct o as [[] | e |].
  - destruct Hrun as (rs & _ & Hret & Hem & Hdel).
    eapply (reports_of_deliveries _ name_of result_of data_of
              (fun t => match py_get t "name" (VStr EmptyString) with
                        | Ret name => name
                        | _ => VNone
                        end))
      in Hret.
    2:{ intros u r (s & s' & Hu). apply team_details_returns in Hu.
        destruct Hu as (name & rest & Hname & ->).
        rewrite Hname. split; reflexivity. }
    destruct Hret as (reports & Hev & Hres & Hlen & Hperm).
    exists reports. repeat split.
    + rewrite Hem, Hev, Hlen, <- app_assoc. reflexivity.
    + rewrite Hdel, Hres. subst result_of. now rewrite map_id.
    + exact Hperm.
  - destruct Hrun as (body & Hem & Hdone & Hlen).
    rewrite length_map, as_completed_length in Hlen.
    exists (EvStart (length entities) :: body). repeat split.
    + rewrite Hem, <- app_assoc. reflexivity.
    + intros [Hin | Hin]; [discriminate | auto].
    + right. exists body. auto.
  - destruct Hrun as (body & Hem & Hdone & Hlen).
    rewrite length_map, as_completed_length in Hlen.
    exists (EvStart (length entities) :: body). repeat split.
    + rewrite Hem, <- app_assoc. reflexivity.
    + intros [Hin | Hin]; [discriminate | auto].
    + right. exists body. auto.
Qed.

(** The anatomy of a run, for every stream. *)
Lemma run_stream_anatomy k session gh_token gh_org fuel sched g o g' entities s1 :
  entity_list k session gh_org (_gh_headers gh_token) fuel (network g)
    = (Ret entities, s1) ->
  run_stream k session gh_token gh_org fuel sched g = (o, g') ->
  stream_anatomy k entities g o g'.
Proof.
  destruct k; cbn [entity_list run_stream].
  - apply stream_audit_repos_anatomy.
  - apply stream_branches_anatomy.
  - apply stream_access_anatomy.
  - apply stream_members_anatomy.
  - apply stream_teams_anatomy.
Qed.

(** *** The rendered events *)

Lemma render_progress_counts reports :
  forall k, progress_counts (render k reports) = seq (S k) (length reports).
Proof.
  induction reports as [| [name result] reports IH]; intros k; [reflexivity |].
  cbn [render unit_events length seq app]. unfold progress_counts in *.
  cbn [flat_map app]. rewrite flat_map_app, IH.
  destruct (truthy result); reflexivity.
Qed.

Lemma render_progress_names reports :
  forall k, progress_names (render k reports) = map fst reports.
Proof.
  induction reports as [| [name result] reports IH]; intros k; [reflexivity |].
  cbn [render unit_events map fst app]. unfold progress_names in *.
  cbn [flat_map app]. rewrite flat_map_app, IH.
  destruct (truthy result); reflexivity.
Qed.

Lemma render_no_done reports : forall k, ~ In EvDone (render k reports).
Proof.
  induction reports as [| [name result] reports IH]; intros k; [intros [] |].
  cbn [render unit_events app]. intros [Hin | Hin]; [discriminate |].
  apply in_app_or in Hin. destruct Hin as [Hin | Hin]; [| apply (IH _ Hin)].
  destruct (truthy result); [destruct Hin as [Hin | []]; discriminate | destruct Hin].
Qed.



(** *** The streams *)

(** C8. When the retrieval of the entity list fails with its typed failure,
    before any unit starts, the stream is one [error] event carrying the
    detail of the failure and nothing else, and the generator returns. *)
Theorem entity_list_failure_single_error k session gh_token gh_org fuel sched g
    status_code detail s1 :
  entity_list k session gh_org (_gh_headers gh_token) fuel (network g)
    = (Raise (HTTPException status_code detail), s1) ->
  run_stream k session gh_token gh_org fuel sched g =
    (Ret tt, {| network := s1; emitted := emitted g ++ [EvError detail];
                delivered := delivered g |})
  /\ (emitted g = [] ->
      emitted (snd (run_stream k session gh_token gh_org fuel sched g))
        = [EvError detail]).
Proof.
  intros Hfetch.
  assert (Hrun : run_stream k session gh_token gh_org fuel sched g =
            (Ret tt, {| network := s1; emitted := emitted g ++ [EvError detail];
                        delivered := delivered g |})).
  { destruct k; cbn [entity_list run_stream] in *;
      unfold stream_audit_repos, stream_branches, stream_access, stream_members,
        stream_teams, try_except_HTTPException;
      rewrite (await_run _ _ _ _ Hfetch); reflexivity. }
  split; [exact Hrun |].
  intros Hfresh. rewrite Hrun. cbn [snd emitted]. rewrite Hfresh. reflexivity.
Qed.

(** C5. A run that fetched its entity list and returned has emitted, after
    [start], one progress event per unit with the processed counts
    1, 2, ..., N in this order: they increase strictly and N is reached
    once, by the last progress event, before [done], which ends the stream. *)
Theorem progress_counts_of_successful_run k session gh_token gh_org fuel sched
    g g' entities s1 :
  entity_list k session gh_org (_gh_headers gh_token) fuel (network g)
    = (Ret entities, s1) ->
  run_stream k session gh_token gh_org fuel sched g = (Ret tt, g') ->
  let N := length (unit_names k entities) in
  exists body,
    emitted g' = emitted g ++ EvStart N :: body ++ [EvDone]
    /\ ~ In EvDone body
    /\ progress_counts body = seq 1 N
    /\ length (progress_counts body) = N
    /\ (forall i j, i < j < N ->
          nth i (progress_counts body) 0 < nth j (progress_counts body) 0)
    /\ (0 < N ->
          count_occ Nat.eq_dec (progress_counts body) N = 1
          /\ last (progress_counts body) 0 = N).
Proof.
  intros Hfetch Hrun N.
  destruct (run_stream_anatomy _ _ _ _ _ _ _ _ _ _ _ Hfetch Hrun)
    as (reports & Hem & _ & Hperm).
  assert (Hlen : length reports = N).
  { subst N. rewrite <- (Permutation_length Hperm). now rewrite length_map. }
  exists (render 0 reports).
  rewrite render_progress_counts, Hlen, length_seq.
  rewrite Hlen in Hem. repeat split.
  - exact Hem.
  - apply render_no_done.
  - intros i j Hij. rewrite !seq_nth by lia. lia.
  - apply NoDup_count_occ'; [apply seq_NoDup | apply in_seq; lia].
  - destruct N as [| n]; [lia |].
    rewrite seq_S, last_last. reflexivity.
Qed.


(** C10. The branch audit and the access audit leave the archived
    repositories out: the total of their [start] event counts the
    repositories that are not archived, and their progress events name these
    repositories, each once.  The repository audit takes every repository,
    archived or not. *)
Theorem archived_repositories_excluded k session gh_token gh_org fuel sched
    g g' all_repos s1 :
  _fetch_all_repos session gh_org (_gh_headers gh_token) fuel (network g)
    = (Ret all_repos, s1) ->
  run_stream k session gh_token gh_org fuel sched g = (Ret tt, g') ->
  let active := filter (fun r => negb (is_archived r)) all_repos in
  (k = Branches \/ k = Access ->
   exists body,
     emitted g' = emitted g ++ EvStart (length active) :: body ++ [EvDone]
     /\ Permutation (progress_names body) (map name_of_repo active))
  /\ (k = Repos ->
      exists body,
        emitted g' = emitted g ++ EvStart (length all_repos) :: body ++ [EvDone]
        /\ Permutation (progress_names body) (map name_of_repo all_repos)).
Proof.
  intros Hfetch Hrun active.
  assert (Hshape : k = Repos \/ k = Branches \/ k = Access ->
            exists body,
              emitted g' =
                emitted g ++ EvStart (length (unit_names k all_repos))
                  :: body ++ [EvDone]
              /\ Permutation (progress_names body) (unit_names k all_repos)).
  { intros Hk.
    assert (Hlist : entity_list k session gh_org (_gh_headers gh_token) fuel
                      (network g) = (Ret all_repos, s1)).
    { destruct Hk as [-> | [-> | ->]]; exact Hfetch. }
    destruct (run_stream_anatomy _ _ _ _ _ _ _ _ _ _ _ Hlist Hrun)
      as (reports & Hem & _ & Hperm).
    exists (render 0 reports). rewrite render_progress_names. split; [| exact Hperm].
    rewrite Hem, <- (Permutation_length Hperm), length_map. reflexivity. }
  split.
  - intros Hk.
    destruct Hshape as (body & Hem & Hperm); [tauto |].
    exists body.
    destruct Hk as [-> | ->]; cbn [unit_names] in Hem, Hperm;
      rewrite length_map in Hem; auto.
  - intros ->.
    destruct Hshape as (body & Hem & Hperm); [tauto |].
    exists body. cbn [unit_names] in Hem, Hperm.
    rewrite length_map in Hem. auto.
Qed.

(** *** The concurrency ceiling *)

Lemma semaphore_eqb_eq a b : semaphore_eqb a b = true <-> a = b.
Proof. destruct a, b; simpl; split; intros H; try reflexivity; discriminate. Qed.







(** *** The permit of a unit *)

Create HintDb permits.

Lemma keeps_ret {A : Type} (a : A) : keeps_permits (ret a).
Proof. intros s o s' [= <- <-]. reflexivity. Qed.

Lemma keeps_raise {A : Type} e : keeps_permits (@raise net A e).
Proof. intros s o s' [= <- <-]. reflexivity. Qed.

Lemma keeps_stuck {A : Type} : keeps_permits (@stuck net A).
Proof. intros s o s' [= <- <-]. reflexivity. Qed.

Lemma keeps_of_outcome {A : Type} (o : outcome A) : keeps_permits (of_outcome o).
Proof. intros s o' s' [= <- <-]. reflexivity. Qed.

Lemma keeps_bind {A B : Type} (m : M net A) (k : A -> M net B) :
  keeps_permits m -> (forall a, keeps_permits (k a)) -> keeps_permits (bind m k).
Proof.
  intros Hm Hk s o s'. unfold bind.
  destruct (m s) as [[a | e |] s1] eqn:Hms; intros Hrun.
  - rewrite (Hk a _ _ _ Hrun). apply (Hm _ _ _ Hms).
  - injection Hrun as <- <-. apply (Hm _ _ _ Hms).
  - injection Hrun as <- <-. apply (Hm _ _ _ Hms).
Qed.

Lemma keeps_session_get session url headers params :
  keeps_permits (session_get session url headers params).
Proof.
  intros s o s'. unfold session_get.
  destruct (answer session _ _); intros [= <- <-]; reflexivity.
Qed.

Lemma keeps_time_time session : keeps_permits (time_time session).
Proof. intros s o s' [= <- <-]. reflexivity. Qed.

Lemma keeps_asyncio_sleep wait : keeps_permits (asyncio_sleep wait).
Proof. intros s o s' [= <- <-]. reflexivity. Qed.

Lemma keeps_for_each {A L : Type} (xs : list A) (body : A -> L -> M net L) :
  (forall x acc, keeps_permits (body x acc)) ->
  forall acc, keeps_permits (for_each xs body acc).
Proof.
  intros Hbody. induction xs as [| x xs IH]; intros acc; cbn [for_each].
  - apply keeps_ret.
  - apply keeps_bind; [apply Hbody | exact IH].
Qed.

Lemma keeps_gather {A : Type} (aws : list (M net A)) :
  Forall keeps_permits aws -> keeps_permits (gather aws).
Proof.
  induction 1 as [| a aws Ha _ IH]; cbn [gather].
  - apply keeps_ret.
  - apply keeps_bind; [exact Ha |]. intros x.
    apply keeps_bind; [exact IH |]. intros xs. apply keeps_ret.
Qed.

#[local] Hint Resolve keeps_ret keeps_raise keeps_stuck keeps_of_outcome
  keeps_session_get keeps_time_time keeps_asyncio_sleep : permits.

(** Walks through a computation written with [bind], [if] and [match]. *)
Ltac keeps :=
  repeat first
    [ solve [auto with permits]
    | apply keeps_bind; [| intros ?]
    | match goal with
      | |- keeps_permits (if ?c then _ else _) => destruct c
      | |- keeps_permits (match ?x with _ => _ end) => destruct x
      | |- keeps_permits (let '(_, _) := ?x in _) => destruct x
      end ].

Lemma keeps_retry_loop session url headers params :
  forall remaining attempt,
    keeps_permits (retry_loop session url headers params attempt remaining).
Proof.
  induction remaining as [| remaining IH]; intros attempt; cbn [retry_loop].
  - keeps.
  - unfold retry_wait. keeps; try apply IH.
Qed.

Lemma keeps_fetch_with_retry session url headers params max_retries :
  keeps_permits (_fetch_with_retry session url headers params max_retries).
Proof. apply keeps_retry_loop. Qed.

#[local] Hint Resolve keeps_fetch_with_retry : permits.

Lemma keeps_check_codeowners session org repo headers :
  keeps_permits (_check_codeowners session org repo headers).
Proof.
  unfold _check_codeowners. apply keeps_bind; [| intros; keeps].
  apply keeps_gather. repeat constructor; keeps.
Qed.

Lemma keeps_check_branch_rules session org repo branch headers :
  keeps_permits (_check_branch_rules session org repo branch headers).
Proof.
  unfold _check_branch_rules. keeps.
  apply keeps_for_each. intros rule acc. unfold branch_rule_step. keeps.
Qed.

Lemma keeps_get_admins session org repo headers fuel :
  keeps_permits (_get_admins session org repo headers fuel).
Proof.
  unfold _get_admins. generalize (@nil value) 1%Z.
  induction fuel as [| fuel IH]; intros admins page; cbn [get_admins_loop].
  - keeps.
  - keeps; try apply IH.
Qed.

Lemma keeps_get_branch_count session org repo headers fuel :
  keeps_permits (_get_branch_count session org repo headers fuel).
Proof.
  unfold _get_branch_count. generalize 0 1%Z.
  induction fuel as [| fuel IH]; intros count page; cbn [get_branch_count_loop].
  - keeps.
  - keeps; try apply IH.
Qed.

#[local] Hint Resolve keeps_check_codeowners keeps_check_branch_rules
  keeps_get_admins keeps_get_branch_count : permits.



(** *** A unit whose sub-requests are refused *)

Lemma retry_loop_never_ok session url headers params :
  never_ok session ->
  forall remaining attempt s,
    exists r s',
      retry_loop session url headers params attempt remaining s = (Ret r, s')
      /\ status r <> 200%Z.
Proof.
  intros Hno. induction remaining as [| remaining IH]; intros attempt s;
    cbn [retry_loop];
    destruct (Hno (length (issued s))
                {| url := url; headers := headers; params := params |})
      as (r & Hr & Hst).
  - rewrite (session_get_responds _ _ _ _ _ _ Hr). eauto.
  - rewrite (bind_run _ _ _ _ _ (session_get_responds _ _ _ _ _ _ Hr)).
    destruct (status r =? 403)%Z; [| unfold ret; eauto].
    unfold bind at 1.
    destruct (retry_wait session r attempt _) as [[wait | e |] s1] eqn:Hwait.
    + unfold bind at 1, asyncio_sleep at 1. apply IH.
    + unfold retry_wait in Hwait. destruct (reset r); discriminate.
    + unfold retry_wait in Hwait. destruct (reset r); discriminate.
Qed.

Lemma returns_ret {A : Type} (a : A) (P : A -> Prop) :
  P a -> always_returns (ret a) P.
Proof. intros Ha s. exists a, s. split; [reflexivity | exact Ha]. Qed.


Lemma returns_bind {A B : Type} (m : M net A) (k : A -> M net B)
    (P : A -> Prop) (Q : B -> Prop) :
  always_returns m P ->
  (forall a, P a -> always_returns (k a) Q) ->
  always_returns (bind m k) Q.
Proof.
  intros Hm Hk s. destruct (Hm s) as (a & s1 & Hrun & Ha).
  rewrite (bind_run _ _ _ _ _ Hrun). apply (Hk a Ha).
Qed.


Lemma fetch_with_retry_never_ok session url headers params :
  never_ok session ->
  always_returns
    (_fetch_with_retry session url headers params max_retries_default)
    (fun r => (status r =? 200)%Z = false).
Proof.
  intros Hno s.
  destruct (retry_loop_never_ok session url headers params Hno
              max_retries_default 0 s) as (r & s' & Hrun & Hst).
  exists r, s'. split; [exact Hrun | now apply Z.eqb_neq].
Qed.






(** *** An exception inside a unit *)




(** ** Further properties of the code *)

(** *** The request executor: bounds and transport failures *)




Lemma retry_loop_fails session url headers params :
  forall limited remaining attempt s,
    length limited <= remaining ->
    Forall (fun x => status x = 403%Z) limited ->
    (forall k x, nth_error limited k = Some x ->
       answer session (length (issued s) + k) (request_of url headers params)
         = Responds x) ->
    answer session (length (issued s) + length limited)
      (request_of url headers params) = Fails ->
    retry_loop session url headers params attempt remaining s =
      (Raise ClientError,
       {| issued := issued s
            ++ repeat (request_of url headers params) (S (length limited));
          slept := slept s
            ++ specified_waits session (length (issued s)) attempt limited;
          permits := permits s |}).
Proof.
  induction limited as [| x limited IH]; intros remaining attempt s Hlen H403 Hans Hfail.
  - cbn [length] in Hfail. rewrite Nat.add_0_r in Hfail.
    assert (Hget : session_get session url headers params s =
              (Raise ClientError,
               {| issued := issued s ++ [request_of url headers params];
                  slept := slept s; permits := permits s |})).
    { unfold session_get. unfold request_of in Hfail. rewrite Hfail. reflexivity. }
    simpl. rewrite app_nil_r.
    destruct remaining as [| remaining]; cbn [retry_loop].
    + exact Hget.
    + unfold bind. rewrite Hget. reflexivity.
  - destruct remaining as [| remaining]; [simpl in Hlen; lia |].
    assert (Hx : answer session (length (issued s))
               {| url := url; headers := headers; params := params |} = Responds x).
    { rewrite <- (Nat.add_0_r (length (issued s))). apply Hans. reflexivity. }
    inversion H403 as [| ? ? Hsx H403']; subst.
    cbn [retry_loop].
    rewrite (bind_run _ _ _ _ _ (session_get_responds _ _ _ _ _ _ Hx)).
    apply Z.eqb_eq in Hsx. rewrite Hsx.
    set (s1 := {| issued := issued s
                    ++ [{| url := url; headers := headers; params := params |}];
                  slept := slept s; permits := permits s |}).
    assert (Hwait : retry_wait session x attempt s1 =
              (Ret (specified_wait (reset x) (clock session (S (length (issued s))))
                      (Z.of_nat attempt + 1)), s1)).
    { unfold retry_wait, specified_wait.
      destruct (reset x) as [ts |]; [| reflexivity].
      unfold bind, time_time, ret. subst s1. cbn [issued].
      rewrite length_app. cbn [length]. rewrite Nat.add_1_r. reflexivity. }
    rewrite (bind_run _ _ _ _ _ Hwait).
    unfold asyncio_sleep at 1. unfold bind at 1.
    rewrite (IH remaining (S attempt)).
    + subst s1. cbn [issued slept permits length specified_waits repeat].
      rewrite length_app, Nat.add_1_r. cbn [length].
      rewrite <- !app_assoc. reflexivity.
    + simpl in Hlen. lia.
    + exact H403'.
    + intros k y Hk. subst s1. cbn [issued].
      rewrite length_app. cbn [length].
      replace (length (issued s) + 1 + k) with (length (issued s) + S k) by lia.
      apply Hans. exact Hk.
    + subst s1. cbn [issued]. rewrite length_app. cbn [length].
      replace (length (issued s) + 1 + length limited)
        with (length (issued s) + length (x :: limited)) by (cbn [length]; lia).
      exact Hfail.
Qed.

(** X2. A transport failure is not retried: when a request of the executor
    fails, after the 403 responses [limited] or at once, the executor raises
    the failure there, with no further request and no further sleep. *)
Theorem transport_failure_not_retried session url headers params s limited :
  length limited <= max_retries_default ->
  Forall (fun x => status x = 403%Z) limited ->
  (forall k x, nth_error limited k = Some x ->
     answer session (length (issued s) + k) (request_of url headers params)
       = Responds x) ->
  answer session (length (issued s) + length limited)
    (request_of url headers params) = Fails ->
  _fetch_with_retry session url headers params max_retries_default s =
    (Raise ClientError,
     {| issued := issued s
          ++ repeat (request_of url headers params) (S (length limited));
        slept := slept s
          ++ specified_waits session (length (issued s)) 0 limited;
        permits := permits s |}).
Proof. intros. unfold _fetch_with_retry. now apply retry_loop_fails. Qed.

(** *** The collector under a lasting rate limit *)

(** X3. When the remote answers the first page with 403 four times in a
    row, the collector gives up with the upstream failure of status 403 that
    carries the body of the fourth response, after four requests for page 1
    and three waits. *)
Theorem fetch_all_repos_rate_limited session org headers fuel s r1 r2 r3 r4 :
  (forall k x, nth_error [r1; r2; r3; r4] k = Some x ->
     answer session (length (issued s) + k) (page_request org headers 1)
       = Responds x /\ status x = 403%Z) ->
  _fetch_all_repos session org headers (S fuel) s =
    (Raise (HTTPException 403
              (VStr ("GitHub API error: " ++ text r4)%string)),
     {| issued := issued s ++ repeat (page_request org headers 1) 4;
        slept := slept s
          ++ specified_waits session (length (issued s)) 0 [r1; r2; r3];
        permits := permits s |}).
Proof.
  intros Hans. unfold _fetch_all_repos. cbn [fetch_all_repos_loop].
  unfold _fetch_with_retry.
  rewrite (bind_run _ _ _ _ _
             (retry_loop_run session (org_repos_url org) headers (page_params 1)
                [r1; r2; r3] max_retries_default 0 s r4
                ltac:(unfold max_retries_default; simpl; lia)
                ltac:(repeat constructor;
                      [apply (Hans 0) | apply (Hans 1) | apply (Hans 2)];
                      reflexivity)
                ltac:(left; reflexivity)
                ltac:(intros k x Hk; apply (Hans k x Hk)))).
  destruct (Hans 3 r4 eq_refl) as [_ ->]. reflexivity.
Qed.

(** *** The basic statistics *)

Lemma count_flag_run key : forall all_repos s o s',
  count_flag key all_repos s = (o, s') ->
  s' = s /\
  forall n, o = Ret n -> n = length (filter (has_flag key) all_repos).
Proof.
  unfold count_flag. intros all_repos.
  assert (Hgen : forall acc (s : net) o s',
            for_each all_repos
              (fun r count =>
                 flag <- of_outcome (py_get r key VNone) ;;
                 (if truthy flag then ret (count + 1) else ret count)) acc s
              = (o, s') ->
            s' = s /\
            forall n, o = Ret n ->
              n = acc + length (filter (has_flag key) all_repos)).
  { induction all_repos as [| r l IH]; intros acc s o s' Hrun.
    - inversion Hrun; subst. split; [reflexivity |]. intros n [= <-]. simpl. lia.
    - cbn [for_each] in Hrun. unfold bind at 1 in Hrun.
      unfold bind at 1, of_outcome at 1 in Hrun.
      cbn [filter]. unfold has_flag at 1.
      destruct (py_get r key VNone) as [flag | e |].
      + destruct (truthy flag); unfold ret at 1 in Hrun;
          destruct (IH _ _ _ _ Hrun) as [-> Hn]; (split; [reflexivity |]);
          intros n Ho; rewrite (Hn n Ho); cbn [length]; lia.
      + inversion Hrun; subst. split; [reflexivity | discriminate].
      + inversion Hrun; subst. split; [reflexivity | discriminate]. }
  intros s o s' Hrun. destruct (Hgen _ _ _ _ Hrun) as [-> Hn].
  split; [reflexivity | exact Hn].
Qed.

Lemma filter_complement_length {A : Type} (f : A -> bool) (l : list A) :
  length (filter f l) + length (filter (fun x => negb (f x)) l) = length l.
Proof.
  induction l as [| x l IH]; [reflexivity |].
  cbn [filter]. destruct (f x); cbn [negb length]; lia.
Qed.

(** X4. The statistics that [get_basic_stats] returns are those of the
    repositories collected: the total is their number, the archived and the
    private ones are counted by their flags, and the active and the public
    ones are the others, so that no count is negative and the active and
    archived counts, like the private and public ones, add up to the
    total. *)
Theorem get_basic_stats_counts session gh_token gh_org fuel s stats s' :
  get_basic_stats session gh_token gh_org fuel s = (Ret stats, s') ->
  exists all_repos,
    _fetch_all_repos session gh_org (_gh_headers gh_token) fuel s
      = (Ret all_repos, s')
    /\ stats = VDict [
         ("total_repositories", VInt (Z.of_nat (length all_repos)));
         ("active_repositories",
          VInt (Z.of_nat (length (filter (fun r => negb (has_flag "archived" r))
                                    all_repos))));
         ("archived_repositories",
          VInt (Z.of_nat (length (filter (has_flag "archived") all_repos))));
         ("private_repositories",
          VInt (Z.of_nat (length (filter (has_flag "private") all_repos))));
         ("public_repositories",
          VInt (Z.of_nat (length (filter (fun r => negb (has_flag "private" r))
                                    all_repos)))) ].
Proof.
  unfold get_basic_stats. intros Hrun.
  apply bind_ret_inv in Hrun. destruct Hrun as (all_repos & s1 & Hfetch & Hrun).
  apply bind_ret_inv in Hrun. destruct Hrun as (archived & s2 & Harch & Hrun).
  apply bind_ret_inv in Hrun. destruct Hrun as (private & s3 & Hpriv & Hrun).
  apply count_flag_run in Harch. destruct Harch as [-> Harch].
  apply count_flag_run in Hpriv. destruct Hpriv as [-> Hpriv].
  specialize (Harch _ eq_refl). specialize (Hpriv _ eq_refl).
  unfold ret in Hrun. injection Hrun as <- <-.
  exists all_repos. split; [exact Hfetch |].
  pose proof (filter_complement_length (has_flag "archived") all_repos) as Ha.
  pose proof (filter_complement_length (has_flag "private") all_repos) as Hp.
  rewrite Harch, Hpriv.
  replace (Z.of_nat (length all_repos)
             - Z.of_nat (length (filter (has_flag "archived") all_repos)))%Z
    with (Z.of_nat (length (filter (fun r => negb (has_flag "archived" r))
                              all_repos))) by lia.
  replace (Z.of_nat (length all_repos)
             - Z.of_nat (length (filter (has_flag "private") all_repos)))%Z
    with (Z.of_nat (length (filter (fun r => negb (has_flag "private" r))
                              all_repos))) by lia.
  reflexivity.
Qed.

(** *** The checks of one repository *)

Lemma for_each_invariant {S A L : Type} (P : L -> Prop)
    (body : A -> L -> M S L) :
  (forall x acc s acc' s', P acc -> body x acc s = (Ret acc', s') -> P acc') ->
  forall xs acc s acc' s',
    P acc -> for_each xs body acc s = (Ret acc', s') -> P acc'.
Proof.
  intros Hbody. induction xs as [| x xs IH]; intros acc s acc' s' Hacc Hrun.
  - injection Hrun as <- _. exact Hacc.
  - cbn [for_each] in Hrun. apply bind_ret_inv in Hrun.
    destruct Hrun as (acc1 & s1 & Hstep & Hrun).
    apply (IH _ _ _ _ (Hbody _ _ _ _ _ Hacc Hstep) Hrun).
Qed.

Lemma branch_rule_step_run rule allows required s allows' required' s' :
  branch_rule_step rule (allows, required) s = (Ret (allows', required'), s') ->
  allows' = allows && negb (is_pull_request_rule rule)
  /\ (required' = true -> required = true \/ is_pull_request_rule rule = true).
Proof.
  unfold branch_rule_step, is_pull_request_rule. intros H.
  apply bind_ret_inv in H. destruct H as (rule_type & s1 & Htype & H).
  apply of_outcome_ret_inv in Htype. destruct Htype as [-> ->].
  destruct (py_eq_str rule_type "pull_request").
  - bind_inv H.
    match goal with
    | Hp : of_outcome (py_gt_zero _) _ = _ |- _ => clear Hp
    end.
    destruct a1; unfold ret in H; injection H as <- <- _;
      rewrite Bool.andb_false_r; auto.
  - unfold ret in H. injection H as <- <- _.
    rewrite Bool.andb_true_r. auto.
Qed.

Lemma branch_rules_loop rules :
  forall allows required s allows' required' s',
    for_each rules branch_rule_step (allows, required) s
      = (Ret (allows', required'), s') ->
    allows' = allows && negb (existsb is_pull_request_rule rules)
    /\ (required' = true ->
        required = true \/ existsb is_pull_request_rule rules = true).
Proof.
  induction rules as [| rule rules IH];
    intros allows required s allows' required' s' Hrun.
  - injection Hrun as <- <- _. cbn. rewrite Bool.andb_true_r. auto.
  - cbn [for_each] in Hrun. apply bind_ret_inv in Hrun.
    destruct Hrun as ([a1 r1] & s1 & Hstep & Hrun).
    apply branch_rule_step_run in Hstep. destruct Hstep as [-> Hr1].
    apply IH in Hrun. destruct Hrun as [-> Hr'].
    cbn [existsb]. split.
    + rewrite Bool.negb_orb, Bool.andb_assoc. reflexivity.
    + intros Hreq. destruct (Hr' Hreq) as [H1 | H1].
      * destruct (Hr1 H1) as [H0 | H0]; [left; exact H0 |].
        right. rewrite H0. reflexivity.
      * right. rewrite H1. apply Bool.orb_true_r.
Qed.

(** X5. What [_check_branch_rules] returns is read off the rules of the
    branch: with a response that is not a 200 direct push is allowed and no
    reviewer is required; with a 200, direct push is allowed exactly when no
    rule is a pull-request rule.  In both cases reviewers are never reported
    as required while direct push is reported as allowed. *)
Theorem check_branch_rules_result session org repo branch headers s resp s1
    allows required s' :
  _fetch_with_retry session
    [Lit GH_API; Lit "/repos/"; Interp (VStr org); Lit "/"; Interp repo;
     Lit "/rules/branches/"; Interp branch]
    headers None max_retries_default s = (Ret resp, s1) ->
  _check_branch_rules session org repo branch headers s
    = (Ret (allows, required), s') ->
  (status resp <> 200%Z -> allows = true /\ required = false)
  /\ (status resp = 200%Z ->
      exists rules,
        py_iter (json resp) = Ret rules
        /\ allows = negb (existsb is_pull_request_rule rules))
  /\ allows && required = false.
Proof.
  intros Hfetch Hrun. unfold _check_branch_rules in Hrun.
  rewrite (bind_run _ _ _ _ _ Hfetch) in Hrun.
  destruct (Z.eqb_spec (status resp) 200) as [Hok | Hno].
  - apply bind_ret_inv in Hrun. destruct Hrun as (rules & s2 & Hiter & Hrun).
    apply of_outcome_ret_inv in Hiter. destruct Hiter as [Hiter ->].
    apply branch_rules_loop in Hrun. destruct Hrun as [-> Hreq].
    cbn [andb] in *. split; [| split].
    + intros Hno. contradiction.
    + intros _. exists rules. split; [exact Hiter | reflexivity].
    + destruct required; [| apply Bool.andb_false_r].
      destruct (Hreq eq_refl) as [H | H]; [discriminate |].
      rewrite H. reflexivity.
  - unfold ret in Hrun. injection Hrun as <- <- _. split; [| split].
    + intros _. split; reflexivity.
    + intros Hok. contradiction.
    + reflexivity.
Qed.

(** X6. [_check_codeowners] asks for the three paths, one request each when
    none is rate limited, and reports a code-owners file exactly when one of
    the three answers is a 200. *)
Theorem check_codeowners_any session org repo headers s r1 r2 r3 :
  (forall k path x,
     nth_error [("CODEOWNERS", r1); ("docs/CODEOWNERS", r2);
                (".github/CODEOWNERS", r3)] k = Some (path, x) ->
     answer session (length (issued s) + k)
       (codeowners_request org repo headers path) = Responds x
     /\ status x <> 403%Z) ->
  _check_codeowners session org repo headers s =
    (Ret ((status r1 =? 200)%Z || (status r2 =? 200)%Z || (status r3 =? 200)%Z),
     {| issued := issued s
          ++ map (codeowners_request org repo headers)
               ["CODEOWNERS"; "docs/CODEOWNERS"; ".github/CODEOWNERS"];
        slept := slept s; permits := permits s |}).
Proof.
  intros Hans.
  destruct (Hans 0 _ _ eq_refl) as [H1 Hs1].
  destruct (Hans 1 _ _ eq_refl) as [H2 Hs2].
  destruct (Hans 2 _ _ eq_refl) as [H3 Hs3].
  rewrite Nat.add_0_r in H1.
  unfold _check_codeowners, codeowners_request, request_of in *.
  cbn [map gather].
  unfold bind at 1. unfold bind at 1. unfold bind at 1.
  rewrite (fetch_with_retry_first _ _ _ _ _ _ H1 Hs1). unfold ret at 1.
  unfold bind at 1. unfold bind at 1. unfold bind at 1.
  rewrite (fetch_with_retry_first _ _ _ _ _ r2); [| | exact Hs2].
  2:{ cbn [issued]. rewrite length_app. exact H2. }
  unfold ret at 1.
  unfold bind at 1. unfold bind at 1. unfold bind at 1.
  rewrite (fetch_with_retry_first _ _ _ _ _ r3); [| | exact Hs3].
  2:{ cbn [issued]. rewrite !length_app. cbn [length].
      replace (length (issued s) + 1 + 1) with (length (issued s) + 2) by lia.
      exact H3. }
  unfold ret, bind. cbn [issued slept permits existsb].
  rewrite Bool.orb_false_r, Bool.orb_assoc, <- !app_assoc. reflexivity.
Qed.

(** *** The paginated checks of one repository *)

Lemma logins_of_dicts users :
  Forall is_dict users -> logins users = Ret (map login_of users).
Proof.
  induction 1 as [| u users [items ->] _ IH]; [reflexivity |].
  cbn [logins map]. rewrite IH. reflexivity.
Qed.

Lemma py_join_strings sep l :
  Forall is_str l -> exists joined, py_join sep l = Ret joined.
Proof.
  induction 1 as [| v l [s ->] _ [joined IH]]; [eexists; reflexivity |].
  cbn [py_join]. destruct l as [| w l]; [eexists; reflexivity |].
  rewrite IH. eexists. reflexivity.
Qed.

Lemma shifted_requests {A : Type} (f : Z -> A) page n (l : list A) :
  (l ++ [f page])
    ++ map (fun k => f (page + 1 + Z.of_nat k)%Z) (seq 0 n)
  = l ++ map (fun k => f (page + Z.of_nat k)%Z) (seq 0 (S n)).
Proof.
  rewrite <- app_assoc. f_equal. cbn [seq map app]. rewrite Z.add_0_r.
  apply (f_equal (cons (f page))).
  rewrite <- seq_shift, map_map. apply map_ext. intros k.
  replace (page + Z.of_nat (S k))%Z with (page + 1 + Z.of_nat k)%Z by lia.
  reflexivity.
Qed.

Lemma net_eta (s : net) :
  {| issued := issued s ++ []; slept := slept s; permits := permits s |} = s.
Proof. destruct s. cbn. rewrite app_nil_r. reflexivity. Qed.

(** The loop of [_get_admins] over pages of users that the remote serves. *)
Lemma get_admins_loop_prefix session org repo headers :
  forall pages fuel admins page s,
    Forall (fun users => users <> [] /\ Forall is_dict users) pages ->
    (forall k, k < length pages ->
       exists resp,
         answer session (length (issued s) + k)
           (admins_request org repo headers (page + Z.of_nat k)) = Responds resp
         /\ status resp = 200%Z
         /\ json resp = VList (nth k pages [])) ->
    get_admins_loop session org repo headers (length pages + fuel) admins page s =
    get_admins_loop session org repo headers fuel
      (admins ++ map login_of (concat pages)) (page + Z.of_nat (length pages))
      {| issued := issued s
           ++ map (fun k => admins_request org repo headers (page + Z.of_nat k))
                (seq 0 (length pages));
         slept := slept s; permits := permits s |}.
Proof.
  induction pages as [| users pages IH]; intros fuel admins page s Hpages Hans.
  - cbn [length concat map seq Nat.add]. rewrite app_nil_r, Z.add_0_r, net_eta.
    reflexivity.
  - inversion Hpages as [| ? ? [Hne Hdicts] Hrest]; subst.
    destruct (Hans 0 ltac:(simpl; lia)) as (resp & Hresp & Hst & Hjson).
    rewrite Nat.add_0_r, Z.add_0_r in Hresp.
    cbn [length Nat.add get_admins_loop].
    unfold admins_request, request_of in Hresp.
    rewrite (bind_run _ _ _ _ _
               (fetch_with_retry_first session _ headers _ s resp Hresp
                  ltac:(lia))).
    rewrite Hst. cbn [Z.eqb Pos.eqb negb]. rewrite Hjson. cbn [nth].
    destruct users as [| u users]; [congruence |].
    cbn [truthy length Nat.eqb negb py_iter].
    unfold bind at 1, of_outcome at 1. unfold bind at 1, of_outcome at 1.
    rewrite (logins_of_dicts _ Hdicts).
    rewrite (IH fuel _ (page + 1)%Z).
    + cbn [issued slept permits concat].
      match goal with
      | |- context [(issued s ++ [?q]) ++ _] =>
          change q with (admins_request org repo headers page)
      end.
      rewrite (shifted_requests (admins_request org repo headers) page
                 (length pages) (issued s)).
      rewrite map_app, app_assoc.
      replace (page + 1 + Z.of_nat (length pages))%Z
        with (page + Z.of_nat (S (length pages)))%Z by lia.
      reflexivity.
    + exact Hrest.
    + intros k Hk. cbn [issued]. rewrite length_app. cbn [length].
      destruct (Hans (S k) ltac:(simpl; lia)) as (resp' & Hresp' & Hst' & Hjson').
      exists resp'. repeat split; [| exact Hst' | exact Hjson'].
      replace (length (issued s) + 1 + k) with (length (issued s) + S k) by lia.
      replace (page + 1 + Z.of_nat k)%Z with (page + Z.of_nat (S k))%Z by lia.
      exact Hresp'.
Qed.

(** X7. When a page of collaborators is answered with a status that is not
    200, [_get_admins] reports no administrator at all, (0, empty string),
    whatever the pages before it listed. *)
Theorem get_admins_drops_partial session org repo headers pages fuel s last :
  Forall (fun users => users <> [] /\ Forall is_dict users) pages ->
  (forall k, k < length pages ->
     exists resp,
       answer session (length (issued s) + k)
         (admins_request org repo headers (1 + Z.of_nat k)) = Responds resp
       /\ status resp = 200%Z
       /\ json resp = VList (nth k pages [])) ->
  answer session (length (issued s) + length pages)
    (admins_request org repo headers (1 + Z.of_nat (length pages)))
    = Responds last ->
  status last <> 403%Z ->
  status last <> 200%Z ->
  _get_admins session org repo headers (length pages + S fuel) s =
    (Ret (0, EmptyString),
     {| issued := issued s
          ++ map (fun k => admins_request org repo headers (1 + Z.of_nat k))
               (seq 0 (S (length pages)));
        slept := slept s; permits := permits s |}).
Proof.
  intros Hpages Hans Hlast H403 H200. unfold _get_admins.
  rewrite (get_admins_loop_prefix session org repo headers pages (S fuel) [] 1%Z s
             Hpages Hans).
  cbn [get_admins_loop]. unfold admins_request, request_of in Hlast.
  match goal with
  | |- context [bind (_fetch_with_retry session ?u headers ?ps _) _ ?s0] =>
      rewrite (bind_run _ _ _ _ _
                 (fetch_with_retry_first session u headers ps s0 last
                    ltac:(cbn [issued];
                          rewrite length_app, length_map, length_seq;
                          exact Hlast) H403))
  end.
  apply Z.eqb_neq in H200. rewrite H200. cbn [negb]. unfold ret.
  cbn [issued slept permits]. rewrite seq_S, map_app, <- app_assoc.
  reflexivity.
Qed.

(** X8. When the remote serves pages of collaborators with a login and then
    an empty page, [_get_admins] returns their number and their logins
    joined by a comma and a space, in the order of the pages. *)
Theorem get_admins_collects session org repo headers pages fuel s last :
  Forall (fun users =>
            users <> [] /\ Forall is_dict users
            /\ Forall (fun u => is_str (login_of u)) users) pages ->
  (forall k, k < length pages ->
     exists resp,
       answer session (length (issued s) + k)
         (admins_request org repo headers (1 + Z.of_nat k)) = Responds resp
       /\ status resp = 200%Z
       /\ json resp = VList (nth k pages [])) ->
  answer session (length (issued s) + length pages)
    (admins_request org repo headers (1 + Z.of_nat (length pages)))
    = Responds last ->
  status last = 200%Z ->
  truthy (json last) = false ->
  exists names,
    py_join ", " (map login_of (concat pages)) = Ret names
    /\ _get_admins session org repo headers (length pages + S fuel) s =
         (Ret (length (concat pages), names),
          {| issued := issued s
               ++ map (fun k => admins_request org repo headers (1 + Z.of_nat k))
                    (seq 0 (S (length pages)));
             slept := slept s; permits := permits s |}).
Proof.
  intros Hpages Hans Hlast H200 Hempty.
  destruct (py_join_strings ", " (map login_of (concat pages))) as [names Hjoin].
  { clear Hans Hlast.
    induction Hpages as [| users pages (_ & _ & Hstr) _ IH]; [constructor |].
    cbn [concat]. rewrite map_app. apply Forall_app. split; [| exact IH].
    clear IH. induction Hstr; constructor; assumption. }
  exists names. split; [exact Hjoin |]. unfold _get_admins.
  rewrite (get_admins_loop_prefix session org repo headers pages (S fuel) [] 1%Z s).
  - cbn [get_admins_loop]. unfold admins_request, request_of in Hlast.
    match goal with
    | |- context [bind (_fetch_with_retry session ?u headers ?ps _) _ ?s0] =>
        rewrite (bind_run _ _ _ _ _
                   (fetch_with_retry_first session u headers ps s0 last
                      ltac:(cbn [issued];
                            rewrite length_app, length_map, length_seq;
                            exact Hlast) ltac:(lia)))
    end.
    rewrite H200, Hempty. cbn [Z.eqb Pos.eqb negb app].
    unfold bind, of_outcome, ret. rewrite Hjoin.
    cbn [issued slept permits]. rewrite seq_S, map_app, <- app_assoc, length_map.
    reflexivity.
  - eapply Forall_impl; [| exact Hpages]. cbv beta.
    intros users (Hne & Hdicts & _). split; assumption.
  - exact Hans.
Qed.

(** The loop of [_get_branch_count] over pages that the remote serves. *)
Lemma get_branch_count_loop_prefix session org repo headers :
  forall pages fuel count page s,
    Forall (fun branches => branches <> []) pages ->
    (forall k, k < length pages ->
       exists resp,
         answer session (length (issued s) + k)
           (branches_request org repo headers (page + Z.of_nat k)) = Responds resp
         /\ status resp = 200%Z
         /\ json resp = VList (nth k pages [])) ->
    get_branch_count_loop session org repo headers (length pages + fuel) count
      page s =
    get_branch_count_loop session org repo headers fuel
      (count + length (concat pages)) (page + Z.of_nat (length pages))
      {| issued := issued s
           ++ map (fun k => branches_request org repo headers (page + Z.of_nat k))
                (seq 0 (length pages));
         slept := slept s; permits := permits s |}.
Proof.
  induction pages as [| branches pages IH]; intros fuel count page s Hpages Hans.
  - cbn [length concat map seq Nat.add]. rewrite Nat.add_0_r, Z.add_0_r, net_eta.
    reflexivity.
  - inversion Hpages as [| ? ? Hne Hrest]; subst.
    destruct (Hans 0 ltac:(simpl; lia)) as (resp & Hresp & Hst & Hjson).
    rewrite Nat.add_0_r, Z.add_0_r in Hresp.
    cbn [length Nat.add get_branch_count_loop].
    unfold branches_request, request_of in Hresp.
    rewrite (bind_run _ _ _ _ _
               (fetch_with_retry_first session _ headers _ s resp Hresp
                  ltac:(lia))).
    rewrite Hst. cbn [Z.eqb Pos.eqb negb]. rewrite Hjson. cbn [nth].
    destruct branches as [| b branches]; [congruence |].
    cbn [truthy length Nat.eqb negb py_len py_iter].
    unfold bind at 1, of_outcome at 1.
    rewrite (IH fuel _ (page + 1)%Z).
    + cbn [issued slept permits concat].
      match goal with
      | |- context [(issued s ++ [?q]) ++ _] =>
          change q with (branches_request org repo headers page)
      end.
      rewrite (shifted_requests (branches_request org repo headers) page
                 (length pages) (issued s)).
      rewrite length_app, Nat.add_assoc.
      replace (page + 1 + Z.of_nat (length pages))%Z
        with (page + Z.of_nat (S (length pages)))%Z by lia.
      reflexivity.
    + exact Hrest.
    + intros k Hk. cbn [issued]. rewrite length_app. cbn [length].
      destruct (Hans (S k) ltac:(simpl; lia)) as (resp' & Hresp' & Hst' & Hjson').
      exists resp'. repeat split; [| exact Hst' | exact Hjson'].
      replace (length (issued s) + 1 + k) with (length (issued s) + S k) by lia.
      replace (page + 1 + Z.of_nat k)%Z with (page + Z.of_nat (S k))%Z by lia.
      exact Hresp'.
Qed.

(** X9. [_get_branch_count] returns the number of branches on the pages that
    the remote served, whether the pages end with an empty page or with a
    response that is not a 200: the partial count is kept. *)
Theorem get_branch_count_keeps_partial session org repo headers pages fuel s last :
  Forall (fun branches => branches <> []) pages ->
  (forall k, k < length pages ->
     exists resp,
       answer session (length (issued s) + k)
         (branches_request org repo headers (1 + Z.of_nat k)) = Responds resp
       /\ status resp = 200%Z
       /\ json resp = VList (nth k pages [])) ->
  answer session (length (issued s) + length pages)
    (branches_request org repo headers (1 + Z.of_nat (length pages)))
    = Responds last ->
  status last <> 403%Z ->
  status last <> 200%Z \/ truthy (json last) = false ->
  _get_branch_count session org repo headers (length pages + S fuel) s =
    (Ret (length (concat pages)),
     {| issued := issued s
          ++ map (fun k => branches_request org repo headers (1 + Z.of_nat k))
               (seq 0 (S (length pages)));
        slept := slept s; permits := permits s |}).
Proof.
  intros Hpages Hans Hlast H403 Hend. unfold _get_branch_count.
  rewrite (get_branch_count_loop_prefix session org repo headers pages (S fuel)
             0 1%Z s Hpages Hans).
  cbn [get_branch_count_loop]. unfold branches_request, request_of in Hlast.
  match goal with
  | |- context [bind (_fetch_with_retry session ?u headers ?ps _) _ ?s0] =>
      rewrite (bind_run _ _ _ _ _
                 (fetch_with_retry_first session u headers ps s0 last
                    ltac:(cbn [issued];
                          rewrite length_app, length_map, length_seq;
                          exact Hlast) H403))
  end.
  cbn [issued slept permits Nat.add].
  assert (Hret : forall A (x y : A),
            (if negb (status last =? 200)%Z then x
             else if negb (truthy (json last)) then x else y) = x).
  { intros A x y. destruct Hend as [Hend | Hend].
    - apply Z.eqb_neq in Hend. rewrite Hend. reflexivity.
    - rewrite Hend. destruct (negb _); reflexivity. }
  rewrite Hret. unfold ret. rewrite seq_S, map_app, <- app_assoc. reflexivity.
Qed.

(** *** The records of the units *)

(** X10. The record that [_audit_single_repo] returns has the seventeen
    columns of the audit, in their order; its repository is the name of the
    repository, its owner the organization, its default branch that of the
    repository or ["main"], and its two counts are not negative. *)
Theorem audit_single_repo_record sem session org repo headers fuel s result s' :
  _audit_single_repo sem session org repo headers fuel s = (Ret result, s') ->
  exists record,
    result = VDict record
    /\ map fst record = audit_columns
    /\ py_getitem repo "name" = Ret (item_or record "repository" VNone)
    /\ lookup "owner" record = Some (VStr org)
    /\ py_get repo "default_branch" (VStr "main")
       = Ret (item_or record "default_branch" VNone)
    /\ (exists admins branches,
          lookup "admin_count" record = Some (VInt (Z.of_nat admins))
          /\ lookup "branch_count" record = Some (VInt (Z.of_nat branches))).
Proof.
  unfold _audit_single_repo. intros H.
  apply async_with_ret_inv in H. destruct H as (s0 & s1 & _ & H & _).
  bind_inv H.
  repeat match goal with
         | Hm : of_outcome _ _ = (Ret _, _) |- _ =>
             apply of_outcome_ret_inv in Hm; destruct Hm as [Hm _]
         end.
  unfold ret in H. injection H as <- _.
  eexists. split; [reflexivity |].
  split; [reflexivity |]. cbn.
  repeat split; try assumption. eexists _, _. split; reflexivity.
Qed.

(** X11. A repository without a name: [_audit_single_repo] raises
    [KeyError], after taking its permit and before any request, and gives
    the permit back. *)
Theorem audit_single_repo_without_name sem session org items headers fuel s :
  0 < permits s sem ->
  lookup "name" items = None ->
  exists s',
    _audit_single_repo sem session org (VDict items) headers fuel s
      = (Raise (KeyError "name"), s')
    /\ issued s' = issued s
    /\ slept s' = slept s
    /\ forall x, permits s' x = permits s x.
Proof.
  intros Hpermit Hname. unfold _audit_single_repo, async_with.
  unfold bind at 1, acquire.
  destruct (Nat.eqb_spec (permits s sem) 0) as [Hz | _]; [lia |].
  cbn [py_getitem]. rewrite Hname. unfold bind, of_outcome.
  eexists. split; [reflexivity |]. cbn [release issued slept permits].
  repeat split. intros x.
  destruct (semaphore_eqb x sem) eqn:Hx; [| reflexivity].
  apply semaphore_eqb_eq in Hx. subst. lia.
Qed.

Lemma repo_access_step_record repo_name c records s records' s' :
  Forall (is_access_record repo_name) records ->
  repo_access_step repo_name c records s = (Ret records', s') ->
  Forall (is_access_record repo_name) records'.
Proof.
  unfold repo_access_step. intros Hrecords H.
  apply bind_ret_inv in H. destruct H as (perms & s1 & _ & H).
  apply bind_ret_inv in H. destruct H as (admin & s2 & _ & H).
  apply bind_ret_inv in H. destruct H as (level & s3 & Hlevel & H).
  apply bind_ret_inv in H. destruct H as (username & s4 & _ & H).
  unfold ret in H. injection H as <- _.
  apply Forall_app. split; [exact Hrecords |]. constructor; [| constructor].
  exists username, (VStr level). split; [reflexivity |].
  unfold is_permission_level.
  destruct (truthy admin).
  - unfold ret in Hlevel. injection Hlevel as <- _. auto.
  - apply bind_ret_inv in Hlevel. destruct Hlevel as (maintain & s5 & _ & Hlevel).
    destruct (truthy maintain).
    + unfold ret in Hlevel. injection Hlevel as <- _. auto.
    + apply bind_ret_inv in Hlevel. destruct Hlevel as (push & s6 & _ & Hlevel).
      destruct (truthy push); unfold ret in Hlevel; injection Hlevel as <- _;
        auto.
Qed.

(** X12. Every record that [_get_repo_access] returns is an access record of
    the repository asked for, with exactly three entries, and its permission
    is one of admin, maintain, write and read. *)
Theorem get_repo_access_records session org repo_name headers fuel s records s' :
  _get_repo_access session org repo_name headers fuel s = (Ret records, s') ->
  Forall (is_access_record repo_name) records.
Proof.
  unfold _get_repo_access.
  assert (Hloop : forall fuel acc page s records s',
            Forall (is_access_record repo_name) acc ->
            get_repo_access_loop session org repo_name headers fuel acc page s
              = (Ret records, s') ->
            Forall (is_access_record repo_name) records).
  { clear. induction fuel as [| fuel IH]; intros acc page s records s' Hacc Hrun;
      cbn [get_repo_access_loop] in Hrun; [discriminate |].
    apply bind_ret_inv in Hrun. destruct Hrun as (resp & s1 & _ & Hrun).
    destruct (negb (status resp =? 200)%Z).
    { unfold ret in Hrun. injection Hrun as <- _. exact Hacc. }
    destruct (negb (truthy (json resp))).
    { unfold ret in Hrun. injection Hrun as <- _. exact Hacc. }
    apply bind_ret_inv in Hrun. destruct Hrun as (collabs & s2 & _ & Hrun).
    apply bind_ret_inv in Hrun. destruct Hrun as (acc' & s3 & Hstep & Hrun).
    apply (IH _ _ _ _ _
             (for_each_invariant _ _
                (fun c a st a' st' Ha Hc =>
                   repo_access_step_record repo_name c a st a' st' Ha Hc)
                _ _ _ _ _ Hacc Hstep) Hrun). }
  intros Hrun. apply (Hloop _ _ _ _ _ _ (Forall_nil _) Hrun).
Qed.

Lemma branch_details_step_record session org repo_name headers now b acc s acc' s' :
  Forall (is_branch_record repo_name) acc ->
  branch_details_step session org repo_name headers now b acc s = (Ret acc', s') ->
  Forall (is_branch_record repo_name) acc'.
Proof.
  unfold branch_details_step. intros Hacc H.
  apply bind_ret_inv in H. destruct H as (branch_name & s1 & _ & H).
  apply bind_ret_inv in H. destruct H as (protected & s2 & _ & H).
  apply bind_ret_inv in H. destruct H as (commit_data & s3 & _ & H).
  apply bind_ret_inv in H. destruct H as (sha & s4 & _ & H).
  apply bind_ret_inv in H. destruct H as ([date age] & s5 & Hdate & H).
  unfold ret in H. injection H as <- _.
  apply Forall_app. split; [exact Hacc |]. constructor; [| constructor].
  exists branch_name, date, age, protected. split; [reflexivity |].
  destruct (truthy sha).
  2:{ unfold ret in Hdate. injection Hdate as <- <- _. auto. }
  apply bind_ret_inv in Hdate. destruct Hdate as (c_resp & s6 & _ & Hdate).
  destruct (status c_resp =? 200)%Z.
  2:{ unfold ret in Hdate. injection Hdate as <- <- _. auto. }
  apply bind_ret_inv in Hdate. destruct Hdate as (commit & s7 & _ & Hdate).
  apply bind_ret_inv in Hdate. destruct Hdate as (committer & s8 & _ & Hdate).
  apply bind_ret_inv in Hdate. destruct Hdate as (date_str & s9 & _ & Hdate).
  destruct (truthy date_str).
  2:{ unfold ret in Hdate. injection Hdate as <- <- _. auto. }
  apply bind_ret_inv in Hdate. destruct Hdate as (commit_dt & s10 & _ & Hdate).
  unfold ret in Hdate. injection Hdate as <- <- _. right. eauto.
Qed.

(** X13. Every record that [_get_branch_details] returns is a branch record
    of the repository asked for, with exactly five entries; the date of the
    last commit and its age in days are either both [None] or both known. *)
Theorem get_branch_details_records session org repo_name headers fuel s records s' :
  _get_branch_details session org repo_name headers fuel s = (Ret records, s') ->
  Forall (is_branch_record repo_name) records.
Proof.
  unfold _get_branch_details. intros Hrun.
  apply bind_ret_inv in Hrun. destruct Hrun as (now & s0 & _ & Hrun).
  revert Hrun. generalize (@nil value) (Forall_nil (is_branch_record repo_name)).
  generalize 1%Z. revert s0 records s'.
  induction fuel as [| fuel IH]; intros s0 records s' page acc Hacc Hrun;
    cbn [get_branch_details_loop] in Hrun; [discriminate |].
  apply bind_ret_inv in Hrun. destruct Hrun as (resp & s1 & _ & Hrun).
  destruct (negb (status resp =? 200)%Z).
  { unfold ret in Hrun. injection Hrun as <- _. exact Hacc. }
  destruct (negb (truthy (json resp))).
  { unfold ret in Hrun. injection Hrun as <- _. exact Hacc. }
  apply bind_ret_inv in Hrun. destruct Hrun as (branches & s2 & _ & Hrun).
  apply bind_ret_inv in Hrun. destruct Hrun as (acc' & s3 & Hstep & Hrun).
  apply (IH _ _ _ _ _
           (for_each_invariant _ _
              (fun b a st a' st' Ha Hb =>
                 branch_details_step_record session org repo_name headers now
                   b a st a' st' Ha Hb)
              _ _ _ _ _ Hacc Hstep) Hrun).
Qed.

(** X14. A team whose list entry already carries a count that is not zero
    is reported from the list entry alone: [_get_team_details] issues no
    request and does not sleep. *)
Theorem team_details_without_request sem session org items headers s :
  0 < permits s sem ->
  py_eq_zero (item_or items "members_count" (VInt 0))
    && py_eq_zero (item_or items "repos_count" (VInt 0)) = false ->
  exists s',
    _get_team_details sem session org (VDict items) headers s =
      (Ret (VDict [
         ("name", item_or items "name" (VStr EmptyString));
         ("description",
          py_or (item_or items "description" VNone) (VStr "No description"));
         ("privacy", item_or items "privacy" (VStr "closed"));
         ("members_count", item_or items "members_count" (VInt 0));
         ("repos_count", item_or items "repos_count" (VInt 0)) ]), s')
    /\ issued s' = issued s
    /\ slept s' = slept s.
Proof.
  intros Hpermit Hcounts. unfold _get_team_details, async_with.
  unfold bind at 1, acquire.
  destruct (Nat.eqb_spec (permits s sem) 0) as [Hz | _]; [lia |].
  cbn [py_get]. unfold item_or in Hcounts.
  unfold bind, of_outcome, ret. rewrite Hcounts.
  eexists. split; [reflexivity |]. split; reflexivity.
Qed.

(** X15. When every request about a member is refused (any status but
    200), [_get_member_details] still returns a record for the member, with
    the role ["member"], no e-mail address, no recent activity and the
    default of 91 days of inactivity. *)
Theorem member_details_defaults sem session org username headers s :
  never_ok session ->
  0 < permits s sem ->
  exists s',
    _get_member_details sem session org username headers s =
      (Ret (VDict [
         ("username", username);
         ("role", VStr "member");
         ("email", VStr "N/A");
         ("last_activity", VStr "No recent activity");
         ("days_inactive", VInt 91) ]), s').
Proof.
  intros Hno Hpermit. unfold _get_member_details, async_with.
  unfold bind at 1, acquire.
  destruct (Nat.eqb_spec (permits s sem) 0) as [Hz | _]; [lia |].
  match goal with
  | |- context [bind ?m ?k ?s0] =>
      assert (Hbody : always_returns (bind m k)
                (fun result =>
                   result = VDict [
                     ("username", username);
                     ("role", VStr "member");
                     ("email", VStr "N/A");
                     ("last_activity", VStr "No recent activity");
                     ("days_inactive", VInt 91) ]));
      [| destruct (Hbody s0) as (result & s1 & -> & ->);
         eexists; reflexivity]
  end.
  eapply returns_bind; [apply fetch_with_retry_never_ok, Hno |].
  cbv beta. intros role_resp ->.
  eapply returns_bind; [apply fetch_with_retry_never_ok, Hno |].
  cbv beta. intros profile_resp ->.
  eapply returns_bind; [apply fetch_with_retry_never_ok, Hno |].
  cbv beta. intros events_resp ->.
  apply (returns_bind _ _ (fun x => x = VStr "member"));
    [apply returns_ret; reflexivity |]. intros ? ->.
  apply (returns_bind _ _ (fun x => x = VStr "N/A"));
    [apply returns_ret; reflexivity |]. intros ? ->.
  apply (returns_bind _ _
           (fun x => x = (VInt 91, VStr "No recent activity")));
    [apply returns_ret; reflexivity |]. intros ? ->.
  apply returns_ret. reflexivity.
Qed.

(** *** The streams: failures that are not typed, member and team lists *)

(** X16. When the retrieval of the entity list ends with an exception that
    is not an [HTTPException] (a transport failure, a malformed body), the
    generator is left by that exception and has emitted nothing, not even
    an [error] event. *)
Theorem entity_list_exception_no_event k session gh_token gh_org fuel sched g e s1 :
  entity_list k session gh_org (_gh_headers gh_token) fuel (network g)
    = (Raise e, s1) ->
  (forall status_code detail, e <> HTTPException status_code detail) ->
  run_stream k session gh_token gh_org fuel sched g =
    (Raise e, {| network := s1; emitted := emitted g; delivered := delivered g |}).
Proof.
  intros Hfetch He.
  destruct k; cbn [entity_list run_stream] in *;
    unfold stream_audit_repos, stream_branches, stream_access, stream_members,
      stream_teams, try_except_HTTPException;
    rewrite (await_run _ _ _ _ Hfetch);
    (destruct e; try reflexivity; exfalso; eapply He; reflexivity).
Qed.

(** X17. When the first page of the member list or of the team list is
    answered with a status that is not 200 and a JSON object, the stream is
    the single [error] event whose detail is the message of that object or,
    when it has none, the reason phrase of the response. *)
Theorem member_and_team_streams_report_message k session gh_token gh_org fuel
    sched g resp items :
  k = Members \/ k = Teams ->
  answer session (length (issued (network g)))
    (entity_request k gh_org (_gh_headers gh_token) 1) = Responds resp ->
  status resp <> 403%Z ->
  status resp <> 200%Z ->
  json resp = VDict items ->
  run_stream k session gh_token gh_org (S fuel) sched g =
    (Ret tt,
     {| network :=
          {| issued := issued (network g)
               ++ [entity_request k gh_org (_gh_headers gh_token) 1];
             slept := slept (network g); permits := permits (network g) |};
        emitted := emitted g
          ++ [EvError (item_or items "message" (VStr (reason resp)))];
        delivered := delivered g |}).
Proof.
  intros Hk Hans H403 H200 Hjson. apply Z.eqb_neq in H200.
  destruct Hk as [-> | ->]; cbn [run_stream];
    unfold stream_members, stream_teams, try_except_HTTPException,
      _fetch_all_members, _fetch_all_teams;
    cbn [fetch_all_members_loop fetch_all_teams_loop];
    unfold entity_request, request_of in Hans;
    (erewrite await_run;
     [| rewrite (bind_run _ _ _ _ _
                   (fetch_with_retry_first session _ _ _ _ resp Hans H403));
        rewrite H200, Hjson; cbn [negb py_get]; unfold bind, of_outcome, raise;
        reflexivity]);
    reflexivity.
Qed.

(** X18. The member audit and the team audit take every entity of their
    list: the total of [start] is the length of the list, and the progress
    events name the member logins, or the team names, each once. *)
Theorem member_and_team_streams_cover_all k session gh_token gh_org fuel sched
    g g' entities s1 :
  k = Members \/ k = Teams ->
  entity_list k session gh_org (_gh_headers gh_token) fuel (network g)
    = (Ret entities, s1) ->
  run_stream k session gh_token gh_org fuel sched g = (Ret tt, g') ->
  exists body,
    emitted g' = emitted g ++ EvStart (length entities) :: body ++ [EvDone]
    /\ Permutation (progress_names body) (unit_names k entities).
Proof.
  intros Hk Hfetch Hrun.
  destruct (run_stream_anatomy _ _ _ _ _ _ _ _ _ _ _ Hfetch Hrun)
    as (reports & Hem & _ & Hperm).
  exists (render 0 reports). rewrite render_progress_names.
  split; [| exact Hperm].
  rewrite Hem, <- (length_map fst reports), (Permutation_length Hperm).
  destruct Hk as [-> | ->]; cbn [unit_names]; rewrite length_map; reflexivity.
Qed.

(** *** No permit is lost across a stream *)

Lemma keeps_now_utc : keeps_permits now_utc.
Proof. intros s o s' [= <- <-]. reflexivity. Qed.

#[local] Hint Resolve keeps_now_utc : permits.



















Lemma in_as_completed_map {T U : Type} (f : T -> U) tasks sched coro :
  In coro (as_completed (map f tasks) sched) -> exists t, coro = f t.
Proof.
  intros Hin.
  apply (Permutation_in _ (as_completed_permutation _ _)) in Hin.
  apply in_map_iff in Hin. destruct Hin as (t & <- & _). exists t. reflexivity.
Qed.









(** *** Streams with nothing to run, and entities without a name *)

Lemma active_repo_names_none {S : Type} entities (s : S) :
  map name_of_repo (filter (fun r => negb (is_archived r)) entities) = [] ->
  active_repo_names entities s = (Ret [], s).
Proof.
  intros Hnone. apply map_eq_nil in Hnone.
  assert (Hall : Forall (fun r => is_archived r = true) entities).
  { apply Forall_forall. intros r Hin.
    destruct (is_archived r) eqn:Harch; [reflexivity |].
    assert (Hr : In r (filter (fun r => negb (is_archived r)) entities))
      by (apply filter_In; rewrite Harch; split; [exact Hin | reflexivity]).
    rewrite Hnone in Hr. destruct Hr. }
  clear Hnone. unfold active_repo_names.
  induction Hall as [| r entities Hr _ IH]; [reflexivity |].
  cbn [for_each]. unfold is_archived in Hr.
  unfold bind at 1. unfold bind at 1, of_outcome at 1.
  destruct (py_get r "archived" VNone) as [archived | |]; try discriminate.
  rewrite Hr. cbn [negb]. unfold ret at 1. exact IH.
Qed.

(** X20. A stream that has no unit to run (an organization without
    entities or, for the branch and the access audit, one whose
    repositories are all archived) is [start] with a total of 0 followed by
    [done], and issues no request after those of the entity list. *)
Theorem stream_without_units k session gh_token gh_org fuel sched g entities s1 :
  entity_list k session gh_org (_gh_headers gh_token) fuel (network g)
    = (Ret entities, s1) ->
  unit_names k entities = [] ->
  run_stream k session gh_token gh_org fuel sched g =
    (Ret tt,
     {| network := s1; emitted := emitted g ++ [EvStart 0; EvDone];
        delivered := delivered g |}).
Proof.
  intros Hlist Hnone.
  destruct k; cbn [entity_list unit_names] in Hlist, Hnone; cbn [run_stream];
    unfold stream_audit_repos, stream_branches, stream_access, stream_members,
      stream_teams, try_except_HTTPException, await;
    rewrite Hlist;
    try (apply map_eq_nil in Hnone; subst entities);
    try (unfold bind at 1; rewrite (active_repo_names_none _ _ Hnone));
    cbn; unfold yield; cbn; rewrite <- app_assoc; reflexivity.
Qed.

Lemma for_each_raises {S A L : Type} (body : A -> L -> M S L) (P : A -> Prop)
    x e :
  (forall y acc s, P y -> exists acc', body y acc s = (Ret acc', s)) ->
  (forall acc s, body x acc s = (Raise e, s)) ->
  forall before after acc s,
    Forall P before ->
    for_each (before ++ x :: after) body acc s = (Raise e, s).
Proof.
  intros Hgood Hbad before after acc s Hbefore. revert acc.
  induction Hbefore as [| y before Hy _ IH]; intros acc;
    cbn [app for_each]; unfold bind.
  - rewrite Hbad. reflexivity.
  - destruct (Hgood y acc s Hy) as [acc' ->]. apply IH.
Qed.

(** X21. An entity without its name ends the stream with [KeyError]: the
    repository audit after [start], when it pairs the tasks with the names;
    the branch audit, the access audit (for a repository that is not
    archived) and the member audit before [start], with nothing emitted.
    No unit result is delivered. *)
Theorem entity_without_name_ends_stream k session gh_token gh_org fuel sched g
    before items after s1 :
  k <> Teams ->
  entity_list k session gh_org (_gh_headers gh_token) fuel (network g)
    = (Ret (before ++ VDict items :: after), s1) ->
  Forall (fun r => exists name, py_getitem r (name_key k) = Ret name) before ->
  lookup (name_key k) items = None ->
  (k = Branches \/ k = Access ->
   truthy (item_or items "archived" VNone) = false) ->
  exists g',
    run_stream k session gh_token gh_org fuel sched g
      = (Raise (KeyError (name_key k)), g')
    /\ emitted g' =
         emitted g ++
           match k with
           | Repos => [EvStart (length (before ++ VDict items :: after))]
           | _ => []
           end
    /\ delivered g' = delivered g.
Proof.
  intros Hk Hlist Hbefore Hkey Hactive.
  destruct k; [| | | | congruence];
    cbn [entity_list name_key] in Hlist, Hbefore, Hkey; cbn [run_stream name_key];
    unfold stream_audit_repos, stream_branches, stream_access, stream_members,
      try_except_HTTPException, await;
    rewrite Hlist.
  - unfold bind at 1, yield at 1. unfold bind at 1.
    erewrite (for_each_raises _ _ (VDict items) (KeyError "name"));
      [| | | exact Hbefore].
    + eexists. split; [reflexivity |]. split; reflexivity.
    + intros y acc s [name Hy]. unfold bind, of_outcome, ret. cbv beta.
      rewrite Hy. eexists. reflexivity.
    + intros acc s. unfold bind, of_outcome. cbn [py_getitem].
      rewrite Hkey. reflexivity.
  - unfold bind at 1, active_repo_names.
    erewrite (for_each_raises _ _ (VDict items) (KeyError "name"));
      [| | | exact Hbefore].
    + eexists. split; [reflexivity |]. cbn [emitted delivered].
      rewrite app_nil_r. split; reflexivity.
    + intros y acc s [name Hy]. unfold bind, of_outcome, ret.
      destruct y as [| | | | | d]; try discriminate. cbn [py_get].
      destruct (negb _); [rewrite Hy |]; eexists; reflexivity.
    + intros acc s. unfold bind, of_outcome. cbn [py_get py_getitem].
      unfold item_or in Hactive. rewrite (Hactive (or_introl eq_refl)).
      cbn [negb]. rewrite Hkey. reflexivity.
  - unfold bind at 1, active_repo_names.
    erewrite (for_each_raises _ _ (VDict items) (KeyError "name"));
      [| | | exact Hbefore].
    + eexists. split; [reflexivity |]. cbn [emitted delivered].
      rewrite app_nil_r. split; reflexivity.
    + intros y acc s [name Hy]. unfold bind, of_outcome, ret.
      destruct y as [| | | | | d]; try discriminate. cbn [py_get].
      destruct (negb _); [rewrite Hy |]; eexists; reflexivity.
    + intros acc s. unfold bind, of_outcome. cbn [py_get py_getitem].
      unfold item_or in Hactive. rewrite (Hactive (or_intror eq_refl)).
      cbn [negb]. rewrite Hkey. reflexivity.
  - unfold bind at 1.
    erewrite (for_each_raises _ _ (VDict items) (KeyError "login"));
      [| | | exact Hbefore].
    + eexists. split; [reflexivity |]. cbn [emitted delivered].
      rewrite app_nil_r. split; reflexivity.
    + intros y acc s [name Hy]. unfold bind, of_outcome, ret. cbv beta.
      rewrite Hy. eexists. reflexivity.
    + intros acc s. unfold bind, of_outcome. cbn [py_getitem].
      rewrite Hkey. reflexivity.
Qed.

(** *** The records of a member and of a team *)

(** X22. Every record that [_get_member_details] returns has the five
    entries of a member, with the login asked for; its e-mail address is
    never empty ([N/A] stands for a missing one), and its last activity and
    days of inactivity are the defaults or those of one event date. *)
Theorem member_details_record sem session org username headers s record s' :
  _get_member_details sem session org username headers s = (Ret record, s') ->
  is_member_record username record.
Proof.
  unfold _get_member_details. intros H.
  apply async_with_ret_inv in H. destruct H as (s0 & s1 & _ & H & _).
  bind_inv H.
  unfold ret in H. injection H as <- _.
  cbn [status json] in *.
  match goal with
  | Hrole : _ = (Ret ?role, _), Hemail : _ = (Ret ?email, _),
    Hlast : _ = (Ret (?days, ?last), _)
    |- is_member_record _ (VDict [_; (_, ?role); (_, ?email); (_, ?last);
                                  (_, ?days)]) =>
      exists role, email, last, days; split; [reflexivity |]; split;
        [clear Hlast; rename Hemail into He | clear Hemail; rename Hlast into Hl]
  end.
  - destruct (_ =? 200)%Z in He.
    + bind_inv He. unfold ret in He. injection He as <- _.
      unfold py_or. destruct (truthy a1) eqn:Ha; [exact Ha | reflexivity].
    + unfold ret in He. injection He as <- _. reflexivity.
  - destruct (_ =? 200)%Z in Hl;
      [destruct (truthy _) in Hl |];
      try (unfold ret in Hl; injection Hl as <- <- _; left; split; reflexivity).
    bind_inv Hl.
    destruct (truthy _) in Hl;
      [| unfold ret in Hl; injection Hl as <- <- _; left; split; reflexivity].
    bind_inv Hl. unfold ret in Hl. injection Hl as <- <- _.
    right. eexists _, _. split; reflexivity.
Qed.


(** *** The member list and the team list *)

(** The loops of [_fetch_all_members] and [_fetch_all_teams] over pages
    that the remote serves. *)
Lemma fetch_all_members_loop_prefix session org headers :
  forall pages fuel members page s,
    Forall (fun items => items <> []) pages ->
    (forall i, i < length pages ->
       exists resp,
         answer session (length (issued s) + i)
           (entity_request Members org headers (page + Z.of_nat i))
           = Responds resp
         /\ status resp = 200%Z
         /\ json resp = VList (nth i pages [])) ->
    fetch_all_members_loop session org headers (length pages + fuel) members
      page s =
    fetch_all_members_loop session org headers fuel
      (members ++ concat pages) (page + Z.of_nat (length pages))
      {| issued := issued s
           ++ map (fun i => entity_request Members org headers (page + Z.of_nat i))
                (seq 0 (length pages));
         slept := slept s; permits := permits s |}.
Proof.
  induction pages as [| items pages IH]; intros fuel members page s Hpages Hans.
  - cbn [length concat map seq Nat.add]. rewrite app_nil_r, Z.add_0_r, net_eta.
    reflexivity.
  - inversion Hpages as [| ? ? Hne Hrest]; subst.
    destruct (Hans 0 ltac:(simpl; lia)) as (resp & Hresp & Hst & Hjson).
    rewrite Nat.add_0_r, Z.add_0_r in Hresp.
    cbn [length Nat.add fetch_all_members_loop].
    unfold entity_request, request_of in Hresp.
    rewrite (bind_run _ _ _ _ _
               (fetch_with_retry_first session _ headers _ s resp Hresp
                  ltac:(lia))).
    rewrite Hst. cbn [Z.eqb Pos.eqb negb]. rewrite Hjson. cbn [nth].
    destruct items as [| x items]; [congruence |].
    cbn [truthy length Nat.eqb negb py_iter].
    unfold bind at 1, of_outcome at 1.
    rewrite (IH fuel _ (page + 1)%Z).
    + cbn [issued slept permits concat].
      match goal with
      | |- context [(issued s ++ [?q]) ++ _] =>
          change q with (entity_request Members org headers page)
      end.
      rewrite (shifted_requests (entity_request Members org headers) page
                 (length pages) (issued s)).
      rewrite app_assoc.
      replace (page + 1 + Z.of_nat (length pages))%Z
        with (page + Z.of_nat (S (length pages)))%Z by lia.
      reflexivity.
    + exact Hrest.
    + intros i Hi. cbn [issued]. rewrite length_app. cbn [length].
      destruct (Hans (S i) ltac:(simpl; lia)) as (resp' & Hresp' & Hst' & Hjson').
      exists resp'. repeat split; [| exact Hst' | exact Hjson'].
      replace (length (issued s) + 1 + i) with (length (issued s) + S i) by lia.
      replace (page + 1 + Z.of_nat i)%Z with (page + Z.of_nat (S i))%Z by lia.
      exact Hresp'.
Qed.

Lemma fetch_all_teams_loop_prefix session org headers :
  forall pages fuel teams page s,
    Forall (fun items => items <> []) pages ->
    (forall i, i < length pages ->
       exists resp,
         answer session (length (issued s) + i)
           (entity_request Teams org headers (page + Z.of_nat i))
           = Responds resp
         /\ status resp = 200%Z
         /\ json resp = VList (nth i pages [])) ->
    fetch_all_teams_loop session org headers (length pages + fuel) teams
      page s =
    fetch_all_teams_loop session org headers fuel
      (teams ++ concat pages) (page + Z.of_nat (length pages))
      {| issued := issued s
           ++ map (fun i => entity_request Teams org headers (page + Z.of_nat i))
                (seq 0 (length pages));
         slept := slept s; permits := permits s |}.
Proof.
  induction pages as [| items pages IH]; intros fuel teams page s Hpages Hans.
  - cbn [length concat map seq Nat.add]. rewrite app_nil_r, Z.add_0_r, net_eta.
    reflexivity.
  - inversion Hpages as [| ? ? Hne Hrest]; subst.
    destruct (Hans 0 ltac:(simpl; lia)) as (resp & Hresp & Hst & Hjson).
    rewrite Nat.add_0_r, Z.add_0_r in Hresp.
    cbn [length Nat.add fetch_all_teams_loop].
    unfold entity_request, request_of in Hresp.
    rewrite (bind_run _ _ _ _ _
               (fetch_with_retry_first session _ headers _ s resp Hresp
                  ltac:(lia))).
    rewrite Hst. cbn [Z.eqb Pos.eqb negb]. rewrite Hjson. cbn [nth].
    destruct items as [| x items]; [congruence |].
    cbn [truthy length Nat.eqb negb py_iter].
    unfold bind at 1, of_outcome at 1.
    rewrite (IH fuel _ (page + 1)%Z).
    + cbn [issued slept permits concat].
      match goal with
      | |- context [(issued s ++ [?q]) ++ _] =>
          change q with (entity_request Teams org headers page)
      end.
      rewrite (shifted_requests (entity_request Teams org headers) page
                 (length pages) (issued s)).
      rewrite app_assoc.
      replace (page + 1 + Z.of_nat (length pages))%Z
        with (page + Z.of_nat (S (length pages)))%Z by lia.
      reflexivity.
    + exact Hrest.
    + intros i Hi. cbn [issued]. rewrite length_app. cbn [length].
      destruct (Hans (S i) ltac:(simpl; lia)) as (resp' & Hresp' & Hst' & Hjson').
      exists resp'. repeat split; [| exact Hst' | exact Hjson'].
      replace (length (issued s) + 1 + i) with (length (issued s) + S i) by lia.
      replace (page + 1 + Z.of_nat i)%Z with (page + Z.of_nat (S i))%Z by lia.
      exact Hresp'.
Qed.

(** X24. When the remote serves pages of members, or of teams, and then an
    empty page, the list is the items of the pages in their order, after
    one request for each page and one for the empty page. *)
Theorem member_and_team_lists_collect k session org headers pages fuel s last :
  k = Members \/ k = Teams ->
  Forall (fun items => items <> []) pages ->
  (forall i, i < length pages ->
     exists resp,
       answer session (length (issued s) + i)
         (entity_request k org headers (1 + Z.of_nat i)) = Responds resp
       /\ status resp = 200%Z
       /\ json resp = VList (nth i pages [])) ->
  answer session (length (issued s) + length pages)
    (entity_request k org headers (1 + Z.of_nat (length pages)))
    = Responds last ->
  status last = 200%Z ->
  truthy (json last) = false ->
  entity_list k session org headers (length pages + S fuel) s =
    (Ret (concat pages),
     {| issued := issued s
          ++ map (fun i => entity_request k org headers (1 + Z.of_nat i))
               (seq 0 (S (length pages)));
        slept := slept s; permits := permits s |}).
Proof.
  intros [-> | ->] Hpages Hans Hlast H200 Hempty; cbn [entity_list];
    unfold _fetch_all_members, _fetch_all_teams.
  - rewrite (fetch_all_members_loop_prefix session org headers pages (S fuel)
               [] 1%Z s Hpages Hans).
    cbn [fetch_all_members_loop]. unfold entity_request, request_of in Hlast.
    match goal with
    | |- context [bind (_fetch_with_retry session ?u headers ?ps _) _ ?s0] =>
        rewrite (bind_run _ _ _ _ _
                   (fetch_with_retry_first session u headers ps s0 last
                      ltac:(cbn [issued];
                            rewrite length_app, length_map, length_seq;
                            exact Hlast) ltac:(lia)))
    end.
    rewrite H200, Hempty. cbn [Z.eqb Pos.eqb negb app].
    unfold ret. cbn [issued slept permits].
    rewrite seq_S, map_app, <- app_assoc. reflexivity.
  - rewrite (fetch_all_teams_loop_prefix session org headers pages (S fuel)
               [] 1%Z s Hpages Hans).
    cbn [fetch_all_teams_loop]. unfold entity_request, request_of in Hlast.
    match goal with
    | |- context [bind (_fetch_with_retry session ?u headers ?ps _) _ ?s0] =>
        rewrite (bind_run _ _ _ _ _
                   (fetch_with_retry_first session u headers ps s0 last
                      ltac:(cbn [issued];
                            rewrite length_app, length_map, length_seq;
                            exact Hlast) ltac:(lia)))
    end.
    rewrite H200, Hempty. cbn [Z.eqb Pos.eqb negb app].
    unfold ret. cbn [issued slept permits].
    rewrite seq_S, map_app, <- app_assoc. reflexivity.
Qed.

(** X25. When a page of members, or of teams, is answered with a status
    that is not 200 and a JSON object, the list fails with that status and
    the message of the object (the reason phrase when it has none): the
    items of the pages before it are not returned. *)
Theorem member_and_team_lists_abort k session org headers pages fuel s last
    items :
  k = Members \/ k = Teams ->
  Forall (fun items => items <> []) pages ->
  (forall i, i < length pages ->
     exists resp,
       answer session (length (issued s) + i)
         (entity_request k org headers (1 + Z.of_nat i)) = Responds resp
       /\ status resp = 200%Z
       /\ json resp = VList (nth i pages [])) ->
  answer session (length (issued s) + length pages)
    (entity_request k org headers (1 + Z.of_nat (length pages)))
    = Responds last ->
  status last <> 403%Z ->
  status last <> 200%Z ->
  json last = VDict items ->
  entity_list k session org headers (length pages + S fuel) s =
    (Raise (HTTPException (status last)
              (item_or items "message" (VStr (reason last)))),
     {| issued := issued s
          ++ map (fun i => entity_request k org headers (1 + Z.of_nat i))
               (seq 0 (S (length pages)));
        slept := slept s; permits := permits s |}).
Proof.
  intros [-> | ->] Hpages Hans Hlast H403 H200 Hjson; cbn [entity_list];
    unfold _fetch_all_members, _fetch_all_teams.
  - rewrite (fetch_all_members_loop_prefix session org headers pages (S fuel)
               [] 1%Z s Hpages Hans).
    cbn [fetch_all_members_loop]. unfold entity_request, request_of in Hlast.
    match goal with
    | |- context [bind (_fetch_with_retry session ?u headers ?ps _) _ ?s0] =>
        rewrite (bind_run _ _ _ _ _
                   (fetch_with_retry_first session u headers ps s0 last
                      ltac:(cbn [issued];
                            rewrite length_app, length_map, length_seq;
                            exact Hlast) H403))
    end.
    destruct (Z.eqb_spec (status last) 200) as [Heq | _]; [congruence |].
    cbn [negb]. rewrite Hjson. cbn [py_get].
    unfold bind, of_outcome, raise, item_or. cbn [issued slept permits].
    rewrite seq_S, map_app, <- app_assoc. reflexivity.
  - rewrite (fetch_all_teams_loop_prefix session org headers pages (S fuel)
               [] 1%Z s Hpages Hans).
    cbn [fetch_all_teams_loop]. unfold entity_request, request_of in Hlast.
    match goal with
    | |- context [bind (_fetch_with_retry session ?u headers ?ps _) _ ?s0] =>
        rewrite (bind_run _ _ _ _ _
                   (fetch_with_retry_first session u headers ps s0 last
                      ltac:(cbn [issued];
                            rewrite length_app, length_map, length_seq;
                            exact Hlast) H403))
    end.
    destruct (Z.eqb_spec (status last) 200) as [Heq | _]; [congruence |].
    cbn [negb]. rewrite Hjson. cbn [py_get].
    unfold bind, of_outcome, raise, item_or. cbn [issued slept permits].
    rewrite seq_S, map_app, <- app_assoc. reflexivity.
Qed.

End Engine.

(** ** The properties on sample runs *)

(** Six units on one semaphore, each trying to enter: five are inside,
    the sixth still waits. *)
Example sixth_unit_waits :
  running (run_actions (map Acquire (seq 0 6)) (start _AUDIT_SEM 6)) = 5
  /\ free (run_actions (map Acquire (seq 0 6)) (start _AUDIT_SEM 6)) = 0
  /\ nth_error (units (run_actions (map Acquire (seq 0 6)) (start _AUDIT_SEM 6))) 5
     = Some {| phase_of := Queued; requests := 0 |}.
Proof. vm_compute. repeat split. Qed.

(** C2 on a remote that answers 403 four times: three waits, four
    requests, and the fourth response is returned. *)
Lemma fetch_with_retry_budget_witness :
  exists s',
    _fetch_with_retry rate_limited_forever [] [] None max_retries_default
      initial_net = (Ret (rate_limited None), s')
    /\ length (issued s') = 4
    /\ length (slept s') = 3.
Proof.
  destruct (fetch_with_retry_budget rate_limited_forever [] [] None initial_net
              [rate_limited None; rate_limited (Some 1010%Z);
               rate_limited (Some 5000%Z)]
              (rate_limited None))
    as (s' & Hrun & Hissued & Hslept & _).
  - unfold max_retries_default. simpl. lia.
  - repeat constructor.
  - left. reflexivity.
  - intros [| [| [| [| k]]]] x Hk; simpl in Hk;
      try (injection Hk as <-; reflexivity).
    destruct k; discriminate.
  - exists s'. repeat split; assumption.
Defined.

(** C3 on the same remote: 30 seconds without a reset header, 10 seconds
    to a reset ten seconds ahead, 120 seconds when the reset is far. *)
Lemma rate_limit_waits_witness :
  slept (snd (_fetch_with_retry rate_limited_forever [] [] None
                max_retries_default initial_net))
  = [30; 10; 120]%Z.
Proof.
  refine (proj1 (rate_limit_waits rate_limited_forever [] [] None initial_net
                   [rate_limited None; rate_limited (Some 1010%Z);
                    rate_limited (Some 5000%Z)]
                   (rate_limited None) _ _ _ _)).
  - unfold max_retries_default. simpl. lia.
  - repeat constructor.
  - left. reflexivity.
  - intros [| [| [| [| k]]]] x Hk; simpl in Hk;
      try (injection Hk as <-; reflexivity).
    destruct k; discriminate.
Defined.

(** C4 on pages of 100, 100 and 37 items: 237 items, 4 requests. *)
Lemma fetch_all_repos_collects_witness :
  exists repos s',
    _fetch_all_repos (paged_session three_pages) "acme" (_gh_headers "token") 4
      initial_net = (Ret repos, s')
    /\ length repos = 237
    /\ length (issued s') = 4
    /\ map page_of (issued s') = [1; 2; 3; 4]%Z.
Proof.
  eexists _, _. split.
  - apply (fetch_all_repos_collects (paged_session three_pages) "acme"
             (_gh_headers "token") three_pages 4 initial_net).
    + repeat constructor; discriminate.
    + simpl. lia.
    + intros k Hk. eexists. split; [reflexivity |].
      split; [reflexivity |].
      destruct k as [| [| [| [| k]]]]; try reflexivity.
      simpl in Hk. lia.
  - repeat split; reflexivity.
Defined.

(** C7 on a remote that is down when the second page is asked for: the
    repository already collected is dropped. *)
Lemma fetch_all_repos_aborts_witness :
  fst (fetch_all_repos_loop unavailable_org "acme" (_gh_headers "token") 1
         [sample_repo "api" false] 2%Z initial_net)
  = Raise (HTTPException 503 (VStr "GitHub API error: Service Unavailable")).
Proof.
  rewrite (fetch_all_repos_aborts unavailable_org "acme" (_gh_headers "token") 0
             [sample_repo "api" false] 2%Z initial_net
             (error_response 503 "Service Unavailable")
             {| issued := [page_request "acme" (_gh_headers "token") 2%Z];
                slept := []; permits := permits initial_net |}).
  - reflexivity.
  - reflexivity.
  - discriminate.
Defined.

(** C8 on a remote that refuses the credential: one [error] event. *)
Lemma entity_list_failure_single_error_witness :
  emitted (snd (run_stream unit sample_now sample_fromisoformat sample_strftime
                  sample_days_between Members unauthorized_org "token" "acme"
                  3 [] initial_gen))
  = [EvError (VStr "Bad credentials")].
Proof.
  refine (proj2 (entity_list_failure_single_error unit sample_now
                   sample_fromisoformat sample_strftime sample_days_between
                   Members unauthorized_org "token" "acme" 3 [] initial_gen
                   401%Z (VStr "Bad credentials")
                   {| issued := [{| url := [Lit GH_API; Lit "/orgs/";
                                            Interp (VStr "acme"); Lit "/members"];
                                    headers := _gh_headers "token";
                                    params := page_params 1 |}];
                      slept := []; permits := permits initial_net |} _) _).
  - reflexivity.
  - reflexivity.
Defined.

(** C5 on the sample organization, the third repository finishing first:
    progress counts 1, 2, 3. *)
Lemma progress_counts_of_successful_run_witness :
  exists body,
    emitted (snd (run_stream unit sample_now sample_fromisoformat sample_strftime
                    sample_days_between Repos sample_org "token" "acme"
                    5 [2; 0] initial_gen))
      = EvStart 3 :: body ++ [EvDone]
    /\ progress_counts body = [1; 2; 3].
Proof.
  destruct (progress_counts_of_successful_run unit sample_now
              sample_fromisoformat sample_strftime sample_days_between
              Repos sample_org "token" "acme" 5 [2; 0] initial_gen
              (snd (run_stream unit sample_now sample_fromisoformat
                      sample_strftime sample_days_between Repos sample_org
                      "token" "acme" 5 [2; 0] initial_gen))
              [sample_repo "api" false; sample_repo "old" true;
               sample_repo "web" false]
              (snd (_fetch_all_repos sample_org "acme" (_gh_headers "token") 5
                      initial_net)))
    as (body & Hem & _ & Hcounts & _).
  - vm_compute. reflexivity.
  - vm_compute. reflexivity.
  - exists body. split; [exact Hem | exact Hcounts].
Defined.


(** C10 on the sample organization: the branch audit starts with a total
    of 2 and reports the two repositories that are not archived. *)
Lemma archived_repositories_excluded_witness :
  exists body,
    emitted (snd (run_stream unit sample_now sample_fromisoformat sample_strftime
                    sample_days_between Branches sample_org "token" "acme"
                    5 [1] initial_gen))
      = EvStart 2 :: body ++ [EvDone]
    /\ Permutation (progress_names body) [VStr "api"; VStr "web"].
Proof.
  refine (proj1 (archived_repositories_excluded unit sample_now
                   sample_fromisoformat sample_strftime sample_days_between
                   Branches sample_org "token" "acme" 5 [1] initial_gen
                   (snd (run_stream unit sample_now sample_fromisoformat
                           sample_strftime sample_days_between Branches
                           sample_org "token" "acme" 5 [1] initial_gen))
                   [sample_repo "api" false; sample_repo "old" true;
                    sample_repo "web" false]
                   (snd (_fetch_all_repos sample_org "acme"
                           (_gh_headers "token") 5 initial_net))
                   _ _) (or_introl eq_refl)).
  - vm_compute. reflexivity.
  - vm_compute. reflexivity.
Defined.



(** X2 on a remote that answers 403 once and then breaks: two requests,
    one wait of 30 seconds, and the transport failure. *)
Lemma transport_failure_not_retried_witness :
  _fetch_with_retry flaky_org [] [] None max_retries_default initial_net =
    (Raise ClientError,
     {| issued := repeat (request_of [] [] None) 2;
        slept := [30%Z];
        permits := permits initial_net |}).
Proof.
  refine (transport_failure_not_retried flaky_org [] [] None initial_net
            [rate_limited None] _ _ _ _).
  - unfold max_retries_default. simpl. lia.
  - repeat constructor.
  - intros [| k] x Hk; simpl in Hk.
    + injection Hk as <-. reflexivity.
    + destruct k; discriminate.
  - reflexivity.
Defined.

(** X3 on the remote that is rate limited for good. *)
Lemma fetch_all_repos_rate_limited_witness :
  fst (_fetch_all_repos rate_limited_forever "acme" (_gh_headers "token") 1
         initial_net)
  = Raise (HTTPException 403 (VStr "GitHub API error: rate limit exceeded")).
Proof.
  refine (f_equal fst
            (fetch_all_repos_rate_limited rate_limited_forever "acme"
               (_gh_headers "token") 0 initial_net
               (rate_limited None) (rate_limited (Some 1010%Z))
               (rate_limited (Some 5000%Z)) (rate_limited None) _)).
  intros [| [| [| [| k]]]] x Hk; simpl in Hk;
    try (injection Hk as <-; split; reflexivity).
  destruct k; discriminate.
Defined.

(** X4 on the sample organization: three repositories, one archived, none
    private. *)
Lemma get_basic_stats_counts_witness :
  exists all_repos,
    _fetch_all_repos sample_org "acme" (_gh_headers "token") 5 initial_net
      = (Ret all_repos,
         snd (get_basic_stats sample_org "token" "acme" 5 initial_net))
    /\ VDict [ ("total_repositories", VInt 3);
               ("active_repositories", VInt 2);
               ("archived_repositories", VInt 1);
               ("private_repositories", VInt 0);
               ("public_repositories", VInt 3) ]
       = VDict [
         ("total_repositories", VInt (Z.of_nat (length all_repos)));
         ("active_repositories",
          VInt (Z.of_nat (length (filter (fun r => negb (has_flag "archived" r))
                                    all_repos))));
         ("archived_repositories",
          VInt (Z.of_nat (length (filter (has_flag "archived") all_repos))));
         ("private_repositories",
          VInt (Z.of_nat (length (filter (has_flag "private") all_repos))));
         ("public_repositories",
          VInt (Z.of_nat (length (filter (fun r => negb (has_flag "private" r))
                                    all_repos)))) ].
Proof.
  refine (get_basic_stats_counts sample_org "token" "acme" 5 initial_net _ _ _).
  vm_compute. reflexivity.
Defined.

(** X5 on a branch under a pull-request rule: direct push is not allowed. *)
Lemma check_branch_rules_result_witness :
  _check_branch_rules guarded_branch "acme" (VStr "api") (VStr "main")
    (_gh_headers "token") initial_net
    = (Ret (false, true),
       snd (_check_branch_rules guarded_branch "acme" (VStr "api") (VStr "main")
              (_gh_headers "token") initial_net))
  /\ exists rules,
       length rules = 2
       /\ false = negb (existsb is_pull_request_rule rules).
Proof.
  assert (Hrun :
    _check_branch_rules guarded_branch "acme" (VStr "api") (VStr "main")
      (_gh_headers "token") initial_net
    = (Ret (false, true),
       snd (_check_branch_rules guarded_branch "acme" (VStr "api") (VStr "main")
              (_gh_headers "token") initial_net)))
    by (vm_compute; reflexivity).
  split; [exact Hrun |].
  destruct (check_branch_rules_result guarded_branch "acme" (VStr "api")
              (VStr "main") (_gh_headers "token") initial_net
              (ok_response
                 [ VDict [("type", VStr "deletion")];
                   VDict [("type", VStr "pull_request");
                          ("parameters",
                           VDict [("required_approving_review_count",
                                   VInt 2)])] ])
              _ false true _ eq_refl Hrun) as (_ & Hok & _).
  destruct (Hok eq_refl) as (rules & Hrules & Hallows).
  exists rules. split; [| exact Hallows].
  injection Hrules as <-. reflexivity.
Defined.

(** X6 on a repository whose file is the third path asked for. *)
Lemma check_codeowners_any_witness :
  fst (_check_codeowners owned_repo "acme" (VStr "api") (_gh_headers "token")
         initial_net) = Ret true.
Proof.
  refine (f_equal fst
            (check_codeowners_any owned_repo "acme" (VStr "api")
               (_gh_headers "token") initial_net
               (error_response 404 "Not Found") (error_response 404 "Not Found")
               (ok_response []) _)).
  intros [| [| [| k]]] path x Hk; simpl in Hk;
    try (injection Hk as <- <-; split; [reflexivity | discriminate]).
  destruct k; discriminate.
Defined.

(** X7 on the listing cut short: the two administrators of the first page
    are dropped. *)
Lemma get_admins_drops_partial_witness :
  fst (_get_admins interrupted_listing "acme" (VStr "api") (_gh_headers "token")
         2 initial_net) = Ret (0, EmptyString).
Proof.
  refine (f_equal fst
            (get_admins_drops_partial interrupted_listing "acme" (VStr "api")
               (_gh_headers "token") [[sample_user "ann"; sample_user "bob"]]
               0 initial_net (error_response 502 "Bad Gateway") _ _ _ _ _)).
  - repeat constructor; try discriminate; eexists; reflexivity.
  - intros [| k] Hk; [| simpl in Hk; lia].
    eexists. repeat split; reflexivity.
  - reflexivity.
  - discriminate.
  - discriminate.
Defined.

(** X8 on the complete listing: three administrators, in the order of the
    pages. *)
Lemma get_admins_collects_witness :
  fst (_get_admins complete_listing "acme" (VStr "api") (_gh_headers "token")
         3 initial_net) = Ret (3, "ann, bob, cy"%string).
Proof.
  destruct (get_admins_collects complete_listing "acme" (VStr "api")
              (_gh_headers "token")
              [[sample_user "ann"; sample_user "bob"]; [sample_user "cy"]]
              0 initial_net (ok_response []))
    as (names & Hnames & Hrun).
  - repeat constructor; try discriminate; eexists; reflexivity.
  - intros [| [| k]] Hk; [| | simpl in Hk; lia];
      eexists; repeat split; reflexivity.
  - reflexivity.
  - reflexivity.
  - reflexivity.
  - injection Hnames as <-. exact (f_equal fst Hrun).
Defined.

(** X9 on the listing cut short: the two branches of the first page are
    counted. *)
Lemma get_branch_count_keeps_partial_witness :
  fst (_get_branch_count interrupted_listing "acme" (VStr "api")
         (_gh_headers "token") 2 initial_net) = Ret 2.
Proof.
  refine (f_equal fst
            (get_branch_count_keeps_partial interrupted_listing "acme"
               (VStr "api") (_gh_headers "token")
               [[sample_user "ann"; sample_user "bob"]]
               0 initial_net (error_response 502 "Bad Gateway") _ _ _ _ _)).
  - repeat constructor; discriminate.
  - intros [| k] Hk; [| simpl in Hk; lia].
    eexists. repeat split; reflexivity.
  - reflexivity.
  - discriminate.
  - left. discriminate.
Defined.

(** X10 on a repository of the sample organization: every other resource
    being unknown, the record has no administrator and one branch. *)
Lemma audit_single_repo_record_witness :
  exists record,
    fst (_audit_single_repo _AUDIT_SEM sample_org "acme"
           (sample_repo "api" false) (_gh_headers "token") 5 initial_net)
      = Ret (VDict record)
    /\ map fst record = audit_columns
    /\ lookup "repository" record = Some (VStr "api")
    /\ lookup "owner" record = Some (VStr "acme")
    /\ lookup "default_branch" record = Some (VStr "main")
    /\ lookup "admin_count" record = Some (VInt 0)
    /\ lookup "branch_count" record = Some (VInt 1).
Proof.
  destruct (audit_single_repo_record _AUDIT_SEM sample_org "acme"
              (sample_repo "api" false) (_gh_headers "token") 5 initial_net
              (match fst (_audit_single_repo _AUDIT_SEM sample_org "acme"
                            (sample_repo "api" false) (_gh_headers "token") 5
                            initial_net) with
               | Ret result => result
               | _ => VNone
               end)
              (snd (_audit_single_repo _AUDIT_SEM sample_org "acme"
                      (sample_repo "api" false) (_gh_headers "token") 5
                      initial_net)))
    as (record & Hresult & Hcolumns & _).
  - vm_compute. reflexivity.
  - exists record. vm_compute in Hresult. injection Hresult as <-.
    repeat split; reflexivity.
Defined.

(** X11 on a repository that has only its flag. *)
Lemma audit_single_repo_without_name_witness :
  exists s',
    _audit_single_repo _AUDIT_SEM sample_org "acme"
      (VDict [("archived", VBool false)]) (_gh_headers "token") 5 initial_net
      = (Raise (KeyError "name"), s')
    /\ issued s' = []
    /\ slept s' = []
    /\ forall x, permits s' x = 5.
Proof.
  refine (audit_single_repo_without_name _AUDIT_SEM sample_org "acme"
            [("archived", VBool false)] (_gh_headers "token") 5 initial_net
            _ _).
  - simpl. lia.
  - reflexivity.
Defined.

(** X12 on a repository with two collaborators: one writes, one reads. *)
Lemma get_repo_access_records_witness :
  Forall (is_access_record (VStr "api"))
    [ VDict [("repository", VStr "api"); ("username", VStr "ann");
             ("permission", VStr "write")];
      VDict [("repository", VStr "api"); ("username", VStr "bob");
             ("permission", VStr "read")] ].
Proof.
  refine (get_repo_access_records sample_collaborators "acme" (VStr "api")
            (_gh_headers "token") 3 initial_net _
            (snd (_get_repo_access sample_collaborators "acme" (VStr "api")
                    (_gh_headers "token") 3 initial_net)) _).
  vm_compute. reflexivity.
Defined.

(** X13 on a repository with two branches: the one that names a commit has
    a date and an age, the other has neither. *)
Lemma get_branch_details_records_witness :
  Forall (is_branch_record (VStr "api"))
    [ VDict [("repository", VStr "api"); ("branch_name", VStr "main");
             ("last_commit_date", VStr "1970-01-01"); ("age_days", VInt 0);
             ("protected", VBool true)];
      VDict [("repository", VStr "api"); ("branch_name", VStr "wip");
             ("last_commit_date", VNone); ("age_days", VNone);
             ("protected", VBool false)] ].
Proof.
  refine (get_branch_details_records unit sample_now sample_fromisoformat
            sample_strftime sample_days_between sample_branches "acme"
            (VStr "api") (_gh_headers "token") 3 initial_net _
            (snd (_get_branch_details unit sample_now sample_fromisoformat
                    sample_strftime sample_days_between sample_branches "acme"
                    (VStr "api") (_gh_headers "token") 3 initial_net)) _).
  vm_compute. reflexivity.
Defined.

(** X14 on a team listed with four members, on a remote that cannot be
    reached: no request is needed. *)
Lemma team_details_without_request_witness :
  exists s',
    _get_team_details _TEAM_SEM offline_org "acme"
      (VDict [("name", VStr "core"); ("slug", VStr "core");
              ("members_count", VInt 4)])
      (_gh_headers "token") initial_net =
      (Ret (VDict [
         ("name", VStr "core");
         ("description", VStr "No description");
         ("privacy", VStr "closed");
         ("members_count", VInt 4);
         ("repos_count", VInt 0) ]), s')
    /\ issued s' = []
    /\ slept s' = [].
Proof.
  refine (team_details_without_request _TEAM_SEM offline_org "acme"
            [("name", VStr "core"); ("slug", VStr "core");
             ("members_count", VInt 4)]
            (_gh_headers "token") initial_net _ _).
  - simpl. lia.
  - reflexivity.
Defined.

(** X15 on a remote that refuses the credential. *)
Lemma member_details_defaults_witness :
  exists s',
    _get_member_details unit sample_now sample_fromisoformat sample_strftime
      sample_days_between _MEMBER_SEM unauthorized_org "acme" (VStr "ann")
      (_gh_headers "token") initial_net =
      (Ret (VDict [
         ("username", VStr "ann");
         ("role", VStr "member");
         ("email", VStr "N/A");
         ("last_activity", VStr "No recent activity");
         ("days_inactive", VInt 91) ]), s').
Proof.
  refine (member_details_defaults unit sample_now sample_fromisoformat
            sample_strftime sample_days_between _MEMBER_SEM unauthorized_org
            "acme" (VStr "ann") (_gh_headers "token") initial_net _ _).
  - intros n q. eexists. split; [reflexivity | discriminate].
  - simpl. lia.
Defined.

(** X16 on a remote that cannot be reached: the repository audit ends with
    the transport failure and emits nothing. *)
Lemma entity_list_exception_no_event_witness :
  run_stream unit sample_now sample_fromisoformat sample_strftime
    sample_days_between Repos offline_org "token" "acme" 3 [] initial_gen =
    (Raise ClientError,
     {| network := {| issued := [page_request "acme" (_gh_headers "token") 1];
                      slept := []; permits := permits initial_net |};
        emitted := []; delivered := [] |}).
Proof.
  refine (entity_list_exception_no_event unit sample_now sample_fromisoformat
            sample_strftime sample_days_between Repos offline_org "token"
            "acme" 3 [] initial_gen ClientError _ _ _).
  - reflexivity.
  - intros status_code detail. discriminate.
Defined.

(** X17 on a remote that refuses the credential: the team audit reports
    the message of the remote. *)
Lemma member_and_team_streams_report_message_witness :
  emitted (snd (run_stream unit sample_now sample_fromisoformat sample_strftime
                  sample_days_between Teams unauthorized_org "token" "acme"
                  3 [] initial_gen))
  = [EvError (VStr "Bad credentials")].
Proof.
  refine (f_equal (fun r => emitted (snd r))
            (member_and_team_streams_report_message unit sample_now
               sample_fromisoformat sample_strftime sample_days_between
               Teams unauthorized_org "token" "acme" 2 [] initial_gen
               (error_response 401 "Bad credentials")
               [("message", VStr "Bad credentials")] _ _ _ _ _)).
  - right. reflexivity.
  - reflexivity.
  - discriminate.
  - discriminate.
  - reflexivity.
Defined.

(** X18 on an organization of two teams, the second finishing first. *)
Lemma member_and_team_streams_cover_all_witness :
  exists body,
    emitted (snd (run_stream unit sample_now sample_fromisoformat sample_strftime
                    sample_days_between Teams sample_teams_org "token" "acme"
                    3 [1] initial_gen))
      = EvStart 2 :: body ++ [EvDone]
    /\ Permutation (progress_names body) [VStr "core"; VStr "ops"].
Proof.
  refine (member_and_team_streams_cover_all unit sample_now
            sample_fromisoformat sample_strftime sample_days_between
            Teams sample_teams_org "token" "acme" 3 [1] initial_gen
            (snd (run_stream unit sample_now sample_fromisoformat
                    sample_strftime sample_days_between Teams sample_teams_org
                    "token" "acme" 3 [1] initial_gen))
            sample_teams
            (snd (_fetch_all_teams sample_teams_org "acme"
                    (_gh_headers "token") 3 initial_net))
            _ _ _).
  - right. reflexivity.
  - vm_compute. reflexivity.
  - vm_compute. reflexivity.
Defined.


(** X20 on an organization whose only repository is archived. *)
Lemma stream_without_units_witness :
  emitted (snd (run_stream unit sample_now sample_fromisoformat sample_strftime
                  sample_days_between Branches archived_org "token" "acme"
                  3 [] initial_gen))
  = [EvStart 0; EvDone].
Proof.
  refine (f_equal (fun r => emitted (snd r))
            (stream_without_units unit sample_now sample_fromisoformat
               sample_strftime sample_days_between Branches archived_org
               "token" "acme" 3 [] initial_gen [sample_repo "old" true]
               (snd (_fetch_all_repos archived_org "acme" (_gh_headers "token")
                       3 initial_net))
               _ _)).
  - vm_compute. reflexivity.
  - reflexivity.
Defined.

(** X21 on a member list whose second entry has no login. *)
Lemma entity_without_name_ends_stream_witness :
  exists g',
    run_stream unit sample_now sample_fromisoformat sample_strftime
      sample_days_between Members nameless_member_org "token" "acme" 3 []
      initial_gen = (Raise (KeyError "login"), g')
    /\ emitted g' = []
    /\ delivered g' = [].
Proof.
  refine (entity_without_name_ends_stream unit sample_now sample_fromisoformat
            sample_strftime sample_days_between Members nameless_member_org
            "token" "acme" 3 [] initial_gen [sample_user "ann"]
            [("id", VInt 7)] []
            (snd (_fetch_all_members nameless_member_org "acme"
                    (_gh_headers "token") 3 initial_net))
            _ _ _ _ _).
  - discriminate.
  - vm_compute. reflexivity.
  - repeat constructor. eexists. reflexivity.
  - reflexivity.
  - intros [H | H]; discriminate H.
Defined.

(** X22 on a member who is an administrator, hides the e-mail address and
    has one event. *)
Lemma member_details_record_witness :
  is_member_record unit sample_strftime sample_days_between (VStr "ann")
    (VDict [("username", VStr "ann"); ("role", VStr "admin");
            ("email", VStr "N/A"); ("last_activity", VStr "1970-01-01");
            ("days_inactive", VInt 0)]).
Proof.
  refine (member_details_record unit sample_now sample_fromisoformat
            sample_strftime sample_days_between _MEMBER_SEM sample_member
            "acme" (VStr "ann") (_gh_headers "token") initial_net _
            (snd (_get_member_details unit sample_now sample_fromisoformat
                    sample_strftime sample_days_between _MEMBER_SEM
                    sample_member "acme" (VStr "ann") (_gh_headers "token")
                    initial_net)) _).
  vm_compute. reflexivity.
Defined.


(** X24 on the complete listing: the three members, in the order of the
    pages. *)
Lemma member_and_team_lists_collect_witness :
  fst (_fetch_all_members complete_listing "acme" (_gh_headers "token") 3
         initial_net)
  = Ret [sample_user "ann"; sample_user "bob"; sample_user "cy"].
Proof.
  refine (f_equal fst
            (member_and_team_lists_collect Members complete_listing "acme"
               (_gh_headers "token")
               [[sample_user "ann"; sample_user "bob"]; [sample_user "cy"]]
               0 initial_net (ok_response []) _ _ _ _ _ _)).
  - left. reflexivity.
  - repeat constructor; discriminate.
  - intros [| [| i]] Hi; [| | simpl in Hi; lia];
      eexists; repeat split; reflexivity.
  - reflexivity.
  - reflexivity.
  - reflexivity.
Defined.

(** X25 on the listing cut short: the two teams of the first page are
    dropped. *)
Lemma member_and_team_lists_abort_witness :
  fst (_fetch_all_teams interrupted_listing "acme" (_gh_headers "token") 2
         initial_net)
  = Raise (HTTPException 502 (VStr "Bad Gateway")).
Proof.
  refine (f_equal fst
            (member_and_team_lists_abort Teams interrupted_listing "acme"
               (_gh_headers "token") [[sample_user "ann"; sample_user "bob"]]
               0 initial_net (error_response 502 "Bad Gateway")
               [("message", VStr "Bad Gateway")] _ _ _ _ _ _ _)).
  - right. reflexivity.
  - repeat constructor; discriminate.
  - intros [| i] Hi; [| simpl in Hi; lia].
    eexists. repeat split; reflexivity.
  - reflexivity.
  - discriminate.
  - discriminate.
  - reflexivity.
Defined.
